(** * org-mcp: the document model of [src/org_mcp/server.py]

    A shallow embedding of the heading parser ([extract_headings]), the
    heading locator ([read_heading]), the heading mutator
    ([modify_heading]) and the scheduled-item extractor
    ([extract_scheduled_items]), together with the parts of the Python
    runtime they rest on: [str.splitlines], [str.join],
    [str.startswith] / [str.endswith] and the backtracking matcher of the
    [re] module. *)

From Stdlib Require Import String Ascii.
From Stdlib Require Import List NArith ZArith Bool Arith Wf_nat Lia.
From Stdlib Require Import Permutation Sorted.
Import ListNotations.

Set Implicit Arguments.

(** ** Python strings

    A Python [str] is a sequence of Unicode code points.  A code point is
    a number; a text is a list of them. *)

Definition char := N.
Definition text := list char.

Definition chr (a : ascii) : char := N_of_ascii a.

(** [str "abc"] is the text of an ASCII literal of the source. *)
Definition str (s : string) : text := map chr (list_ascii_of_string s).

Module Py.

(** [a == b] on [str]. *)
Fixpoint eqb (a b : text) : bool :=
  match a, b with
  | [], [] => true
  | x :: a', y :: b' => N.eqb x y && eqb a' b'
  | _, _ => false
  end.

(** [s.startswith(p)]. *)
Fixpoint startswith (s p : text) {struct p} : bool :=
  match p, s with
  | [], _ => true
  | y :: p', x :: s' => N.eqb x y && startswith s' p'
  | _ :: _, [] => false
  end.

(** [s.endswith(p)]. *)
Definition endswith (s p : text) : bool := startswith (rev s) (rev p).

(** [sep.join(parts)]. *)
Fixpoint join (sep : text) (parts : list text) : text :=
  match parts with
  | [] => []
  | [x] => x
  | x :: rest => x ++ sep ++ join sep rest
  end.

(** The characters at which [str.splitlines] ends a line:
    LF, VT, FF, CR, FS, GS, RS, NEL, LS and PS. *)
Definition is_linebreak (c : char) : bool :=
  existsb (N.eqb c) [10; 11; 12; 13; 28; 29; 30; 133; 8232; 8233]%N.

(** [str.isspace] on one character, which is also the class [\s] of
    the [re] module on [str] patterns. *)
Definition is_space (c : char) : bool :=
  ((9 <=? c) && (c <=? 13) || (28 <=? c) && (c <=? 32)
   || (8192 <=? c) && (c <=? 8202)
   || existsb (N.eqb c) [133; 160; 5760; 8232; 8233; 8239; 8287; 12288])%N.

(** The lines of a text, each with the terminator that followed it
    (empty for an unterminated last line).  CR LF is one terminator.
    This is the loop shared by [splitlines()] and
    [splitlines(keepends=True)]. *)
Fixpoint split_ends (s : text) : list (text * text) :=
  match s with
  | [] => []
  | c :: t =>
      if is_linebreak c then
        match t with
        | c' :: t' =>
            if N.eqb c 13 && N.eqb c' 10
            then ([], [c; c']) :: split_ends t'
            else ([], [c]) :: split_ends t
        | [] => [([], [c])]
        end
      else
        match split_ends t with
        | [] => [([c], [])]
        | (l, e) :: r => (c :: l, e) :: r
        end
  end.

(** [s.splitlines()]. *)
Definition splitlines (s : text) : list text := map fst (split_ends s).

(** [s.splitlines(keepends=True)]. *)
Definition splitlines_keepends (s : text) : list text :=
  map (fun le => fst le ++ snd le) (split_ends s).

End Py.

(** ** The [re] module

    A backtracking matcher in continuation-passing style, with the
    semantics of Python's [re]: alternatives are tried left to right,
    repetitions are greedy and give characters back one iteration at a
    time, a group records the text it last matched. *)

Module Re.

Inductive regex : Type :=
| Eps                              (* the empty pattern *)
| Cls (p : char -> bool)           (* one character of a class *)
| Seq (a b : regex)                (* ab *)
| Alt (a b : regex)                (* a|b *)
| Star (a : regex)                 (* a*, greedy *)
| Opt (a : regex)                  (* a?, greedy *)
| Group (n : nat) (a : regex)      (* (a), capturing group number n *)
| Bol                              (* ^ *)
| Eol.                             (* $ *)

Definition Lit (c : char) : regex := Cls (N.eqb c).
Definition Plus (a : regex) : regex := Seq a (Star a).
Definition cat (rs : list regex) : regex := fold_right Seq Eps rs.
Definition Word (w : text) : regex := cat (map Lit w).
Fixpoint Times (n : nat) (a : regex) : regex :=
  match n with
  | O => Eps
  | S n' => Seq a (Times n' a)
  end.

(** [.] without DOTALL: anything but a newline. *)
Definition Dot : regex := Cls (fun c => negb (N.eqb c 10)).
(** [\s]. *)
Definition Space : regex := Cls Py.is_space.
(** [[^c]]. *)
Definition NotChr (c : char) : regex := Cls (fun x => negb (N.eqb x c)).

(** Captured groups, latest binding first. *)
Definition groups := list (nat * text).

Fixpoint group (g : groups) (n : nat) : option text :=
  match g with
  | [] => None
  | (k, v) :: g' => if Nat.eqb k n then Some v else group g' n
  end.

(** A continuation receives the rest of the subject, the position
    reached and the groups captured so far. *)
Definition cont := text -> nat -> groups -> option groups.

Fixpoint m (r : regex) (s : text) (i : nat) (g : groups) (k : cont)
  : option groups :=
  match r with
  | Eps => k s i g
  | Cls p =>
      match s with
      | c :: t => if p c then k t (S i) g else None
      | [] => None
      end
  | Seq a b => m a s i g (fun s' i' g' => m b s' i' g' k)
  | Alt a b =>
      match m a s i g k with
      | Some x => Some x
      | None => m b s i g k
      end
  | Star a =>
      (fix loop (fuel : nat) (s : text) (i : nat) (g : groups)
         : option groups :=
         match fuel with
         | O => k s i g
         | S fuel' =>
             match m a s i g
                     (fun s' i' g' =>
                        if length s' <? length s
                        then loop fuel' s' i' g' else None) with
             | Some x => Some x
             | None => k s i g
             end
         end) (length s) s i g
  | Opt a =>
      match m a s i g k with
      | Some x => Some x
      | None => k s i g
      end
  | Group n a =>
      m a s i g (fun s' i' g' => k s' i' ((n, firstn (i' - i) s) :: g'))
  | Bol => if Nat.eqb i 0 then k s i g else None
  | Eol =>
      match s with
      | [] => k s i g
      | [c] => if N.eqb c 10 then k s i g else None
      | _ => None
      end
  end.

Definition accept : cont := fun _ _ g => Some g.

(** [pattern.match(s)]: a match starting at the beginning of [s]. *)
Definition rmatch (r : regex) (s : text) : option groups :=
  m (Group 0 r) s 0 [] accept.

(** [pattern.search(s)]: the match at the leftmost position that has
    one. *)
Fixpoint search_from (r : regex) (s : text) (i : nat) : option groups :=
  match m (Group 0 r) s i [] accept with
  | Some x => Some x
  | None =>
      match s with
      | [] => None
      | _ :: t => search_from r t (S i)
      end
  end.

Definition search (r : regex) (s : text) : option groups :=
  search_from r s 0.

End Re.

Import Re.

(** ** The patterns of the source *)

(** The heading pattern compiled at server.py:83 and again at
    server.py:364: start of string, group 1 = one or more stars, one or
    more whitespace characters, group 2 = any run of characters other
    than newline, end of string. *)
Definition heading_pattern : regex :=
  cat [Bol; Group 1 (Plus (Lit (chr "*"))); Plus Space;
       Group 2 (Star Dot); Eol].

(** The todo pattern of server.py:100: group 1 = TODO, DONE or
    IN-PROGRESS, one or more whitespace characters, group 2 = any run of
    characters other than newline. *)
Definition todo_pattern : regex :=
  cat [Group 1 (Alt (Word (str "TODO"))
                  (Alt (Word (str "DONE")) (Word (str "IN-PROGRESS"))));
       Plus Space; Group 2 (Star Dot)].

(** [match.group(n)] of a group that took part in the match. *)
Definition grp (mt : groups) (n : nat) : text :=
  match group mt n with
  | Some t => t
  | None => []
  end.

Definition NL : text := [10%N].

(** ** HeadingParser: [extract_headings] (server.py:69-121) *)

(** A heading dictionary with all five keys. *)
Record heading : Type := mkHeading {
  level : nat;
  title : text;
  raw : text;
  todo_state : option text;
  content : text
}.

(** The dictionary built at server.py:106-111, whose ["content"] key is
    not set yet. *)
Record open_heading : Type := mkOpen {
  o_level : nat;
  o_title : text;
  o_raw : text;
  o_todo_state : option text
}.

(** [current_heading["content"] = c]. *)
Definition set_content (o : open_heading) (c : text) : heading :=
  {| level := o_level o; title := o_title o; raw := o_raw o;
     todo_state := o_todo_state o; content := c |}.

(** The three local variables of the loop. *)
Record parser_state : Type := mkState {
  headings : list heading;
  current_heading : option open_heading;
  heading_content : list text
}.

Definition initial_state : parser_state :=
  {| headings := []; current_heading := None; heading_content := [] |}.

(** server.py:90-93 and 117-119: save the heading being collected. *)
Definition flush (st : parser_state) : parser_state :=
  match current_heading st with
  | Some cur =>
      {| headings :=
           headings st ++ [set_content cur (Py.join NL (heading_content st))];
         current_heading := Some cur;
         heading_content := [] |}
  | None => st
  end.

(** server.py:96-111: the new entry for a line that matched. *)
Definition new_entry (line : text) (heading_match : groups) : open_heading :=
  let stars := grp heading_match 1 in
  let title := grp heading_match 2 in
  match rmatch todo_pattern title with
  | Some todo_match =>
      {| o_level := length stars; o_title := grp todo_match 2;
         o_raw := line; o_todo_state := Some (grp todo_match 1) |}
  | None =>
      {| o_level := length stars; o_title := title;
         o_raw := line; o_todo_state := None |}
  end.

(** One iteration of the loop over the lines. *)
Definition parse_line (st : parser_state) (line : text) : parser_state :=
  match rmatch heading_pattern line with
  | Some heading_match =>
      let st' := flush st in
      {| headings := headings st';
         current_heading := Some (new_entry line heading_match);
         heading_content := heading_content st' |}
  | None =>
      match current_heading st with
      | Some _ =>
          {| headings := headings st;
             current_heading := current_heading st;
             heading_content := heading_content st ++ [line] |}
      | None => st
      end
  end.

(** The parser on the lines of the document. *)
Definition parse_lines (lines : list text) : list heading :=
  headings (flush (fold_left parse_line lines initial_state)).

Definition extract_headings (content : text) : list heading :=
  parse_lines (Py.splitlines content).

(** ** The collaborators: environment and files *)

(** What [open(path, encoding="utf-8").read()] does: the decoded text, or
    the message [str(e)] of the exception raised. *)
Inductive read_result : Type :=
| ReadOk (content : text)
| ReadRaises (message : text).

(** The part of the outside world the tools see. *)
Record world : Type := mkWorld {
  org_dir : text;                          (* get_org_dir() *)
  path_exists : text -> bool;              (* os.path.exists *)
  open_read : text -> read_result;         (* open(p).read() *)
  open_write : text -> option text         (* message of the exception
                                              raised by open(p, "w"),
                                              if any *)
}.

(** [os.path.join(a, b)] on POSIX. *)
Definition path_join (a b : text) : text :=
  if Py.startswith b (str "/") then b
  else match a with
       | [] => b
       | _ => if Py.endswith a (str "/") then a ++ b else a ++ str "/" ++ b
       end.

(** [f.write(data)] on a file opened for writing: afterwards the path
    exists and reads back as [data]. *)
Definition write_file (w : world) (path data : text) : world :=
  {| org_dir := org_dir w;
     path_exists := fun p => if Py.eqb p path then true else path_exists w p;
     open_read := fun p => if Py.eqb p path then ReadOk data else open_read w p;
     open_write := open_write w |}.

(** [read_org_file] (server.py:52-66). *)
Definition read_org_file (w : world) (file_path : text) : text :=
  let full_path := path_join (org_dir w) file_path in
  match open_read w full_path with
  | ReadOk content => content
  | ReadRaises e => str "Error reading file: " ++ e
  end.

(** The two shapes of the list returned by [read_file_headings]: a list
    of heading dictionaries, or a one-element list holding an error
    dictionary. *)
Inductive heading_list : Type :=
| Headings (hs : list heading)
| ErrorRecord (error : text).

(** [read_file_headings] (server.py:125-138). *)
Definition read_file_headings (w : world) (file_path : text) : heading_list :=
  let content := read_org_file w file_path in
  if Py.startswith content (str "Error:") then ErrorRecord content
  else Headings (extract_headings content).

(** ** HeadingLocator: [read_heading] (server.py:142-161) *)

(** A dictionary that is either a result or [{"error": message}]. *)
Inductive reply (A : Type) : Type :=
| Found (a : A)
| Error (message : text).
Arguments Found {A} a.
Arguments Error {A} message.

(** server.py:157-159: the first heading with the requested title. *)
Fixpoint locate (hs : list heading) (heading_title : text) : option heading :=
  match hs with
  | [] => None
  | h :: rest =>
      if Py.eqb (title h) heading_title then Some h
      else locate rest heading_title
  end.

Definition not_found_message (heading_title file_path : text) : text :=
  str "Heading '" ++ heading_title ++ str "' not found in " ++ file_path.

Definition read_heading (w : world) (file_path heading_title : text)
  : reply heading :=
  match read_file_headings w file_path with
  | ErrorRecord e => Error e
  | Headings hs =>
      match locate hs heading_title with
      | Some h => Found h
      | None => Error (not_found_message heading_title file_path)
      end
  end.

(** ** HeadingMutator: [modify_heading] (server.py:298-401) *)

(** [{"status": "success", "message": m}] or [{"error": e}]. *)
Inductive status : Type :=
| Success (message : text)
| Failure (error : text).

(** The two places where the mutator gives up on a title. *)
Inductive not_found : Type :=
| HeadingNotFound          (* server.py:340-341 *)
| HeadingLineNotFound.     (* server.py:377-378 *)

(** ["*" * n]. *)
Definition stars_of (n : nat) : text := repeat (chr "*") n.

(** server.py:343-354: the replacement heading line. *)
Definition heading_line_of (target_heading : heading)
    (new_title new_todo_state : option text) : text :=
  let stars := stars_of (level target_heading) in
  let heading_line := stars ++ str " " in
  let todo_state :=
    match new_todo_state with
    | Some s => Some s
    | None => todo_state target_heading
    end in
  let heading_line :=
    match todo_state with
    | Some (c :: s) => heading_line ++ (c :: s) ++ str " "
    | _ => heading_line
    end in
  let title :=
    match new_title with
    | Some t => t
    | None => title target_heading
    end in
  heading_line ++ title.

(** server.py:357. *)
Definition content_text_of (target_heading : heading)
    (new_content : option text) : text :=
  match new_content with
  | Some c => c
  | None => content target_heading
  end.

(** The test of server.py:367-373 on one line. *)
Definition line_selected (line heading_title : text) : bool :=
  match rmatch heading_pattern line with
  | Some mt =>
      Py.endswith (grp mt 2) heading_title
      && (Py.eqb (grp mt 2) heading_title
          || Py.startswith (grp mt 2) (str "TODO ")
          || Py.startswith (grp mt 2) (str "DONE "))
  | None => false
  end.

Definition is_heading_line (line : text) : bool :=
  match rmatch heading_pattern line with
  | Some _ => true
  | None => false
  end.

(** A loop that scans [lines], numbered from [i], and breaks at the
    first line that passes [test], keeping its number. *)
Fixpoint first_index (test : text -> bool) (lines : list text) (i : nat)
  : option nat :=
  match lines with
  | [] => None
  | line :: rest =>
      if test line then Some i else first_index test rest (S i)
  end.

(** server.py:363-375: [line_number], when the loop sets it. *)
Definition find_line_number (lines : list text) (heading_title : text)
  : option nat :=
  first_index (fun line => line_selected line heading_title) lines 0.

(** server.py:380-385: [end_line], the next heading line after
    [line_number], or the number of lines. *)
Definition find_end_line (lines : list text) (line_number : nat) : nat :=
  match first_index is_heading_line (skipn (S line_number) lines)
          (S line_number) with
  | Some i => i
  | None => length lines
  end.

(** server.py:329-390: from the text read to [new_lines]. *)
Definition modify_lines (content heading_title : text)
    (new_title new_content new_todo_state : option text)
  : not_found + list text :=
  let headings := extract_headings content in
  match locate headings heading_title with
  | None => inl HeadingNotFound
  | Some target_heading =>
      let heading_line :=
        heading_line_of target_heading new_title new_todo_state in
      let content_text := content_text_of target_heading new_content in
      let lines := Py.splitlines content in
      match find_line_number lines heading_title with
      | None => inl HeadingLineNotFound
      | Some line_number =>
          let end_line := find_end_line lines line_number in
          inr (firstn line_number lines ++ [heading_line]
               ++ Py.splitlines content_text ++ skipn end_line lines)
      end
  end.

Definition not_found_text (e : not_found) (heading_title file_path : text)
  : text :=
  match e with
  | HeadingNotFound => not_found_message heading_title file_path
  | HeadingLineNotFound =>
      str "Heading line not found for '" ++ heading_title ++ str "' in "
      ++ file_path
  end.

(** The whole tool: the reply and the world it leaves. *)
Definition modify_heading (w : world) (file_path heading_title : text)
    (new_title new_content new_todo_state : option text) : status * world :=
  let full_path := path_join (org_dir w) file_path in
  if negb (path_exists w full_path)
  then (Failure (str "File " ++ file_path ++ str " does not exist"), w)
  else
    match open_read w full_path with
    | ReadRaises e => (Failure e, w)
    | ReadOk content =>
        match modify_lines content heading_title
                new_title new_content new_todo_state with
        | inl e => (Failure (not_found_text e heading_title file_path), w)
        | inr new_lines =>
            match open_write w full_path with
            | Some e => (Failure e, w)
            | None =>
                (Success (str "Modified heading '" ++ heading_title
                          ++ str "' in " ++ file_path),
                 write_file w full_path (Py.join NL new_lines))
            end
        end
    end.

(** ** ScheduledItemExtractor: [extract_scheduled_items]
    (server.py:434-480) *)

Inductive item_type : Type := scheduled | deadline.

Record scheduled_item : Type := mkItem {
  i_type : item_type;
  i_date : text;
  i_title : text;
  i_todo_state : option text;
  i_level : nat
}.

Section Schedule.

(** The table behind [\d] on [str] patterns: the code points of
    Unicode category Nd known to the running interpreter. *)
Variable is_decimal : char -> bool.

Definition Digit : regex := Cls is_decimal.

(** group 1 of both patterns: four digits, a dash, two digits, a dash,
    two digits. *)
Definition date_pattern : regex :=
  cat [Times 4 Digit; Lit (chr "-"); Times 2 Digit; Lit (chr "-");
       Times 2 Digit].

(** The shape shared by the patterns of server.py:449-450: the
    keyword, any whitespace, an opening angle bracket, the date as
    group 1, optionally a space and a run of characters other than the
    closing bracket, and the closing bracket. *)
Definition marker_pattern (keyword : text) : regex :=
  cat [Word keyword; Star Space; Lit (chr "<"); Group 1 date_pattern;
       Opt (cat [Lit (chr " "); Star (NotChr (chr ">"))]);
       Lit (chr ">")].

Definition scheduled_pattern : regex := marker_pattern (str "SCHEDULED:").
Definition deadline_pattern : regex := marker_pattern (str "DEADLINE:").

Definition item_of (ty : item_type) (date : text) (h : heading)
  : scheduled_item :=
  {| i_type := ty; i_date := date; i_title := title h;
     i_todo_state := todo_state h; i_level := level h |}.

(** server.py:453-478: what one heading appends to the result. *)
Definition items_of_heading (h : heading) : list scheduled_item :=
  let scheduled_match := search scheduled_pattern (content h) in
  let deadline_match := search deadline_pattern (content h) in
  match scheduled_match with
  | Some sm => [item_of scheduled (grp sm 1) h]
  | None => []
  end
  ++
  match deadline_match with
  | Some dm => [item_of deadline (grp dm 1) h]
  | None => []
  end.

(** server.py:452: the loop over the headings. *)
Definition items_of_headings (hs : list heading) : list scheduled_item :=
  fold_left (fun acc h => acc ++ items_of_heading h) hs [].

Definition extract_scheduled_items (content : text) : list scheduled_item :=
  items_of_headings (extract_headings content).

End Schedule.

(** The ten ASCII digits, which every version of the table contains. *)
Definition ascii_decimal (c : char) : bool := (48 <=? c)%N && (c <=? 57)%N.


(** ** Specification-side functions

    Direct descriptions of what the patterns and loops compute, against
    which the definitions above are proved. *)

(** The longest prefix in a class, and what follows it. *)
Fixpoint take_while (p : char -> bool) (s : text) : text :=
  match s with
  | c :: t => if p c then c :: take_while p t else []
  | [] => []
  end.

Fixpoint drop_while (p : char -> bool) (s : text) : text :=
  match s with
  | c :: t => if p c then drop_while p t else s
  | [] => []
  end.

Definition not_gt (c : char) : bool := negb (N.eqb c (chr ">")).

(** The greedy loop on a one-character class, without the fuel. *)
Fixpoint star_cls (p : char -> bool) (s : text) (i : nat) (g : groups)
    (k : cont) : option groups :=
  match s with
  | c :: t =>
      if p c then
        match star_cls p t (S i) g k with
        | Some x => Some x
        | None => k s i g
        end
      else k s i g
  | [] => k s i g
  end.

Definition is_star (c : char) : bool := N.eqb (chr "*") c.
Definition not_newline (c : char) : bool := negb (N.eqb c 10).

(** A line without a newline character. *)
Definition one_line (s : text) : bool := forallb not_newline s.

(** What the heading pattern finds in a line: the run of stars and the
    free text after the whitespace that follows it. *)
Definition heading_split (line : text) : option (text * text) :=
  let stars := take_while is_star line in
  let rest := drop_while is_star line in
  match stars, take_while Py.is_space rest with
  | _ :: _, _ :: _ => Some (stars, drop_while Py.is_space rest)
  | _, _ => None
  end.


(** The entry the parser builds for a heading line. *)
Definition entry_of_line (line : text) : open_heading :=
  new_entry line
    match rmatch heading_pattern line with
    | Some heading_match => heading_match
    | None => []
    end.

(** The lines before the first heading line, and after them the blocks:
    every heading line with the lines that follow it up to the next
    heading line. *)
Fixpoint blocks (lines : list text) : list text * list (text * list text) :=
  match lines with
  | [] => ([], [])
  | l :: r =>
      let (pre, bs) := blocks r in
      if is_heading_line l then ([], (l, pre) :: bs) else (l :: pre, bs)
  end.

Definition heading_of_block (b : text * list text) : heading :=
  set_content (entry_of_line (fst b)) (Py.join NL (snd b)).

Definition not_linebreak (c : char) : bool := negb (Py.is_linebreak c).

(** ** Vocabulary of the statements *)

(** [n] is the index of the block-start line: the first line of [lines]
    that passes the test of the mutator. *)
Definition block_start (lines : list text) (heading_title : text) (n : nat)
  : Prop :=
  (exists l, nth_error lines n = Some l
             /\ line_selected l heading_title = true)
  /\ forall i l, i < n -> nth_error lines i = Some l ->
                 line_selected l heading_title = false.

(** [e] is the index of the block end: the next heading line after line
    [n], or the number of lines when there is none. *)
Definition block_end (lines : list text) (n e : nat) : Prop :=
  n < e <= length lines
  /\ (forall i l, n < i < e -> nth_error lines i = Some l ->
                  is_heading_line l = false)
  /\ (e < length lines ->
      exists l, nth_error lines e = Some l /\ is_heading_line l = true).

(** The replacement heading line in the words of the specification:
    the marker run and a space, the todo token and a space only when
    an override is given, then the effective title. *)
Definition claimed_heading_line (target_heading : heading)
    (new_title new_todo_state : option text) : text :=
  stars_of (level target_heading) ++ str " "
  ++ match new_todo_state with
     | Some s => s ++ str " "
     | None => []
     end
  ++ match new_title with
     | Some t => t
     | None => title target_heading
     end.

(** ** Example inputs *)

(** The document of the concrete scenario. *)
Definition scenario : text :=
  Py.join NL
    [str "* TODO Buy milk"; str "SCHEDULED: <2024-01-10>";
     str "** DONE Sub task"; str "notes";
     str "* Write report"; str "DEADLINE: <2024-01-15>"]
  ++ NL.

(** A world without any readable file: every [open] raises. *)
Definition empty_world : world :=
  {| org_dir := str "/home/user/org";
     path_exists := fun _ => false;
     open_read := fun _ =>
       ReadRaises (str "[Errno 2] No such file or directory");
     open_write := fun _ => None |}.

(** A world whose only file is [notes.org], holding [content]. *)
Definition world_with (content : text) : world :=
  write_file empty_world (str "/home/user/org/notes.org") content.

(** The three todo-state tokens. *)
Definition todo_tokens : list text :=
  [str "TODO"; str "DONE"; str "IN-PROGRESS"].

(** One alternative of the todo pattern on a free text: the token, at
    least one whitespace character, and the rest up to a newline. *)
Definition todo_try (free tok : text) : option (text * text) :=
  if Py.startswith free tok then
    let r := skipn (length tok) free in
    match take_while Py.is_space r with
    | [] => None
    | _ :: _ =>
        Some (tok, take_while not_newline (drop_while Py.is_space r))
    end
  else None.

(** What the todo pattern finds in a free text: the token and the
    title. *)
Definition todo_split (free : text) : option (text * text) :=
  match todo_try free (str "TODO") with
  | Some x => Some x
  | None =>
      match todo_try free (str "DONE") with
      | Some x => Some x
      | None => todo_try free (str "IN-PROGRESS")
      end
  end.

(** What the data model asks of a heading record: [raw] is a heading
    line, [level] is the length of its run of leading stars, the todo
    state is absent or one of the three tokens, and [content] is made of
    lines none of which is a heading line. *)
Definition valid_heading (h : heading) : Prop :=
  is_heading_line (raw h) = true
  /\ 1 <= level h
  /\ level h = length (take_while is_star (raw h))
  /\ (todo_state h = None
      \/ exists tok, todo_state h = Some tok /\ In tok todo_tokens)
  /\ exists body,
       content h = Py.join NL body
       /\ Forall (fun l => is_heading_line l = false) body.

(** The document has a heading and nothing before it: its first line is
    a heading line. *)
Definition starts_with_heading (content : text) : bool :=
  match Py.splitlines content with
  | l :: _ => is_heading_line l
  | [] => false
  end.

(** The raw heading line followed by the content, with the line break
    that separates them when there is content. *)
Definition block_text (h : heading) : text :=
  raw h ++ match content h with
           | [] => []
           | c :: r => NL ++ c :: r
           end.

(** The reconstruction of the round trip: the blocks of the headings in
    order, with the line break that separates one from the next. *)
Definition rebuild (hs : list heading) : text :=
  Py.join NL (map block_text hs).

(** No heading line is followed by exactly one empty line before the
    next heading line or the end. *)
Definition no_lone_blank (lines : list text) : bool :=
  forallb (fun b => match snd b with
                    | [[]] => false
                    | _ => true
                    end) (snd (blocks lines)).

(** The criterion of the specification for the block-start line: the
    free text is the title, or the title after a leading "TODO " or
    "DONE ". *)
Definition spec_line_selected (line heading_title : text) : bool :=
  match rmatch heading_pattern line with
  | Some mt =>
      Py.eqb (grp mt 2) heading_title
      || Py.eqb (grp mt 2) (str "TODO " ++ heading_title)
      || Py.eqb (grp mt 2) (str "DONE " ++ heading_title)
  | None => false
  end.

(** The text ends with a line terminator. *)
Fixpoint ends_with_linebreak (s : text) : bool :=
  match s with
  | [] => false
  | c :: t =>
      match t with
      | [] => Py.is_linebreak c
      | _ :: _ => ends_with_linebreak t
      end
  end.

(** The number of line-break characters of a text. *)
Definition count_breaks (s : text) : nat :=
  length (filter Py.is_linebreak s).

(** A line with its terminator. *)
Definition with_end (le : text * text) : text := fst le ++ snd le.

(** The document up to the last character of line [k - 1], without the
    terminator of that line. *)
Definition text_through_line (pairs : list (text * text)) (k : nat) : text :=
  concat (map with_end (firstn (k - 1) pairs))
  ++ match nth_error pairs (k - 1) with
     | Some le => fst le
     | None => []
     end.

(** The rest of the document: the terminator of line [k - 1] and the
    lines from line [k] on with their terminators. *)
Definition text_after_line (pairs : list (text * text)) (k : nat) : text :=
  match nth_error pairs (k - 1) with
  | Some le => snd le
  | None => []
  end
  ++ concat (map with_end (skipn k pairs)).

(** What the mutator writes after the replacement block: every line
    from line [k] on, each behind one newline. *)
Definition written_after_line (lines : list text) (k : nat) : text :=
  concat (map (fun l => NL ++ l) (skipn k lines)).

Section MarkerSpec.

Variable is_decimal : char -> bool.

(** Four digits, a dash, two digits, a dash, two digits. *)
Definition is_date (d : text) : bool :=
  match d with
  | [y1; y2; y3; y4; a; m1; m2; b; d1; d2] =>
      is_decimal y1 && is_decimal y2 && is_decimal y3 && is_decimal y4
      && N.eqb (chr "-") a
      && is_decimal m1 && is_decimal m2
      && N.eqb (chr "-") b
      && is_decimal d1 && is_decimal d2
  | _ => false
  end.

(** What may follow the date: the closing bracket at once, or a space
    with a closing bracket somewhere behind it. *)
Definition closes (tl : text) : bool :=
  match tl with
  | c :: r =>
      N.eqb (chr ">") c
      || (N.eqb (chr " ") c && existsb (N.eqb (chr ">")) r)
  | [] => false
  end.

(** The date of the marker that starts at the beginning of [s]: the
    keyword, any whitespace, an opening bracket, a date, and a tail that
    closes. *)
Definition marker_here (keyword s : text) : option text :=
  if Py.startswith s keyword then
    match drop_while Py.is_space (skipn (length keyword) s) with
    | c :: r =>
        if N.eqb (chr "<") c && is_date (firstn 10 r)
           && closes (skipn 10 r)
        then Some (firstn 10 r) else None
    | [] => None
    end
  else None.

(** The date of the first marker of [s], scanning from the left. *)
Fixpoint first_marker (keyword s : text) : option text :=
  match marker_here keyword s with
  | Some d => Some d
  | None =>
      match s with
      | [] => None
      | _ :: t => first_marker keyword t
      end
  end.

End MarkerSpec.

(** * The other tools of [server.py] *)

(** ** [add_heading] (server.py:251-294) *)

(** server.py:279-283: the heading line to add.  [level] is a Python
    [int]; a star string repeated zero or a negative number of times is
    empty. *)
Definition heading_text_of (title : text) (level : Z)
    (todo_state : option text) : text :=
  let stars := stars_of (Z.to_nat level) in
  let heading_text := stars ++ str " " in
  let heading_text :=
    match todo_state with
    | Some (c :: s) => heading_text ++ (c :: s) ++ str " "
    | _ => heading_text
    end in
  heading_text ++ title.

(** server.py:286: the existing content, two newlines, the heading
    line, a newline, the content. *)
Definition added_content (existing_content title : text) (level : Z)
    (content : text) (todo_state : option text) : text :=
  existing_content ++ NL ++ NL
  ++ heading_text_of title level todo_state ++ NL ++ content.


(** What follows the stars and the space in the heading line to add:
    the title, after the state and a space when a state is given. *)
Definition rest_of (title : text) (todo_state : option text) : text :=
  match todo_state with
  | Some (c :: s) => (c :: s) ++ str " " ++ title
  | _ => title
  end.




(** The lines without their last one when it is empty: what
    ["\n".join(lines).splitlines()] gives for lines without line
    breaks. *)
Fixpoint drop_empty_last (lines : list text) : list text :=
  match lines with
  | [] => []
  | [x] => match x with [] => [] | _ :: _ => [x] end
  | x :: rest => x :: drop_empty_last rest
  end.

(** The fields of a heading other than its content. *)
Definition fields_of (h : heading) : nat * text * text * option text :=
  (level h, title h, raw h, todo_state h).

(** ** Sorting by a string key *)

Module PySort.

(** [a < b] on [str]: the order of the first differing code points, a
    proper prefix being smaller. *)
Fixpoint ltb (a b : text) : bool :=
  match a, b with
  | _, [] => false
  | [], _ :: _ => true
  | x :: a', y :: b' => N.ltb x y || (N.eqb x y && ltb a' b')
  end.

Section ByKey.

Variable A : Type.
Variable key : A -> text.

(** [x] goes in front of the first element whose key is not smaller
    than its own. *)
Fixpoint insert (x : A) (l : list A) : list A :=
  match l with
  | [] => [x]
  | y :: l' => if ltb (key y) (key x) then y :: insert x l' else x :: y :: l'
  end.

(** [l.sort(key=key)]: the stable sort, which is the same list whatever
    the algorithm. *)
Fixpoint sort (l : list A) : list A :=
  match l with
  | [] => []
  | x :: l' => insert x (sort l')
  end.

(** [x] may stand before [y]: the key of [y] is not smaller. *)
Definition key_le (x y : A) : Prop := ltb (key y) (key x) = false.

End ByKey.

End PySort.

(** ** The agenda tools (server.py:404-632) *)

(** What [subprocess.run(cmd, capture_output=True, text=True,
    check=True)] does. *)
Inductive process_result : Type :=
| Completed (stdout : text)
| CalledProcessError (message : text)     (* str(e) *)
| FileNotFoundError
| OtherError (message : text).            (* any other exception *)

(** [run_org_agenda_command] (server.py:404-431), over what running
    Emacs on each command does: the text returned, or the message of an
    exception the function does not catch. *)
Definition run_org_agenda_command (emacs : text -> process_result)
    (command : text) : text + text :=
  match emacs command with
  | Completed stdout => inl stdout
  | CalledProcessError e => inl (str "Error running org-agenda: " ++ e)
  | FileNotFoundError =>
      inl (str "Error: Emacs not found. Please ensure Emacs is installed.")
  | OtherError e => inr e
  end.

(** [{"file": f, "heading": h, "state": s}]. *)
Record todo_entry : Type := mkTodo {
  t_file : text;
  t_heading : text;
  t_state : text
}.

(** A scheduled item after [item["file"] = rel_path]. *)
Record filed_item : Type := mkFiled {
  f_item : scheduled_item;
  f_file : text
}.

(** [heading["todo_state"] in ["TODO", "IN-PROGRESS"]]. *)
Definition is_open_state (state : option text) : bool :=
  match state with
  | Some s => Py.eqb s (str "TODO") || Py.eqb s (str "IN-PROGRESS")
  | None => false
  end.

(** server.py:574-582 (and 514-522): the loop over the headings of one
    file. *)
Definition todos_of_headings (rel_path : text) (hs : list heading)
    (todos : list todo_entry) : list todo_entry :=
  fold_left
    (fun todos h =>
       match todo_state h with
       | Some s =>
           if is_open_state (Some s)
           then todos ++ [{| t_file := rel_path; t_heading := title h;
                             t_state := s |}]
           else todos
       | None => todos
       end) hs todos.

(** server.py:565-584: the loop over the files found by the glob, each
    with what reading it gives; a file that cannot be read is
    skipped. *)
Definition manual_todos (org_files : list (text * read_result))
  : list todo_entry :=
  fold_left
    (fun todos file =>
       match snd file with
       | ReadOk content =>
           todos_of_headings (fst file) (extract_headings content) todos
       | ReadRaises _ => todos
       end) org_files [].

(** What one file adds to the todos: nothing when it cannot be read. *)
Definition todos_of_file (file : text * read_result) : list todo_entry :=
  match snd file with
  | ReadOk file_content =>
      todos_of_headings (fst file) (extract_headings file_content) []
  | ReadRaises _ => []
  end.

Inductive todos_reply : Type :=
| TodosManual (todos : list todo_entry)
| TodosEmacs (todos : text)
| TodosError (error : text).

(** [get_org_todos] (server.py:549-590). *)
Definition get_org_todos (emacs : text -> process_result)
    (org_files : list (text * read_result)) : todos_reply :=
  match run_org_agenda_command emacs (str "(org-todo-list)") with
  | inr e => TodosError e
  | inl todo_output =>
      if Py.startswith todo_output (str "Error")
      then TodosManual (manual_todos org_files)
      else TodosEmacs todo_output
  end.

Section Agenda.

Variable is_decimal : char -> bool.

(** server.py:618-621 (and 525-528): the items of one file, each with
    the file added. *)
Definition items_of_file (rel_path content : text)
    (scheduled_items : list filed_item) : list filed_item :=
  fold_left
    (fun acc item => acc ++ [{| f_item := item; f_file := rel_path |}])
    (extract_scheduled_items is_decimal content) scheduled_items.

(** server.py:610-623: the loop over the files. *)
Definition manual_scheduled (org_files : list (text * read_result))
  : list filed_item :=
  fold_left
    (fun acc file =>
       match snd file with
       | ReadOk content => items_of_file (fst file) content acc
       | ReadRaises _ => acc
       end) org_files [].

(** What one file adds to the scheduled items. *)
Definition items_of_read (file : text * read_result) : list filed_item :=
  match snd file with
  | ReadOk file_content =>
      map (fun item => {| f_item := item; f_file := fst file |})
        (extract_scheduled_items is_decimal file_content)
  | ReadRaises _ => []
  end.

(** server.py:626 and 533:
    [scheduled_items.sort(key=lambda x: x["date"])]. *)
Definition sort_by_date (items : list filed_item) : list filed_item :=
  PySort.sort (fun x => i_date (f_item x)) items.

Inductive schedule_reply : Type :=
| ScheduleManual (scheduled : list filed_item)
| ScheduleEmacs (schedule : text)
| ScheduleError (error : text).

(** [get_org_schedule] (server.py:594-632). *)
Definition get_org_schedule (emacs : text -> process_result)
    (org_files : list (text * read_result)) : schedule_reply :=
  match run_org_agenda_command emacs (str "(org-agenda-list)") with
  | inr e => ScheduleError e
  | inl schedule_output =>
      if Py.startswith schedule_output (str "Error")
      then ScheduleManual (sort_by_date (manual_scheduled org_files))
      else ScheduleEmacs schedule_output
  end.

Inductive agenda_reply : Type :=
| AgendaManual (todos : list todo_entry) (scheduled : list filed_item)
| AgendaEmacs (agenda todos : text)
| AgendaError (error : text).

(** server.py:503-530: one loop collects the todos and the scheduled
    items of each file. *)
Definition manual_agenda (org_files : list (text * read_result))
  : list todo_entry * list filed_item :=
  fold_left
    (fun acc file =>
       match snd file with
       | ReadOk content =>
           (todos_of_headings (fst file) (extract_headings content)
              (fst acc),
            items_of_file (fst file) content (snd acc))
       | ReadRaises _ => acc
       end) org_files ([], []).

(** [get_org_agenda] (server.py:484-545). *)
Definition get_org_agenda (emacs : text -> process_result)
    (org_files : list (text * read_result)) : agenda_reply :=
  match run_org_agenda_command emacs (str "(org-agenda-list)") with
  | inr e => AgendaError e
  | inl agenda_output =>
      match run_org_agenda_command emacs (str "(org-todo-list)") with
      | inr e => AgendaError e
      | inl todo_output =>
          if Py.startswith agenda_output (str "Error")
             || Py.startswith todo_output (str "Error")
          then
            let (todos, scheduled_items) := manual_agenda org_files in
            AgendaManual todos (sort_by_date scheduled_items)
          else AgendaEmacs agenda_output todo_output
      end
  end.

End Agenda.

(** ** [search_org_files] (server.py:165-216) *)

(** [needle in hay] on [str]. *)
Fixpoint contains (hay needle : text) : bool :=
  Py.startswith hay needle
  || match hay with
     | [] => false
     | _ :: t => contains t needle
     end.

(** [{"title": t, "level": l, "todo_state": s}]. *)
Record heading_match : Type := mkHeadingMatch {
  m_title : text;
  m_level : nat;
  m_todo_state : option text
}.

(** [{"file_path": p, "matches_in_headings": found}]. *)
Record file_match : Type := mkFileMatch {
  m_file_path : text;
  matches_in_headings : list heading_match
}.

Definition match_of (h : heading) : heading_match :=
  {| m_title := title h; m_level := level h;
     m_todo_state := todo_state h |}.

Section Search.

(** [str.lower], which follows the Unicode tables of the running
    interpreter. *)
Variable lower : text -> text.

(** server.py:190-203: the loop over the headings of a matching
    file. *)
Definition found_in_headings (query : text) (hs : list heading)
  : list heading_match :=
  fold_left
    (fun found h =>
       if contains (lower (title h)) (lower query)
          || contains (lower (content h)) (lower query)
       then found ++ [match_of h]
       else found) hs [].

(** server.py:178-214: the loop over the files found by the glob, each
    with what reading it gives; a file that cannot be read is
    skipped. *)
Definition search_org_files (query : text)
    (org_files : list (text * read_result)) : list file_match :=
  fold_left
    (fun matches file =>
       match snd file with
       | ReadOk file_content =>
           if contains (lower file_content) (lower query)
           then matches
                ++ [{| m_file_path := fst file;
                       matches_in_headings :=
                         found_in_headings query
                           (extract_headings file_content) |}]
           else matches
       | ReadRaises _ => matches
       end) org_files [].

End Search.

(** What [str.lower] does to a text of ASCII characters. *)
Definition ascii_lower (s : text) : text :=
  map (fun c => if (65 <=? c)%N && (c <=? 90)%N then (c + 32)%N else c) s.

(** The record of a file that can be read, with all its headings. *)
Definition whole_file (file : text * read_result) : list file_match :=
  match snd file with
  | ReadOk file_content =>
      [{| m_file_path := fst file;
          matches_in_headings :=
            map match_of (extract_headings file_content) |}]
  | ReadRaises _ => []
  end.

(** ** Dates as numbers *)

(** The day a date written with the ten ASCII digits stands for, as
    the number [yyyymmdd]. *)
Definition digit_value (c : char) : N := (c - 48)%N.

Definition date_number (d : text) : N :=
  match d with
  | [y1; y2; y3; y4; _; m1; m2; _; d1; d2] =>
      (digit_value y1 * 10000000 + digit_value y2 * 1000000
       + digit_value y3 * 100000 + digit_value y4 * 10000
       + digit_value m1 * 1000 + digit_value m2 * 100
       + digit_value d1 * 10 + digit_value d2)%N
  | _ => 0%N
  end.

(** The date of an item collected for the schedule. *)
Definition date_of (x : filed_item) : text := i_date (f_item x).
(** * Properties *)

(** ** Texts *)

Lemma eqb_eq (a b : text) : Py.eqb a b = true <-> a = b.
Proof.
  revert b; induction a as [|x a IH]; intros [|y b]; simpl; split;
    try congruence; try reflexivity.
  - intros H. apply andb_true_iff in H as [Hx Hab].
    apply N.eqb_eq in Hx. apply IH in Hab. congruence.
  - intros H. injection H as -> ->. rewrite N.eqb_refl. simpl.
    apply IH. reflexivity.
Qed.

Lemma eqb_refl (a : text) : Py.eqb a a = true.
Proof. apply eqb_eq. reflexivity. Qed.

Lemma eqb_neq (a b : text) : Py.eqb a b = false <-> a <> b.
Proof.
  split.
  - intros H E. apply eqb_eq in E. congruence.
  - intros H. destruct (Py.eqb a b) eqn:E; [|reflexivity].
    apply eqb_eq in E. contradiction.
Qed.

Lemma startswith_iff (s p : text) :
  Py.startswith s p = true <-> exists t, s = p ++ t.
Proof.
  revert s; induction p as [|y p IH]; intros s; simpl.
  - split; [intros _; exists s; reflexivity | reflexivity].
  - destruct s as [|x s].
    + split; [discriminate | intros [t H]; discriminate].
    + rewrite andb_true_iff, N.eqb_eq, IH. split.
      * intros [-> [t ->]]. exists t. reflexivity.
      * intros [t H]. injection H as -> ->. split; [reflexivity|].
        exists t. reflexivity.
Qed.

Lemma startswith_app (p t : text) : Py.startswith (p ++ t) p = true.
Proof. apply startswith_iff. exists t. reflexivity. Qed.

Lemma endswith_iff (s p : text) :
  Py.endswith s p = true <-> exists t, s = t ++ p.
Proof.
  unfold Py.endswith. rewrite startswith_iff. split.
  - intros [t H]. exists (rev t).
    rewrite <- (rev_involutive s), H, rev_app_distr, rev_involutive.
    reflexivity.
  - intros [t ->]. exists (rev t). apply rev_app_distr.
Qed.

Lemma take_drop_while p s : take_while p s ++ drop_while p s = s.
Proof.
  induction s as [|c t IH]; simpl; [reflexivity|].
  destruct (p c); simpl; [rewrite IH|]; reflexivity.
Qed.

Lemma take_while_all p s : forallb p s = true -> take_while p s = s.
Proof.
  induction s as [|c t IH]; simpl; [reflexivity|].
  intros H. apply andb_true_iff in H as [-> H]. rewrite IH; auto.
Qed.

Lemma drop_while_all p s : forallb p s = true -> drop_while p s = [].
Proof.
  induction s as [|c t IH]; simpl; [reflexivity|].
  intros H. apply andb_true_iff in H as [-> H]. auto.
Qed.

Lemma take_while_app p a b :
  forallb p a = true ->
  take_while p (a ++ b) = a ++ take_while p b.
Proof.
  induction a as [|c a IH]; simpl; [reflexivity|].
  intros H. apply andb_true_iff in H as [-> H]. rewrite IH; auto.
Qed.

Lemma drop_while_app p a b :
  forallb p a = true ->
  drop_while p (a ++ b) = drop_while p b.
Proof.
  induction a as [|c a IH]; simpl; [reflexivity|].
  intros H. apply andb_true_iff in H as [-> H]. auto.
Qed.

Lemma take_while_forallb p s : forallb p (take_while p s) = true.
Proof.
  induction s as [|c t IH]; simpl; [reflexivity|].
  destruct (p c) eqn:E; simpl; [rewrite E, IH|]; reflexivity.
Qed.

(** ** The matcher *)

Module ReFacts.

Lemma m_Star_Cls p s i g k :
  m (Star (Cls p)) s i g k = star_cls p s i g k.
Proof.
  cbn [m].
  generalize (Nat.le_refl (length s)).
  generalize (length s) at 2 3 as fuel.
  intros fuel; revert s i g.
  induction fuel as [|fuel IH]; intros s i g Hlen.
  - destruct s; [reflexivity | simpl in Hlen; lia].
  - destruct s as [|c t]; [reflexivity|].
    cbn [star_cls]. destruct (p c); [|reflexivity].
    assert (Hlt : (length t <? length (c :: t)) = true)
      by (apply Nat.ltb_lt; simpl; lia).
    rewrite Hlt. rewrite IH by (simpl in Hlen; lia). reflexivity.
Qed.

(** When what follows accepts the longest run, that is the match. *)
Lemma star_cls_greedy p s i g k x :
  k (drop_while p s) (i + length (take_while p s)) g = Some x ->
  star_cls p s i g k = Some x.
Proof.
  revert i; induction s as [|c t IH]; intros i; simpl.
  - rewrite Nat.add_0_r. auto.
  - destruct (p c); simpl.
    + rewrite <- Nat.add_succ_comm. intros H. rewrite (IH _ H). reflexivity.
    + rewrite Nat.add_0_r. auto.
Qed.

(** When what follows rejects every text that starts in the class,
    only the longest run is left. *)
Lemma star_cls_longest p s i g k :
  (forall c t j g', p c = true -> k (c :: t) j g' = None) ->
  star_cls p s i g k =
  k (drop_while p s) (i + length (take_while p s)) g.
Proof.
  intros Hk. revert i; induction s as [|c t IH]; intros i; simpl.
  - rewrite Nat.add_0_r. reflexivity.
  - destruct (p c) eqn:E; simpl.
    + rewrite IH, <- Nat.add_succ_comm.
      destruct (k (drop_while p t) _ g); [reflexivity|].
      apply Hk, E.
    + rewrite Nat.add_0_r. reflexivity.
Qed.

Lemma m_Seq a b s i g k :
  m (Seq a b) s i g k = m a s i g (fun s' i' g' => m b s' i' g' k).
Proof. reflexivity. Qed.

Lemma m_Word w s i g k :
  m (Word w) s i g k =
  if Py.startswith s w then k (skipn (length w) s) (i + length w) g
  else None.
Proof.
  revert s i; induction w as [|y w IH]; intros s i.
  - simpl. rewrite Nat.add_0_r. reflexivity.
  - destruct s as [|x s]; [reflexivity|].
    change (Word (y :: w)) with (Seq (Lit y) (Word w)).
    cbn [m Lit]. cbn [Py.startswith skipn length].
    rewrite (N.eqb_sym y x). destruct (N.eqb x y); [|reflexivity].
    cbn [andb]. rewrite IH, <- Nat.add_succ_comm. reflexivity.
Qed.

End ReFacts.

(** ** The heading pattern on one line *)

Module HeadingFacts.
Import ReFacts.

Lemma one_line_drop_while p s :
  one_line s = true -> one_line (drop_while p s) = true.
Proof.
  unfold one_line. induction s as [|c t IH]; simpl; [reflexivity|].
  intros H. destruct (p c); [|exact H].
  apply andb_true_iff in H as [_ H]. auto.
Qed.

Lemma firstn_add_sub (i n : nat) (s : text) :
  n = length s -> firstn (i + n - i) s = s.
Proof.
  intros ->. replace (i + length s - i) with (length s) by lia.
  apply firstn_all.
Qed.

Lemma m_Bol s g k : m Bol s 0 g k = k s 0 g.
Proof. reflexivity. Qed.

Lemma m_Group n a s i g k :
  m (Group n a) s i g k =
  m a s i g (fun s' i' g' => k s' i' ((n, firstn (i' - i) s) :: g')).
Proof. reflexivity. Qed.

Lemma m_Plus_Cls p s i g k :
  m (Plus (Cls p)) s i g k =
  match s with
  | c :: t => if p c then star_cls p t (S i) g k else None
  | [] => None
  end.
Proof.
  unfold Plus. rewrite m_Seq. destruct s as [|c t]; [reflexivity|].
  cbn [m]. destruct (p c); [|reflexivity]. apply m_Star_Cls.
Qed.

(** Group 2 and the end of the line. *)
Lemma m_free_text s i g k :
  one_line s = true ->
  m (cat [Group 2 (Star Dot); Eol]) s i g k =
  k [] (i + length s) ((2, s) :: g).
Proof.
  intros Hs. cbn [cat fold_right]. rewrite m_Seq, m_Group.
  unfold Dot. rewrite m_Star_Cls, star_cls_longest.
  - fold not_newline. rewrite drop_while_all, take_while_all by exact Hs.
    cbn [m]. rewrite firstn_add_sub by reflexivity. reflexivity.
  - intros c t j g' Hc. cbn [m]. destruct t; [|reflexivity].
    apply negb_true_iff in Hc. rewrite Hc. reflexivity.
Qed.

Lemma is_space_star : Py.is_space (chr "*") = false.
Proof. reflexivity. Qed.

Lemma is_star_eq c : is_star c = true -> c = chr "*".
Proof. unfold is_star. intros H. apply N.eqb_eq in H. auto. Qed.

Theorem rmatch_heading_pattern line :
  one_line line = true ->
  rmatch heading_pattern line =
  match heading_split line with
  | Some (stars, free) => Some [(0, line); (2, free); (1, stars)]
  | None => None
  end.
Proof.
  intros Hl. unfold rmatch, heading_pattern, heading_split.
  change (cat (Bol :: ?a :: ?b :: ?r))
    with (Seq Bol (Seq a (Seq b (cat r)))).
  rewrite m_Group, m_Seq, m_Bol. cbv beta.
  rewrite m_Seq, m_Group.
  change (Lit (chr "*")) with (Cls is_star).
  rewrite m_Plus_Cls.
  destruct line as [|c t]; [reflexivity|].
  cbn [take_while drop_while].
  destruct (is_star c) eqn:Ec; [|reflexivity].
  rewrite star_cls_longest.
  2:{ intros c' t' j g' Hc'. apply is_star_eq in Hc'. subst c'.
      rewrite m_Seq. unfold Space. rewrite m_Plus_Cls.
      rewrite is_space_star. reflexivity. }
  cbv beta.
  assert (Hrest : one_line (drop_while is_star t) = true).
  { apply one_line_drop_while. unfold one_line in *. simpl in Hl.
    apply andb_true_iff in Hl as [_ Hl]. exact Hl. }
  destruct (drop_while is_star t) as [|w r] eqn:Er.
  { rewrite m_Seq. unfold Space. rewrite m_Plus_Cls. reflexivity. }
  rewrite m_Seq. unfold Space. rewrite m_Plus_Cls. cbn [take_while].
  destruct (Py.is_space w) eqn:Ew; [|reflexivity].
  assert (Hfree : one_line (drop_while Py.is_space r) = true).
  { apply one_line_drop_while. unfold one_line in *. simpl in Hrest.
    apply andb_true_iff in Hrest as [_ Hrest]. exact Hrest. }
  erewrite star_cls_greedy; [reflexivity|].
  cbv beta. rewrite m_free_text by exact Hfree.
  unfold accept. cbn [drop_while]. rewrite Ew.
  assert (Ht : t = take_while is_star t ++ w :: take_while Py.is_space r
                     ++ drop_while Py.is_space r).
  { rewrite (take_drop_while Py.is_space r), <- Er.
    symmetry. apply take_drop_while. }
  f_equal. f_equal; [|f_equal]; f_equal.
  - apply firstn_all2. rewrite Ht at 1. simpl.
    rewrite length_app. simpl. rewrite length_app. lia.
  - f_equal. rewrite Nat.sub_0_r. cbn [Nat.add firstn]. f_equal.
    rewrite <- (take_drop_while is_star t) at 2.
    rewrite firstn_app, firstn_all, Nat.sub_diag. simpl.
    apply app_nil_r.
Qed.

End HeadingFacts.

(** ** [str.splitlines] and [str.join] *)

Module LineFacts.

Lemma split_ends_concat s :
  concat (Py.splitlines_keepends s) = s.
Proof.
  unfold Py.splitlines_keepends.
  induction s as [s IH] using (induction_ltof1 _ (@length char)).
  unfold ltof in IH.
  destruct s as [|c t]; [reflexivity|].
  cbn [Py.split_ends]. destruct (Py.is_linebreak c).
  - destruct t as [|c' t']; [reflexivity|].
    destruct (N.eqb c 13 && N.eqb c' 10); cbn [map concat fst snd app].
    + rewrite (IH t') by (simpl; lia). reflexivity.
    + rewrite (IH (c' :: t')) by (simpl; lia). reflexivity.
  - specialize (IH t ltac:(simpl; lia)).
    destruct (Py.split_ends t) as [|[l e] r].
    + simpl in *. subst t. reflexivity.
    + simpl in *. rewrite IH. reflexivity.
Qed.

(** No line holds a line break. *)
Lemma split_ends_lines s :
  Forall (fun le => forallb not_linebreak (fst le) = true)
         (Py.split_ends s).
Proof.
  induction s as [s IH] using (induction_ltof1 _ (@length char)).
  unfold ltof in IH.
  destruct s as [|c t]; [constructor|].
  cbn [Py.split_ends]. destruct (Py.is_linebreak c) eqn:Ec.
  - destruct t as [|c' t']; [repeat constructor|].
    destruct (N.eqb c 13 && N.eqb c' 10); constructor;
      try reflexivity; apply IH; simpl; lia.
  - specialize (IH t ltac:(simpl; lia)).
    destruct (Py.split_ends t) as [|[l e] r].
    + repeat constructor. simpl. unfold not_linebreak. rewrite Ec.
      reflexivity.
    + inversion IH as [|x y Hx Hy]; subst. constructor; [|exact Hy].
      simpl in *. unfold not_linebreak at 1. rewrite Ec. exact Hx.
Qed.

Lemma not_linebreak_not_newline c :
  not_linebreak c = true -> not_newline c = true.
Proof.
  unfold not_linebreak, not_newline, Py.is_linebreak. simpl.
  destruct (N.eqb c 10); simpl; auto.
Qed.

Lemma splitlines_one_line s :
  Forall (fun l => one_line l = true) (Py.splitlines s).
Proof.
  unfold Py.splitlines. apply Forall_map.
  eapply Forall_impl; [|apply split_ends_lines].
  intros [l e] H. simpl in *. unfold one_line.
  apply forallb_forall. intros c Hc.
  apply not_linebreak_not_newline.
  eapply forallb_forall in H; eauto.
Qed.

(** Every terminator is made of line breaks; only the last line can
    lack one. *)
Lemma split_ends_terminators s :
  Forall (fun le => forallb Py.is_linebreak (snd le) = true)
         (Py.split_ends s).
Proof.
  induction s as [s IH] using (induction_ltof1 _ (@length char)).
  unfold ltof in IH.
  destruct s as [|c t]; [constructor|].
  cbn [Py.split_ends]. destruct (Py.is_linebreak c) eqn:Ec.
  - destruct t as [|c' t'].
    + repeat constructor. simpl. rewrite Ec. reflexivity.
    + destruct (N.eqb c 13 && N.eqb c' 10) eqn:E; constructor;
        try (apply IH; simpl; lia).
      * apply andb_true_iff in E as [_ E]. apply N.eqb_eq in E. subst c'.
        simpl. rewrite Ec. reflexivity.
      * simpl. rewrite Ec. reflexivity.
  - specialize (IH t ltac:(simpl; lia)).
    destruct (Py.split_ends t) as [|[l e] r].
    + repeat constructor.
    + inversion IH; subst. constructor; assumption.
Qed.

Lemma join_cons sep x y rest :
  Py.join sep (x :: y :: rest) = x ++ sep ++ Py.join sep (y :: rest).
Proof. reflexivity. Qed.

Lemma join_app sep a b :
  a <> [] -> b <> [] ->
  Py.join sep (a ++ b) = Py.join sep a ++ sep ++ Py.join sep b.
Proof.
  intros Ha Hb. induction a as [|x a IH]; [contradiction|].
  destruct a as [|y a].
  - destruct b as [|z b]; [contradiction|]. reflexivity.
  - change ((x :: y :: a) ++ b) with (x :: y :: (a ++ b)).
    rewrite !join_cons. change (y :: a ++ b) with ((y :: a) ++ b).
    rewrite IH by discriminate. rewrite <- !app_assoc. reflexivity.
Qed.

End LineFacts.

(** ** The parser as a grouping of lines *)

Module ParserFacts.

Lemma is_heading_line_true l :
  is_heading_line l = true ->
  exists hm, rmatch heading_pattern l = Some hm.
Proof.
  unfold is_heading_line. destruct (rmatch heading_pattern l); eauto.
  discriminate.
Qed.

Lemma fold_open lines : forall hs cur buf,
  headings (flush (fold_left parse_line lines
                     (mkState hs (Some cur) buf))) =
  hs ++ set_content cur (Py.join NL (buf ++ fst (blocks lines)))
     :: map heading_of_block (snd (blocks lines)).
Proof.
  induction lines as [|l r IH]; intros hs cur buf.
  - simpl. rewrite app_nil_r. reflexivity.
  - cbn [fold_left blocks]. unfold parse_line at 2, is_heading_line.
    destruct (rmatch heading_pattern l) as [hm|] eqn:El.
    + cbn [flush current_heading headings heading_content].
      rewrite IH. destruct (blocks r) as [pre bs].
      cbn [fst snd map app].
      rewrite <- app_assoc. cbn [app]. rewrite app_nil_r.
      unfold heading_of_block at 2, entry_of_line. cbn [fst snd].
      rewrite El. reflexivity.
    + cbn [current_heading headings heading_content].
      rewrite IH. destruct (blocks r) as [pre bs]. cbn [fst snd].
      rewrite <- app_assoc. reflexivity.
Qed.

(** The parser returns one heading for each block, in order, and
    nothing for the lines before the first heading line. *)
Theorem parse_lines_blocks lines :
  parse_lines lines = map heading_of_block (snd (blocks lines)).
Proof.
  unfold parse_lines, initial_state.
  enough (H : forall hs,
             headings (flush (fold_left parse_line lines
                                (mkState hs None []))) =
             hs ++ map heading_of_block (snd (blocks lines))).
  { apply (H []). }
  induction lines as [|l r IH]; intros hs.
  - simpl. rewrite app_nil_r. reflexivity.
  - cbn [fold_left blocks]. unfold parse_line at 2, is_heading_line.
    destruct (rmatch heading_pattern l) as [hm|] eqn:El.
    + cbn [flush current_heading headings heading_content].
      rewrite fold_open. destruct (blocks r) as [pre bs].
      cbn [fst snd map app].
      unfold heading_of_block at 2, entry_of_line. cbn [fst snd].
      rewrite El. reflexivity.
    + cbn [current_heading]. rewrite IH.
      destruct (blocks r) as [pre bs]. reflexivity.
Qed.

End ParserFacts.

(** ** The scanning loops *)

Module ScanFacts.

Lemma first_index_some test lines : forall i n,
  first_index test lines i = Some n ->
  i <= n
  /\ (exists l, nth_error lines (n - i) = Some l /\ test l = true)
  /\ forall j l, j < n - i -> nth_error lines j = Some l ->
                 test l = false.
Proof.
  induction lines as [|x rest IH]; intros i n H; [discriminate|].
  cbn [first_index] in H. destruct (test x) eqn:Ex.
  - injection H as <-. rewrite Nat.sub_diag. split; [lia|]. split.
    + exists x. auto.
    + intros j l Hj. lia.
  - apply IH in H as (Hle & (l & Hl & Ht) & Hbefore).
    split; [lia|]. split.
    + exists l. replace (n - i) with (S (n - S i)) by lia. auto.
    + intros [|j] l' Hj Hnth.
      * simpl in Hnth. injection Hnth as <-. exact Ex.
      * simpl in Hnth. apply (Hbefore j); [lia | exact Hnth].
Qed.

Lemma first_index_none test lines : forall i,
  first_index test lines i = None ->
  forall j l, nth_error lines j = Some l -> test l = false.
Proof.
  induction lines as [|x rest IH]; intros i H j l Hnth.
  - rewrite nth_error_nil in Hnth. discriminate.
  - cbn [first_index] in H. destruct (test x) eqn:Ex; [discriminate|].
    destruct j as [|j]; simpl in Hnth.
    + injection Hnth as <-. exact Ex.
    + eapply IH; eauto.
Qed.

Lemma find_line_number_start lines heading_title n :
  find_line_number lines heading_title = Some n ->
  block_start lines heading_title n.
Proof.
  intros H. apply first_index_some in H as (_ & Hl & Hb).
  rewrite Nat.sub_0_r in *. split; assumption.
Qed.

Lemma find_end_line_end lines n :
  n < length lines -> block_end lines n (find_end_line lines n).
Proof.
  intros Hn. unfold find_end_line, block_end.
  destruct (first_index is_heading_line (skipn (S n) lines) (S n))
    as [e|] eqn:E.
  - apply first_index_some in E as (Hle & (l & Hl & Ht) & Hb).
    rewrite nth_error_skipn in Hl.
    replace (S n + (e - S n)) with e in Hl by lia.
    assert (He : e < length lines)
      by (apply nth_error_Some; congruence).
    split; [lia|]. split.
    + intros i l' Hi Hnth. apply (Hb (i - S n)); [lia|].
      rewrite nth_error_skipn. replace (S n + (i - S n)) with i by lia.
      exact Hnth.
    + intros _. exists l. auto.
  - split; [lia|]. split; [|lia].
    intros i l' Hi Hnth.
    apply (first_index_none _ _ _ E (i - S n)).
    rewrite nth_error_skipn. replace (S n + (i - S n)) with i by lia.
    exact Hnth.
Qed.

End ScanFacts.

(** ** HeadingMutator *)

Module MutatorFacts.
Import ScanFacts.

(** What a successful run of the mutator went through. *)
Lemma modify_lines_inr content heading_title nt nc ns new_lines :
  modify_lines content heading_title nt nc ns = inr new_lines ->
  exists target line_number,
    locate (extract_headings content) heading_title = Some target
    /\ find_line_number (Py.splitlines content) heading_title
       = Some line_number
    /\ new_lines =
       firstn line_number (Py.splitlines content)
       ++ [heading_line_of target nt ns]
       ++ Py.splitlines (content_text_of target nc)
       ++ skipn (find_end_line (Py.splitlines content) line_number)
            (Py.splitlines content).
Proof.
  unfold modify_lines.
  destruct (locate (extract_headings content) heading_title)
    as [target|]; [|discriminate].
  destruct (find_line_number (Py.splitlines content) heading_title)
    as [n|]; [|discriminate].
  intros H. injection H as <-. exists target, n. auto.
Qed.

(** The same, with the block boundaries described. *)
Lemma modify_lines_block content heading_title nt nc ns new_lines :
  modify_lines content heading_title nt nc ns = inr new_lines ->
  exists target line_number end_line,
    locate (extract_headings content) heading_title = Some target
    /\ block_start (Py.splitlines content) heading_title line_number
    /\ block_end (Py.splitlines content) line_number end_line
    /\ new_lines =
       firstn line_number (Py.splitlines content)
       ++ [heading_line_of target nt ns]
       ++ Py.splitlines (content_text_of target nc)
       ++ skipn end_line (Py.splitlines content).
Proof.
  intros H. apply modify_lines_inr in H as (target & n & Hloc & Hfind & ->).
  pose proof (find_line_number_start _ _ Hfind) as Hstart.
  assert (Hn : n < length (Py.splitlines content)).
  { destruct Hstart as [(l & Hl & _) _]. apply nth_error_Some. congruence. }
  exists target, n, (find_end_line (Py.splitlines content) n).
  split; [exact Hloc|]. split; [exact Hstart|].
  split; [apply find_end_line_end; exact Hn | reflexivity].
Qed.

End MutatorFacts.

(** C2.  On every run in which the mutator succeeds, the new line
    sequence is the lines before the block-start line, the replacement
    heading line, the replacement content lines, and the lines from the
    block-end line on; the lines before the block and the lines from the
    block end on are the original ones, in their original order. *)
Theorem modify_lines_frame content heading_title nt nc ns new_lines :
  modify_lines content heading_title nt nc ns = inr new_lines ->
  let lines := Py.splitlines content in
  exists target line_number end_line,
    locate (extract_headings content) heading_title = Some target
    /\ block_start lines heading_title line_number
    /\ block_end lines line_number end_line
    /\ new_lines =
       firstn line_number lines
       ++ [heading_line_of target nt ns]
       ++ Py.splitlines (content_text_of target nc)
       ++ skipn end_line lines
    /\ (forall i, i < line_number ->
                  nth_error new_lines i = nth_error lines i)
    /\ (forall j,
          nth_error new_lines
            (line_number + 1
             + length (Py.splitlines (content_text_of target nc)) + j)
          = nth_error lines (end_line + j)).
Proof.
  intros H lines.
  apply MutatorFacts.modify_lines_block in H
    as (target & n & e & Hloc & Hstart & Hend & ->).
  fold lines in Hstart, Hend |- *.
  assert (Hn : n < e <= length lines) by apply Hend.
  exists target, n, e.
  split; [exact Hloc|]. split; [exact Hstart|]. split; [exact Hend|].
  split; [reflexivity|]. split.
  - intros i Hi. rewrite nth_error_app1.
    + rewrite nth_error_firstn.
      apply Nat.ltb_lt in Hi. rewrite Hi. reflexivity.
    + rewrite length_firstn. lia.
  - intros j.
    rewrite nth_error_app2 by (rewrite length_firstn; lia).
    rewrite length_firstn, Nat.min_l by lia.
    replace (n + 1 + length (Py.splitlines (content_text_of target nc))
             + j - n)
      with (S (length (Py.splitlines (content_text_of target nc)) + j))
      by lia.
    cbn [app nth_error].
    rewrite nth_error_app2 by lia.
    replace (_ + j - _) with j by lia.
    apply nth_error_skipn.
Qed.

(** The frame of C2 on the scenario, mutating "Buy milk". *)
Lemma modify_lines_frame_witness :
  modify_lines scenario (str "Buy milk")
    None (Some (str "done")) (Some (str "DONE"))
  = inr [str "* DONE Buy milk"; str "done";
         str "** DONE Sub task"; str "notes";
         str "* Write report"; str "DEADLINE: <2024-01-15>"]
  /\ exists line_number end_line,
       block_start (Py.splitlines scenario) (str "Buy milk") line_number
       /\ block_end (Py.splitlines scenario) line_number end_line.
Proof.
  assert (H : modify_lines scenario (str "Buy milk")
                None (Some (str "done")) (Some (str "DONE"))
              = inr [str "* DONE Buy milk"; str "done";
                     str "** DONE Sub task"; str "notes";
                     str "* Write report"; str "DEADLINE: <2024-01-15>"])
    by (vm_compute; reflexivity).
  split; [exact H|].
  destruct (modify_lines_frame _ _ _ _ _ H) as (t & n & e & _ & Hs & He & _).
  exists n, e. split; assumption.
Defined.

(** C8, as stated, fails: with no todo-state override the replacement
    line of a TODO heading still carries the token. *)
Lemma heading_line_keeps_todo_state :
  let target :=
    {| level := 1; title := str "Buy milk"; raw := str "* TODO Buy milk";
       todo_state := Some (str "TODO"); content := [] |} in
  locate (extract_headings (str "* TODO Buy milk")) (str "Buy milk")
  = Some target
  /\ modify_lines (str "* TODO Buy milk") (str "Buy milk") None None None
     = inr [str "* TODO Buy milk"]
  /\ claimed_heading_line target None None = str "* Buy milk"
  /\ str "* TODO Buy milk" <> claimed_heading_line target None None.
Proof.
  cbv zeta. repeat split; try (vm_compute; reflexivity).
  vm_compute. discriminate.
Qed.

(** C8, amended.  On every successful mutation the line put at the
    block start is: as many stars as the level of the located heading,
    one space, then the effective todo state followed by one space when
    that state is present and not the empty string, then the effective
    title.  The effective todo state is the override when one is given
    and the located heading's own state otherwise; the effective title
    is the override when one is given and the located heading's title
    otherwise. *)
Theorem replacement_heading_line content heading_title nt nc ns new_lines :
  modify_lines content heading_title nt nc ns = inr new_lines ->
  exists target line_number,
    locate (extract_headings content) heading_title = Some target
    /\ block_start (Py.splitlines content) heading_title line_number
    /\ nth_error new_lines line_number =
       Some (repeat (chr "*") (level target) ++ str " "
             ++ match (match ns with
                       | Some s => Some s
                       | None => todo_state target
                       end) with
                | Some (c :: s) => (c :: s) ++ str " "
                | Some [] | None => []
                end
             ++ match nt with
                | Some t => t
                | None => title target
                end).
Proof.
  intros H.
  apply MutatorFacts.modify_lines_block in H
    as (target & n & e & Hloc & Hstart & Hend & ->).
  assert (Hn : n < e <= length (Py.splitlines content)) by apply Hend.
  exists target, n.
  split; [exact Hloc|]. split; [exact Hstart|].
  rewrite nth_error_app2 by (rewrite length_firstn; lia).
  rewrite length_firstn, Nat.min_l, Nat.sub_diag by lia.
  cbn [app nth_error]. f_equal. unfold heading_line_of, stars_of.
  destruct ns as [[|c s]|]; [| |destruct (todo_state target) as [[|c s]|]];
    repeat (progress (rewrite <- ?app_assoc; cbn [app]));
    rewrite ?app_nil_r; reflexivity.
Qed.

(** The replacement line of C8 on the scenario: a new title for
    "Sub task", whose DONE state is kept. *)
Lemma replacement_heading_line_witness :
  modify_lines scenario (str "Sub task") (Some (str "Sub")) None None
  = inr [str "* TODO Buy milk"; str "SCHEDULED: <2024-01-10>";
         str "** DONE Sub"; str "notes";
         str "* Write report"; str "DEADLINE: <2024-01-15>"]
  /\ exists target line_number,
       locate (extract_headings scenario) (str "Sub task") = Some target
       /\ block_start (Py.splitlines scenario) (str "Sub task") line_number.
Proof.
  assert (H : modify_lines scenario (str "Sub task")
                (Some (str "Sub")) None None
              = inr [str "* TODO Buy milk"; str "SCHEDULED: <2024-01-10>";
                     str "** DONE Sub"; str "notes";
                     str "* Write report"; str "DEADLINE: <2024-01-15>"])
    by (vm_compute; reflexivity).
  split; [exact H|].
  destruct (replacement_heading_line _ _ _ _ _ H) as (t & n & Hl & Hs & _).
  exists t, n. split; assumption.
Defined.

(** ** HeadingLocator *)

Module LocatorFacts.

Lemma locate_some hs heading_title h :
  locate hs heading_title = Some h ->
  exists before after,
    hs = before ++ h :: after
    /\ title h = heading_title
    /\ Forall (fun h' => title h' <> heading_title) before.
Proof.
  induction hs as [|x rest IH]; [discriminate|].
  cbn [locate]. destruct (Py.eqb (title x) heading_title) eqn:E.
  - intros H. injection H as <-. exists [], rest.
    apply eqb_eq in E. auto.
  - intros H. apply IH in H as (before & after & -> & Ht & Hb).
    exists (x :: before), after. repeat split; auto.
    constructor; [apply eqb_neq, E | exact Hb].
Qed.

Lemma locate_none hs heading_title :
  locate hs heading_title = None ->
  Forall (fun h' => title h' <> heading_title) hs.
Proof.
  induction hs as [|x rest IH]; [constructor|].
  cbn [locate]. destruct (Py.eqb (title x) heading_title) eqn:E;
    [discriminate|].
  intros H. constructor; [apply eqb_neq, E | auto].
Qed.

End LocatorFacts.

(** C4.  Over the headings parsed from a file, the locator returns the
    first heading, in document order, whose title is equal to the
    requested title, so the earliest of several with that title; when no
    heading has the title it returns an error dictionary with the
    not-found message. *)
Theorem read_heading_first_match w file_path heading_title hs :
  read_file_headings w file_path = Headings hs ->
  (exists before h after,
      hs = before ++ h :: after
      /\ title h = heading_title
      /\ Forall (fun h' => title h' <> heading_title) before
      /\ read_heading w file_path heading_title = Found h)
  \/ (Forall (fun h' => title h' <> heading_title) hs
      /\ read_heading w file_path heading_title
         = Error (str "Heading '" ++ heading_title
                  ++ str "' not found in " ++ file_path)).
Proof.
  intros H. unfold read_heading. rewrite H.
  destruct (locate hs heading_title) as [h|] eqn:E.
  - left. apply LocatorFacts.locate_some in E
      as (before & after & -> & Ht & Hb).
    exists before, h, after. auto.
  - right. split; [apply LocatorFacts.locate_none, E | reflexivity].
Qed.

(** The locator of C4 on the scenario: a title that is there, and the
    same title in another case, which is not. *)
Lemma read_heading_first_match_witness :
  read_file_headings (world_with scenario) (str "notes.org")
  = Headings (extract_headings scenario)
  /\ read_heading (world_with scenario) (str "notes.org") (str "Sub task")
     = Found {| level := 2; title := str "Sub task";
                raw := str "** DONE Sub task";
                todo_state := Some (str "DONE"); content := str "notes" |}
  /\ read_heading (world_with scenario) (str "notes.org") (str "sub task")
     = Error (str "Heading 'sub task' not found in notes.org").
Proof.
  assert (H : read_file_headings (world_with scenario) (str "notes.org")
              = Headings (extract_headings scenario))
    by (vm_compute; reflexivity).
  split; [exact H|].
  split.
  - destruct (@read_heading_first_match _ _ (str "Sub task") _ H)
      as [(b & h & a & _ & _ & _ & Hr) | [_ Hr]];
      vm_compute in Hr |- *; first [reflexivity | discriminate Hr].
  - destruct (@read_heading_first_match _ _ (str "sub task") _ H)
      as [(b & h & a & _ & _ & _ & Hr) | [_ Hr]];
      vm_compute in Hr |- *; first [reflexivity | discriminate Hr].
Defined.

(** ** Reading a file that cannot be read *)

(** C9.  When reading the file raises, [read_org_file] returns a text
    that starts with "Error reading file: ", which does not start with
    "Error:"; the guard of [read_file_headings] does not fire and the
    message is handed to the parser as if it were the document. *)
Theorem read_failure_is_parsed w file_path e :
  open_read w (path_join (org_dir w) file_path) = ReadRaises e ->
  read_org_file w file_path = str "Error reading file: " ++ e
  /\ Py.startswith (read_org_file w file_path) (str "Error:") = false
  /\ read_file_headings w file_path
     = Headings (extract_headings (str "Error reading file: " ++ e))
  /\ forall msg, read_file_headings w file_path <> ErrorRecord msg.
Proof.
  intros H.
  assert (Hr : read_org_file w file_path = str "Error reading file: " ++ e)
    by (unfold read_org_file; rewrite H; reflexivity).
  assert (Hs : Py.startswith (read_org_file w file_path) (str "Error:")
               = false) by (rewrite Hr; reflexivity).
  repeat split; try assumption.
  - unfold read_file_headings. rewrite Hs, Hr. reflexivity.
  - unfold read_file_headings. rewrite Hs. discriminate.
Qed.

(** C9 on a missing file: the headings of the error message, none. *)
Lemma read_failure_is_parsed_witness :
  open_read empty_world (path_join (org_dir empty_world) (str "missing.org"))
  = ReadRaises (str "[Errno 2] No such file or directory")
  /\ read_file_headings empty_world (str "missing.org") = Headings [].
Proof.
  split; [reflexivity|].
  destruct (@read_failure_is_parsed empty_world (str "missing.org")
              (str "[Errno 2] No such file or directory") eq_refl)
    as (_ & _ & H & _).
  rewrite H. vm_compute. reflexivity.
Defined.

(** ** The todo pattern on a free text *)

Module TodoFacts.
Import ReFacts HeadingFacts.

Lemma m_Alt a b s i g k :
  m (Alt a b) s i g k =
  match m a s i g k with
  | Some x => Some x
  | None => m b s i g k
  end.
Proof. reflexivity. Qed.

Lemma startswith_firstn s w :
  Py.startswith s w = true -> firstn (length w) s = w.
Proof.
  intros H. apply startswith_iff in H as [t ->].
  rewrite firstn_app, firstn_all, Nat.sub_diag. simpl. apply app_nil_r.
Qed.

(** The whitespace and group 2, before a continuation that accepts. *)
Lemma m_todo_tail s i g (f : text -> nat -> groups -> groups) :
  m (cat [Plus Space; Group 2 (Star Dot)]) s i g
    (fun s' i' g' => Some (f s' i' g')) =
  match take_while Py.is_space s with
  | [] => None
  | _ :: _ =>
      let r := drop_while Py.is_space s in
      Some (f (drop_while not_newline r)
              (i + length (take_while Py.is_space s)
               + length (take_while not_newline r))
              ((2, take_while not_newline r) :: g))
  end.
Proof.
  cbn [cat fold_right]. rewrite m_Seq. unfold Space. rewrite m_Plus_Cls.
  destruct s as [|c t]; [reflexivity|]. cbn [take_while drop_while].
  destruct (Py.is_space c); [|reflexivity].
  erewrite star_cls_greedy; [reflexivity|]. cbv beta.
  rewrite m_Seq, m_Group. unfold Dot. rewrite m_Star_Cls.
  fold not_newline.
  erewrite star_cls_greedy; [reflexivity|]. cbv beta. cbn [m].
  cbv zeta. f_equal. f_equal; [cbn [length]; lia|].
  f_equal. f_equal.
  rewrite <- (take_drop_while not_newline (drop_while Py.is_space t)) at 2.
  rewrite firstn_app.
  replace (_ - _) with (length (take_while not_newline
                                  (drop_while Py.is_space t))) by lia.
  rewrite firstn_all, Nat.sub_diag. simpl. apply app_nil_r.
Qed.

Lemma m_todo_alternative tok s f :
  m (Word tok) s 0 []
    (fun s' i' g' =>
       m (cat [Plus Space; Group 2 (Star Dot)]) s' i'
         ((1, firstn (i' - 0) s) :: g')
         (fun s'' i'' g'' => Some (f s'' i'' g''))) =
  match todo_try s tok with
  | Some (tk, ttl) =>
      let r := drop_while Py.is_space (skipn (length tok) s) in
      Some (f (drop_while not_newline r)
              (length tok
               + length (take_while Py.is_space (skipn (length tok) s))
               + length (take_while not_newline r))
              [(2, ttl); (1, tk)])
  | None => None
  end.
Proof.
  rewrite m_Word. unfold todo_try.
  destruct (Py.startswith s tok) eqn:E; [|reflexivity].
  rewrite m_todo_tail. cbn [Nat.add]. rewrite Nat.sub_0_r.
  rewrite (startswith_firstn _ _ E).
  destruct (take_while Py.is_space (skipn (length tok) s)); reflexivity.
Qed.

Theorem rmatch_todo_pattern free :
  match todo_split free with
  | Some (tok, ttl) =>
      exists whole,
        rmatch todo_pattern free = Some [(0, whole); (2, ttl); (1, tok)]
  | None => rmatch todo_pattern free = None
  end.
Proof.
  unfold rmatch, todo_pattern, todo_split.
  change (cat (?a :: ?r)) with (Seq a (cat r)).
  rewrite m_Group, m_Seq, m_Group, !m_Alt.
  unfold accept.
  rewrite !(m_todo_alternative _ free
              (fun s' i' g' => (0, firstn (i' - 0) free) :: g')).
  destruct (todo_try free (str "TODO")) as [[tk ttl]|];
    [cbv beta zeta; eexists; reflexivity|].
  destruct (todo_try free (str "DONE")) as [[tk ttl]|];
    [cbv beta zeta; eexists; reflexivity|].
  destruct (todo_try free (str "IN-PROGRESS")) as [[tk ttl]|];
    [cbv beta zeta; eexists; reflexivity|].
  reflexivity.
Qed.

Lemma todo_try_token free tok x : todo_try free tok = Some x -> fst x = tok.
Proof.
  unfold todo_try. destruct (Py.startswith free tok); [|discriminate].
  destruct (take_while _ _); [discriminate|].
  intros H. injection H as <-. reflexivity.
Qed.

Lemma todo_split_token free tok ttl :
  todo_split free = Some (tok, ttl) -> In tok todo_tokens.
Proof.
  unfold todo_split, todo_tokens.
  destruct (todo_try free (str "TODO")) eqn:E1.
  { intros H. injection H as ->. apply todo_try_token in E1.
    simpl in E1. subst. left. reflexivity. }
  destruct (todo_try free (str "DONE")) eqn:E2.
  { intros H. injection H as ->. apply todo_try_token in E2.
    simpl in E2. subst. right. left. reflexivity. }
  intros H. apply todo_try_token in H. simpl in H. subst.
  right. right. left. reflexivity.
Qed.

End TodoFacts.

(** ** The parser, heading by heading *)

Module EntryFacts.
Import HeadingFacts TodoFacts.

Lemma is_heading_line_split l :
  one_line l = true ->
  is_heading_line l =
  match heading_split l with Some _ => true | None => false end.
Proof.
  intros H. unfold is_heading_line. rewrite rmatch_heading_pattern by exact H.
  destruct (heading_split l) as [[? ?]|]; reflexivity.
Qed.

(** The entry built for a heading line, from the two splits. *)
Theorem entry_of_line_split l stars free :
  one_line l = true ->
  heading_split l = Some (stars, free) ->
  entry_of_line l =
  {| o_level := length stars;
     o_title := match todo_split free with
                | Some (_, ttl) => ttl
                | None => free
                end;
     o_raw := l;
     o_todo_state := match todo_split free with
                     | Some (tok, _) => Some tok
                     | None => None
                     end |}.
Proof.
  intros Hl Hs. unfold entry_of_line.
  rewrite rmatch_heading_pattern by exact Hl. rewrite Hs.
  unfold new_entry. unfold grp at 1 2 3. cbn [group Nat.eqb].
  pose proof (rmatch_todo_pattern free) as Ht.
  destruct (todo_split free) as [[tok ttl]|].
  - destruct Ht as [whole ->]. reflexivity.
  - rewrite Ht. reflexivity.
Qed.

Lemma heading_split_stars l stars free :
  heading_split l = Some (stars, free) ->
  stars = take_while is_star l /\ 1 <= length stars.
Proof.
  unfold heading_split.
  destruct (take_while is_star l) as [|c s] eqn:E; [discriminate|].
  destruct (take_while Py.is_space _); [discriminate|].
  intros H. injection H as <- <-. split; [reflexivity | simpl; lia].
Qed.

Lemma entry_raw l hm : o_raw (new_entry l hm) = l.
Proof. unfold new_entry. destruct (rmatch todo_pattern _); reflexivity. Qed.

End EntryFacts.

Module BlockFacts.
Import ParserFacts.

Lemma blocks_app_heading before l after :
  is_heading_line l = true ->
  blocks (before ++ l :: after) =
  (fst (blocks before),
   snd (blocks before) ++ (l, fst (blocks after)) :: snd (blocks after)).
Proof.
  intros Hl. induction before as [|x before IH].
  - cbn [app blocks]. rewrite Hl. destruct (blocks after). reflexivity.
  - cbn [app blocks]. rewrite IH. destruct (blocks before) as [pre bs].
    cbn [fst snd]. destruct (is_heading_line x); reflexivity.
Qed.

Lemma blocks_no_heading lines :
  Forall (fun l => is_heading_line l = false) lines ->
  blocks lines = (lines, []).
Proof.
  induction 1 as [|x rest Hx _ IH]; [reflexivity|].
  cbn [blocks]. rewrite IH, Hx. reflexivity.
Qed.

Lemma blocks_app_preamble pre rest :
  Forall (fun l => is_heading_line l = false) pre ->
  snd (blocks (pre ++ rest)) = snd (blocks rest).
Proof.
  induction 1 as [|x pre Hx _ IH]; [reflexivity|].
  cbn [app blocks]. destruct (blocks (pre ++ rest)) as [p bs].
  rewrite Hx. exact IH.
Qed.

(** The leading lines are not heading lines; every block starts with a
    heading line of the document and holds no other heading line. *)
Lemma blocks_spec lines :
  Forall (fun l => is_heading_line l = false) (fst (blocks lines))
  /\ Forall (fun b => is_heading_line (fst b) = true
                      /\ In (fst b) lines
                      /\ Forall (fun l => is_heading_line l = false) (snd b))
            (snd (blocks lines)).
Proof.
  induction lines as [|x rest [IHp IHb]]; [split; constructor|].
  cbn [blocks]. destruct (blocks rest) as [pre bs]. cbn [fst snd] in *.
  assert (Hb : Forall (fun b => is_heading_line (fst b) = true
                                /\ In (fst b) (x :: rest)
                                /\ Forall (fun l => is_heading_line l = false)
                                          (snd b)) bs).
  { eapply Forall_impl; [|exact IHb]. intros b (H1 & H2 & H3).
    repeat split; auto. right. exact H2. }
  destruct (is_heading_line x) eqn:Ex; cbn [fst snd]; split; auto.
  constructor; [|exact Hb]. cbn [fst snd]. repeat split; auto.
  left. reflexivity.
Qed.

End BlockFacts.

(** The parser cuts the document at every heading line. *)
Theorem parse_lines_app_heading before l after :
  is_heading_line l = true ->
  parse_lines (before ++ l :: after) =
  parse_lines before
  ++ set_content (entry_of_line l) (Py.join NL (fst (blocks after)))
  :: parse_lines after.
Proof.
  intros Hl. rewrite !ParserFacts.parse_lines_blocks.
  rewrite BlockFacts.blocks_app_heading by exact Hl.
  cbn [snd]. rewrite map_app. reflexivity.
Qed.

(** Every heading the parser returns is a valid record. *)
Theorem parse_lines_valid lines :
  Forall (fun l => one_line l = true) lines ->
  Forall valid_heading (parse_lines lines).
Proof.
  intros Hone. rewrite ParserFacts.parse_lines_blocks.
  apply Forall_map. eapply Forall_impl; [|apply BlockFacts.blocks_spec].
  intros [l body] (Hl & Hin & Hbody). cbn [fst snd] in *.
  assert (Hol : one_line l = true)
    by (eapply Forall_forall in Hone; eauto).
  pose proof Hl as Hsplit.
  rewrite EntryFacts.is_heading_line_split in Hsplit by exact Hol.
  destruct (heading_split l) as [[stars free]|] eqn:Es; [|discriminate].
  unfold heading_of_block, valid_heading. cbn [fst snd].
  rewrite (EntryFacts.entry_of_line_split _ Hol Es).
  cbn [set_content level raw todo_state content o_level o_raw o_title
       o_todo_state].
  apply EntryFacts.heading_split_stars in Es as [-> Hlen].
  repeat split; auto.
  - destruct (todo_split free) as [[tok ttl]|] eqn:Et; [|left; reflexivity].
    right. exists tok. split; [reflexivity|].
    eapply TodoFacts.todo_split_token; eauto.
  - exists body. auto.
Qed.

(** ** The grammar of a heading line *)

Module GrammarFacts.
Import HeadingFacts.

Lemma drop_while_head p s :
  match drop_while p s with
  | c :: _ => p c = false
  | [] => True
  end.
Proof.
  induction s as [|c t IH]; [exact I|].
  cbn [drop_while]. destruct (p c) eqn:E; [exact IH | exact E].
Qed.

Lemma take_while_stop p s :
  match s with c :: _ => p c = false | [] => True end ->
  take_while p s = [] /\ drop_while p s = s.
Proof.
  destruct s as [|c t]; [auto|]. cbn [take_while drop_while].
  intros ->. auto.
Qed.

(** A line matches the heading grammar exactly when it is a non-empty
    run of stars, a non-empty run of whitespace, and a free text that
    does not start with whitespace; the split returns the run of stars
    and the free text. *)
Theorem heading_split_iff l stars free :
  heading_split l = Some (stars, free) <->
  exists ws,
    l = stars ++ ws ++ free
    /\ stars <> [] /\ forallb is_star stars = true
    /\ ws <> [] /\ forallb Py.is_space ws = true
    /\ match free with c :: _ => Py.is_space c = false | [] => True end.
Proof.
  unfold heading_split. split.
  - destruct (take_while is_star l) as [|c s] eqn:Es; [discriminate|].
    destruct (take_while Py.is_space (drop_while is_star l)) as [|w ws]
      eqn:Ew; [discriminate|].
    intros H. injection H as <- <-.
    exists (w :: ws). rewrite <- Es, <- Ew.
    rewrite take_drop_while, take_drop_while.
    split; [reflexivity|]. split; [rewrite Es; discriminate|].
    split; [apply take_while_forallb|].
    split; [rewrite Ew; discriminate|].
    split; [apply take_while_forallb | apply drop_while_head].
  - intros (ws & -> & Hs & Hstars & Hw & Hws & Hfree).
    assert (Hstop : match ws ++ free with
                    | c :: _ => is_star c = false
                    | [] => True
                    end).
    { destruct ws as [|w ws]; [contradiction|]. cbn [app].
      cbn [forallb] in Hws. apply andb_true_iff in Hws as [Hw' _].
      destruct (is_star w) eqn:E; [|reflexivity].
      apply is_star_eq in E. subst w. discriminate Hw'. }
    rewrite take_while_app, drop_while_app by exact Hstars.
    destruct (take_while_stop is_star _ Hstop) as [-> ->].
    rewrite app_nil_r.
    rewrite take_while_app, drop_while_app by exact Hws.
    destruct (take_while_stop Py.is_space _ Hfree) as [-> ->].
    rewrite app_nil_r.
    destruct stars; [contradiction|]. destruct ws; [contradiction|].
    reflexivity.
Qed.

End GrammarFacts.


(** C6.  The parser is a total function from texts to heading lists:
    on every text it returns a list of valid heading records.  The lines
    before the first heading line leave no trace in the result, which is
    the result of parsing the remaining lines alone; a text without any
    heading line gives the empty list. *)
Theorem extract_headings_total content pre rest :
  Py.splitlines content = pre ++ rest ->
  Forall (fun l => is_heading_line l = false) pre ->
  Forall valid_heading (extract_headings content)
  /\ extract_headings content = parse_lines rest
  /\ (rest = [] -> extract_headings content = []).
Proof.
  intros Hsplit Hpre.
  assert (Hrest : extract_headings content = parse_lines rest).
  { unfold extract_headings. rewrite Hsplit.
    rewrite !ParserFacts.parse_lines_blocks.
    rewrite BlockFacts.blocks_app_preamble by exact Hpre. reflexivity. }
  split; [|split].
  - unfold extract_headings. apply parse_lines_valid.
    apply LineFacts.splitlines_one_line.
  - exact Hrest.
  - intros ->. exact Hrest.
Qed.

(** C6 on a document with two lines before its only heading, and on
    these two lines alone. *)
Lemma extract_headings_total_witness :
  Py.splitlines (str "notes" ++ NL ++ str "*bold*" ++ NL ++ str "* A")
  = [str "notes"; str "*bold*"] ++ [str "* A"]
  /\ extract_headings (str "notes" ++ NL ++ str "*bold*" ++ NL ++ str "* A")
     = [{| level := 1; title := str "A"; raw := str "* A";
           todo_state := None; content := [] |}]
  /\ extract_headings (str "notes" ++ NL ++ str "*bold*") = [].
Proof.
  split; [reflexivity|]. split.
  - destruct (@extract_headings_total
                (str "notes" ++ NL ++ str "*bold*" ++ NL ++ str "* A")
                [str "notes"; str "*bold*"] [str "* A"] eq_refl)
      as (_ & H & _).
    + repeat constructor.
    + rewrite H. reflexivity.
  - destruct (@extract_headings_total
                (str "notes" ++ NL ++ str "*bold*")
                [str "notes"; str "*bold*"] [] eq_refl)
      as (_ & _ & H).
    + repeat constructor.
    + apply H. reflexivity.
Defined.

(** C7, as stated, fails: the heading line whose free text is the bare
    token TODO gets the title TODO, not the empty title, and no todo
    state. *)
Lemma bare_todo_title_not_empty :
  rmatch heading_pattern (str "* TODO")
  = Some [(0, str "* TODO"); (2, str "TODO"); (1, str "*")]
  /\ extract_headings (str "* TODO")
     = [{| level := 1; title := str "TODO"; raw := str "* TODO";
           todo_state := None; content := [] |}]
  /\ str "TODO" <> [].
Proof.
  split; [reflexivity|]. split; [reflexivity|]. discriminate.
Qed.

(** C7, amended.  For every heading line whose free text is exactly a
    todo-state token with nothing after it, the parser produces a
    heading whose title is that token and whose todo state is absent. *)
Theorem bare_todo_token_is_title content before line after hm tok :
  Py.splitlines content = before ++ line :: after ->
  rmatch heading_pattern line = Some hm ->
  grp hm 2 = tok ->
  In tok todo_tokens ->
  exists h,
    nth_error (extract_headings content) (length (parse_lines before))
    = Some h
    /\ raw h = line
    /\ level h = length (grp hm 1)
    /\ title h = tok
    /\ todo_state h = None.
Proof.
  intros Hsplit Hm Hfree Htok.
  assert (Hl : is_heading_line line = true)
    by (unfold is_heading_line; rewrite Hm; reflexivity).
  unfold extract_headings. rewrite Hsplit.
  rewrite (parse_lines_app_heading before line after Hl).
  rewrite nth_error_app2, Nat.sub_diag by lia. cbn [nth_error].
  eexists. split; [reflexivity|].
  unfold entry_of_line. rewrite Hm. unfold new_entry. rewrite Hfree.
  assert (Hnone : rmatch todo_pattern tok = None).
  { destruct Htok as [<-|[<-|[<-|[]]]]; reflexivity. }
  rewrite Hnone. cbn. auto.
Qed.

(** C7 on a sub-heading whose free text is the bare token DONE. *)
Lemma bare_todo_token_is_title_witness :
  Py.splitlines (str "* A" ++ NL ++ str "** DONE" ++ NL ++ str "text")
  = [str "* A"] ++ str "** DONE" :: [str "text"]
  /\ exists h,
       nth_error
         (extract_headings
            (str "* A" ++ NL ++ str "** DONE" ++ NL ++ str "text")) 1
       = Some h
       /\ title h = str "DONE" /\ todo_state h = None.
Proof.
  split; [reflexivity|].
  destruct (@bare_todo_token_is_title
              (str "* A" ++ NL ++ str "** DONE" ++ NL ++ str "text")
              [str "* A"] (str "** DONE") [str "text"]
              [(0, str "** DONE"); (2, str "DONE"); (1, str "**")]
              (str "DONE") eq_refl eq_refl eq_refl)
    as (h & Hn & _ & _ & Ht & Hs).
  - right. left. reflexivity.
  - exists h. auto.
Defined.

(** ** Round trip *)

Module RoundTripFacts.
Import LineFacts.

Lemma join_concat sep (ls : list (list text)) :
  Forall (fun l => l <> []) ls ->
  Py.join sep (concat ls) = Py.join sep (map (Py.join sep) ls).
Proof.
  induction 1 as [|a rest Ha Hrest IH]; [reflexivity|].
  destruct rest as [|b rest].
  - simpl. rewrite app_nil_r. reflexivity.
  - cbn [concat]. rewrite join_app.
    + cbn [concat] in IH. rewrite IH. reflexivity.
    + exact Ha.
    + inversion Hrest as [|? ? Hb _]; subst.
      destruct b; [contradiction | discriminate].
Qed.

Lemma blocks_concat lines :
  lines = fst (blocks lines)
          ++ concat (map (fun b => fst b :: snd b) (snd (blocks lines))).
Proof.
  induction lines as [|x rest IH]; [reflexivity|].
  cbn [blocks]. destruct (blocks rest) as [pre bs]. cbn [fst snd] in IH.
  destruct (is_heading_line x); cbn [fst snd map concat app];
    rewrite IH at 1; reflexivity.
Qed.

Lemma blocks_heading_first l rest :
  is_heading_line l = true -> fst (blocks (l :: rest)) = [].
Proof.
  intros H. cbn [blocks]. destruct (blocks rest). rewrite H. reflexivity.
Qed.

Lemma block_text_join b :
  snd b <> [[]] ->
  block_text (heading_of_block b) = Py.join NL (fst b :: snd b).
Proof.
  destruct b as [l body]. cbn [fst snd]. intros Hb.
  unfold block_text, heading_of_block, entry_of_line.
  cbn [fst snd set_content raw content].
  rewrite EntryFacts.entry_raw.
  destruct body as [|x [|y r]].
  - simpl. apply app_nil_r.
  - destruct x as [|c x]; [contradiction|]. reflexivity.
  - change (Py.join NL (l :: x :: y :: r))
      with (l ++ NL ++ Py.join NL (x :: y :: r)).
    change (Py.join NL (x :: y :: r)) with (x ++ NL ++ Py.join NL (y :: r)).
    destruct x; reflexivity.
Qed.

End RoundTripFacts.

(** C1, as stated, fails.  A document and the same document with a
    final line break are parsed into the same headings, and so are two
    headings with and without an empty line between them: no
    reconstruction from the headings gives back every document. *)
Lemma roundtrip_not_injective :
  starts_with_heading (str "* A") = true
  /\ starts_with_heading (str "* A" ++ NL) = true
  /\ extract_headings (str "* A" ++ NL) = extract_headings (str "* A")
  /\ extract_headings (str "* A" ++ NL ++ NL ++ str "* B")
     = extract_headings (str "* A" ++ NL ++ str "* B")
  /\ ~ (exists reconstruct : list heading -> text,
          forall content,
            starts_with_heading content = true ->
            reconstruct (extract_headings content) = content).
Proof.
  repeat split; try reflexivity.
  intros [f Hf].
  pose proof (Hf (str "* A") eq_refl) as H1.
  pose proof (Hf (str "* A" ++ NL) eq_refl) as H2.
  change (extract_headings (str "* A" ++ NL))
    with (extract_headings (str "* A")) in H2.
  rewrite H1 in H2. discriminate H2.
Qed.

(** C1, amended.  For every document that has a heading and nothing
    before it, whose lines are separated by single newline characters
    with no line break at the end (the text is the join of its own
    lines), and in which no heading line is followed by exactly one
    empty line before the next heading line, concatenating for each
    heading in order its raw line followed (when the content is not
    empty) by a newline and its content, with a newline between
    consecutive headings, reproduces the document. *)
Theorem roundtrip_normal_form content :
  starts_with_heading content = true ->
  Py.join NL (Py.splitlines content) = content ->
  no_lone_blank (Py.splitlines content) = true ->
  rebuild (extract_headings content) = content.
Proof.
  unfold starts_with_heading, no_lone_blank, rebuild, extract_headings.
  intros Hfirst Hjoin Hblank.
  rewrite <- Hjoin at 2.
  rewrite ParserFacts.parse_lines_blocks.
  rewrite (RoundTripFacts.blocks_concat (Py.splitlines content)) at 2.
  destruct (Py.splitlines content) as [|l rest]; [discriminate|].
  rewrite (RoundTripFacts.blocks_heading_first l rest Hfirst). cbn [app].
  rewrite RoundTripFacts.join_concat.
  - rewrite !map_map. f_equal. apply map_ext_in.
    intros b Hb. apply RoundTripFacts.block_text_join.
    eapply forallb_forall in Hblank; [|exact Hb].
    intros E. rewrite E in Hblank. discriminate.
  - apply Forall_map, Forall_forall. intros b _. discriminate.
Qed.

(** The round trip of C1 on a document with empty lines inside and at
    the end of contents. *)
Lemma roundtrip_normal_form_witness :
  starts_with_heading
    (Py.join NL [str "* TODO A"; str "text"; []; str "** B";
                 str "* C"; []; []; str "* D"; str "end"]) = true
  /\ rebuild
       (extract_headings
          (Py.join NL [str "* TODO A"; str "text"; []; str "** B";
                       str "* C"; []; []; str "* D"; str "end"]))
     = Py.join NL [str "* TODO A"; str "text"; []; str "** B";
                   str "* C"; []; []; str "* D"; str "end"].
Proof.
  split; [reflexivity|].
  apply (@roundtrip_normal_form
           (Py.join NL [str "* TODO A"; str "text"; []; str "** B";
                        str "* C"; []; []; str "* D"; str "end"]));
    vm_compute; reflexivity.
Defined.

(** C3 at a failing input.  In the two-line document below the mutator,
    asked for the heading "bar", takes line 0 as the block start, whose
    free text "TODO foo bar" is neither the title nor the title behind
    "TODO " or "DONE "; the first line that meets that criterion is
    line 1.  The heading "foo bar" is overwritten. *)
Lemma block_start_wrong_line :
  Py.splitlines (str "* TODO foo bar" ++ NL ++ str "* bar")
  = [str "* TODO foo bar"; str "* bar"]
  /\ find_line_number [str "* TODO foo bar"; str "* bar"] (str "bar")
     = Some 0
  /\ spec_line_selected (str "* TODO foo bar") (str "bar") = false
  /\ first_index (fun l => spec_line_selected l (str "bar"))
       [str "* TODO foo bar"; str "* bar"] 0 = Some 1
  /\ modify_lines (str "* TODO foo bar" ++ NL ++ str "* bar") (str "bar")
       None None None
     = inr [str "* bar"; str "* bar"].
Proof. repeat split; vm_compute; reflexivity. Qed.

(** The test of the mutator accepts every line that the criterion of the
    specification accepts. *)
Lemma spec_line_selected_selected line heading_title :
  spec_line_selected line heading_title = true ->
  line_selected line heading_title = true.
Proof.
  unfold spec_line_selected, line_selected.
  destruct (rmatch heading_pattern line) as [mt|]; [|discriminate].
  intros H. apply orb_true_iff in H as [H|H];
    [apply orb_true_iff in H as [H|H]|]; apply eqb_eq in H; rewrite H.
  - rewrite eqb_refl. rewrite andb_true_r.
    apply endswith_iff. exists []. reflexivity.
  - rewrite startswith_app, orb_true_r. rewrite andb_true_r.
    apply endswith_iff. exists (str "TODO "). reflexivity.
  - rewrite startswith_app, !orb_true_r. rewrite andb_true_r.
    apply endswith_iff. exists (str "DONE "). reflexivity.
Qed.

(** ** Line terminators *)

Module SeparatorFacts.
Import LineFacts.

Lemma split_ends_nil s : Py.split_ends s = [] -> s = [].
Proof.
  destruct s as [|c t]; [reflexivity|]. cbn [Py.split_ends].
  destruct (Py.is_linebreak c).
  - destruct t as [|c' t']; [discriminate|].
    destruct (N.eqb c 13 && N.eqb c' 10); discriminate.
  - destruct (Py.split_ends t) as [|[l e] r]; discriminate.
Qed.

(** In a text that ends with a line break every line has a
    terminator. *)
Lemma split_ends_all_terminated s :
  ends_with_linebreak s = true ->
  Forall (fun le => snd le <> []) (Py.split_ends s).
Proof.
  induction s as [s IH] using (induction_ltof1 _ (@length char)).
  unfold ltof in IH.
  destruct s as [|c t]; [constructor|].
  intros He. cbn [Py.split_ends]. destruct (Py.is_linebreak c) eqn:Ec.
  - destruct t as [|c' t']; [repeat constructor; discriminate|].
    destruct (N.eqb c 13 && N.eqb c' 10).
    + constructor; [discriminate|].
      destruct t' as [|c'' t'']; [constructor|].
      apply IH; [simpl; lia | exact He].
    + constructor; [discriminate|].
      apply IH; [simpl; lia | exact He].
  - destruct t as [|c' t'].
    { simpl in He. congruence. }
    specialize (IH (c' :: t') ltac:(simpl; lia) He).
    destruct (Py.split_ends (c' :: t')) as [|[l e] r] eqn:E.
    + apply split_ends_nil in E. discriminate.
    + inversion IH; subst. constructor; assumption.
Qed.

Lemma count_breaks_app a b :
  count_breaks (a ++ b) = count_breaks a + count_breaks b.
Proof. unfold count_breaks. rewrite filter_app, length_app. reflexivity. Qed.

Lemma count_breaks_line l :
  forallb not_linebreak l = true -> count_breaks l = 0.
Proof.
  unfold count_breaks. induction l as [|c l IH]; [reflexivity|].
  cbn [forallb filter]. intros H. apply andb_true_iff in H as [Hc Hl].
  unfold not_linebreak in Hc. apply negb_true_iff in Hc. rewrite Hc. auto.
Qed.

Lemma count_breaks_terminator e :
  e <> [] -> forallb Py.is_linebreak e = true -> 1 <= count_breaks e.
Proof.
  unfold count_breaks. destruct e as [|c e]; [contradiction|].
  intros _ H. cbn [forallb] in H. apply andb_true_iff in H as [Hc _].
  cbn [filter]. rewrite Hc. simpl. lia.
Qed.

(** After the block the mutator writes one line break for each line. *)
Lemma count_breaks_written lines :
  Forall (fun l => forallb not_linebreak l = true) lines ->
  count_breaks (concat (map (fun l => NL ++ l) lines)) = length lines.
Proof.
  induction 1 as [|l rest Hl _ IH]; [reflexivity|].
  cbn [map concat length]. rewrite !count_breaks_app, IH.
  rewrite (count_breaks_line _ Hl). reflexivity.
Qed.

(** The document holds at least one for each terminated line. *)
Lemma count_breaks_original pairs :
  Forall (fun le => snd le <> []) pairs ->
  Forall (fun le => forallb Py.is_linebreak (snd le) = true) pairs ->
  length pairs <= count_breaks (concat (map with_end pairs)).
Proof.
  induction 1 as [|le rest Hle _ IH]; intros Hb; [simpl; lia|].
  inversion Hb as [|? ? Hb1 Hb2]; subst.
  cbn [map concat length]. unfold with_end at 1.
  rewrite !count_breaks_app.
  pose proof (count_breaks_terminator Hle Hb1). specialize (IH Hb2).
  unfold text in *. lia.
Qed.

Lemma Forall_skipn (A : Type) (P : A -> Prop) n (l : list A) :
  Forall P l -> Forall P (skipn n l).
Proof.
  intros H. rewrite <- (firstn_skipn n l) in H.
  apply Forall_app in H. tauto.
Qed.

Lemma Forall_nth_error (A : Type) (P : A -> Prop) (l : list A) n x :
  Forall P l -> nth_error l n = Some x -> P x.
Proof.
  intros H Hn. apply nth_error_In in Hn.
  eapply Forall_forall in H; eauto.
Qed.

Lemma join_cons_concat sep x rest :
  Py.join sep (x :: rest) = x ++ concat (map (fun l => sep ++ l) rest).
Proof.
  revert x. induction rest as [|y rest IH]; intros x.
  - simpl. symmetry. apply app_nil_r.
  - rewrite join_cons, IH. cbn [map concat].
    rewrite <- app_assoc. reflexivity.
Qed.

Lemma join_app_concat sep a b :
  a <> [] ->
  Py.join sep (a ++ b) =
  Py.join sep a ++ concat (map (fun l => sep ++ l) b).
Proof.
  destruct a as [|x a]; [contradiction|]. intros _.
  cbn [app]. rewrite !join_cons_concat, map_app, concat_app.
  apply app_assoc.
Qed.

(** The document is the text through line [k - 1] followed by the text
    after it. *)
Lemma text_through_after s k :
  1 <= k <= length (Py.split_ends s) ->
  s = text_through_line (Py.split_ends s) k
      ++ text_after_line (Py.split_ends s) k.
Proof.
  intros Hk. unfold text_through_line, text_after_line.
  rewrite <- (split_ends_concat s) at 1. unfold Py.splitlines_keepends.
  fold with_end. change (fun le => fst le ++ snd le) with with_end.
  destruct (nth_error (Py.split_ends s) (k - 1)) as [le|] eqn:E.
  2:{ apply nth_error_None in E. lia. }
  apply nth_error_split in E as (l1 & l2 & Hs & Hlen).
  rewrite Hs at 1.
  replace (firstn (k - 1) (Py.split_ends s)) with l1.
  2:{ rewrite Hs, <- Hlen, firstn_app, firstn_all, Nat.sub_diag.
      simpl. rewrite app_nil_r. reflexivity. }
  replace (skipn k (Py.split_ends s)) with l2.
  2:{ rewrite Hs. replace k with (length (l1 ++ [le])).
      - change (l1 ++ le :: l2) with (l1 ++ [le] ++ l2).
        rewrite app_assoc, skipn_app, skipn_all, Nat.sub_diag.
        reflexivity.
      - rewrite length_app. simpl. lia. }
  rewrite map_app, concat_app. cbn [map concat]. unfold with_end at 2.
  rewrite <- !app_assoc. reflexivity.
Qed.

End SeparatorFacts.

(** The tool writes the new lines joined by single newlines. *)
Theorem modify_heading_writes w file_path heading_title nt nc ns
    content new_lines :
  path_exists w (path_join (org_dir w) file_path) = true ->
  open_read w (path_join (org_dir w) file_path) = ReadOk content ->
  open_write w (path_join (org_dir w) file_path) = None ->
  modify_lines content heading_title nt nc ns = inr new_lines ->
  modify_heading w file_path heading_title nt nc ns =
  (Success (str "Modified heading '" ++ heading_title
            ++ str "' in " ++ file_path),
   write_file w (path_join (org_dir w) file_path) (Py.join NL new_lines)).
Proof.
  intros He Hr Hw Hm. unfold modify_heading.
  rewrite He, Hr, Hm, Hw. reflexivity.
Qed.

(** C10.  The text written is the new lines joined by single newlines,
    with nothing after the last line.  When the document ends with a
    line terminator, the text that follows the last line of the replaced
    block in the document (that line's terminator and the later lines
    with theirs) is not the text that follows the replacement block in
    the written text (the later lines, each behind one newline): the
    written text has one line break per later line, the document at
    least one more. *)
Theorem written_text_drops_final_separator
    content heading_title nt nc ns new_lines :
  ends_with_linebreak content = true ->
  modify_lines content heading_title nt nc ns = inr new_lines ->
  let lines := Py.splitlines content in
  let pairs := Py.split_ends content in
  exists line_number end_line block,
    block_start lines heading_title line_number
    /\ block_end lines line_number end_line
    /\ block <> []
    /\ new_lines = firstn line_number lines ++ block ++ skipn end_line lines
    /\ content = text_through_line pairs end_line
                 ++ text_after_line pairs end_line
    /\ Py.join NL new_lines
       = Py.join NL (firstn line_number lines ++ block)
         ++ written_after_line lines end_line
    /\ count_breaks (written_after_line lines end_line)
       = length lines - end_line
    /\ length lines - end_line
       < count_breaks (text_after_line pairs end_line)
    /\ written_after_line lines end_line <> text_after_line pairs end_line.
Proof.
  intros Hend Hm lines pairs.
  destruct (MutatorFacts.modify_lines_block _ _ _ _ _ Hm)
    as (target & n & e & _ & Hstart & Hendl & Hnew).
  fold lines in Hstart, Hendl, Hnew.
  exists n, e,
    ([heading_line_of target nt ns]
     ++ Py.splitlines (content_text_of target nc)).
  assert (Hlen : length lines = length pairs)
    by (unfold lines, pairs, Py.splitlines; apply length_map).
  destruct Hendl as (Hrange & Hbody & Hnext).
  assert (Hcount_w : count_breaks (written_after_line lines e)
                     = length lines - e).
  { unfold written_after_line.
    rewrite SeparatorFacts.count_breaks_written, length_skipn;
      [reflexivity|].
    apply SeparatorFacts.Forall_skipn. unfold lines, Py.splitlines.
    apply Forall_map. apply LineFacts.split_ends_lines. }
  assert (Hcount_o : length lines - e
                     < count_breaks (text_after_line pairs e)).
  { unfold text_after_line.
    pose proof (SeparatorFacts.split_ends_all_terminated _ Hend) as Hterm.
    pose proof (LineFacts.split_ends_terminators content) as Hbrk.
    fold pairs in Hterm, Hbrk.
    destruct (nth_error pairs (e - 1)) as [le|] eqn:E.
    2:{ apply nth_error_None in E. lia. }
    rewrite SeparatorFacts.count_breaks_app.
    pose proof (@SeparatorFacts.count_breaks_terminator (snd le)
                  (@SeparatorFacts.Forall_nth_error _ _ _ _ _ Hterm E)
                  (@SeparatorFacts.Forall_nth_error _ _ _ _ _ Hbrk E))
      as H1.
    pose proof (@SeparatorFacts.count_breaks_original (skipn e pairs)
                  (@SeparatorFacts.Forall_skipn _ _ e _ Hterm)
                  (@SeparatorFacts.Forall_skipn _ _ e _ Hbrk)) as H2.
    rewrite length_skipn in H2. unfold text in *. lia. }
  split; [exact Hstart|].
  split; [exact (conj Hrange (conj Hbody Hnext))|].
  split; [discriminate|].
  split; [rewrite Hnew, <- !app_assoc; reflexivity|].
  split; [apply SeparatorFacts.text_through_after; fold pairs; lia|].
  split.
  { rewrite Hnew. unfold written_after_line.
    replace (firstn n lines ++ [heading_line_of target nt ns]
             ++ Py.splitlines (content_text_of target nc) ++ skipn e lines)
      with ((firstn n lines ++ [heading_line_of target nt ns]
             ++ Py.splitlines (content_text_of target nc)) ++ skipn e lines)
      by (rewrite <- !app_assoc; reflexivity).
    apply SeparatorFacts.join_app_concat.
    destruct (firstn n lines); discriminate. }
  split; [exact Hcount_w|].
  split; [exact Hcount_o|].
  intros E. rewrite E in Hcount_w. unfold text in *. lia.
Qed.

(** C10 on the scenario, which ends with a newline. *)
Lemma written_text_drops_final_separator_witness :
  ends_with_linebreak scenario = true
  /\ modify_lines scenario (str "Sub task") None None None
     = inr [str "* TODO Buy milk"; str "SCHEDULED: <2024-01-10>";
            str "** DONE Sub task"; str "notes";
            str "* Write report"; str "DEADLINE: <2024-01-15>"]
  /\ exists end_line,
       written_after_line (Py.splitlines scenario) end_line
       <> text_after_line (Py.split_ends scenario) end_line.
Proof.
  assert (H : modify_lines scenario (str "Sub task") None None None
              = inr [str "* TODO Buy milk"; str "SCHEDULED: <2024-01-10>";
                     str "** DONE Sub task"; str "notes";
                     str "* Write report"; str "DEADLINE: <2024-01-15>"])
    by (vm_compute; reflexivity).
  split; [reflexivity|]. split; [exact H|].
  destruct (@written_text_drops_final_separator
              scenario (str "Sub task") None None None _ eq_refl H)
    as (n & e & b & _ & _ & _ & _ & _ & _ & _ & _ & Hne).
  exists e. exact Hne.
Defined.

(** ** The marker patterns *)

Module MarkerFacts.
Import ReFacts HeadingFacts TodoFacts.

Section WithDigits.

Variable is_decimal : char -> bool.

Lemma m_Cls p s i g k :
  m (Cls p) s i g k =
  match s with
  | c :: t => if p c then k t (S i) g else None
  | [] => None
  end.
Proof. reflexivity. Qed.

Lemma m_date s i g k :
  m (date_pattern is_decimal) s i g k =
  if is_date is_decimal (firstn 10 s)
  then k (skipn 10 s) (i + 10) g else None.
Proof.
  unfold date_pattern, Digit, Lit.
  cbn [cat fold_right Times m].
  do 10 (destruct s as [|?c s]; cbn [firstn skipn is_date];
         [repeat match goal with
                 | |- context [if ?b then _ else _] => destruct b
                 end; reflexivity|]).
  replace (i + 10) with (S (S (S (S (S (S (S (S (S (S i)))))))))) by lia.
  destruct (is_decimal c); [|reflexivity].
  destruct (is_decimal c0); [|reflexivity].
  destruct (is_decimal c1); [|reflexivity].
  destruct (is_decimal c2); [|reflexivity].
  destruct (chr "-" =? c3)%N; [|reflexivity].
  destruct (is_decimal c4); [|reflexivity].
  destruct (is_decimal c5); [|reflexivity].
  destruct (chr "-" =? c6)%N; [|reflexivity].
  destruct (is_decimal c7); [|reflexivity].
  destruct (is_decimal c8); reflexivity.
Qed.

Lemma drop_while_not_gt r :
  match drop_while not_gt r with
  | c :: _ => N.eqb (chr ">") c = true /\ existsb (N.eqb (chr ">")) r = true
  | [] => existsb (N.eqb (chr ">")) r = false
  end.
Proof.
  induction r as [|c r IH]; [reflexivity|].
  cbn [drop_while existsb]. unfold not_gt at 1.
  rewrite (N.eqb_sym (chr ">") c).
  destruct (N.eqb c (chr ">")) eqn:E; cbn [negb orb].
  - rewrite N.eqb_sym, E. auto.
  - exact IH.
Qed.

(** The optional tail and the closing bracket, before a continuation
    that accepts. *)
Lemma m_close tl j g (f : text -> nat -> groups -> groups) :
  match m (cat [Opt (cat [Lit (chr " "); Star (NotChr (chr ">"))]);
                Lit (chr ">")]) tl j g
          (fun s' i' g' => Some (f s' i' g')) with
  | Some x => closes tl = true /\ exists s' i', x = f s' i' g
  | None => closes tl = false
  end.
Proof.
  cbn [cat fold_right]. rewrite m_Seq.
  set (K := fun (s' : text) (i' : nat) (g' : groups) =>
              m (Seq (Lit (chr ">")) Eps) s' i' g'
                (fun s'' i'' g'' => Some (f s'' i'' g''))).
  assert (HK : forall s' i' g',
             K s' i' g' =
             match s' with
             | c :: t => if N.eqb (chr ">") c
                         then Some (f t (S i') g') else None
             | [] => None
             end) by reflexivity.
  clearbody K.
  change (m (Opt ?a) tl j g K)
    with (match m a tl j g K with Some x => Some x | None => K tl j g end).
  rewrite m_Seq. unfold Lit at 1. rewrite m_Cls.
  unfold closes. destruct tl as [|c r].
  { rewrite HK. reflexivity. }
  destruct (N.eqb (chr " ") c) eqn:Esp.
  - assert (Hgt : N.eqb (chr ">") c = false).
    { apply N.eqb_eq in Esp. subst c. reflexivity. }
    rewrite Hgt. cbn [orb andb].
    rewrite m_Seq. unfold NotChr. fold not_gt.
    rewrite m_Star_Cls, star_cls_longest.
    2:{ intros c' t' j' g' Hc'. cbn [m]. rewrite HK.
        unfold not_gt in Hc'. apply negb_true_iff in Hc'.
        rewrite N.eqb_sym, Hc'. reflexivity. }
    cbn [m]. rewrite !HK. pose proof (drop_while_not_gt r) as Hd.
    destruct (drop_while not_gt r) as [|c' t'].
    + rewrite Hgt, Hd. reflexivity.
    + destruct Hd as [Hc' Hex]. rewrite Hc', Hex. eauto.
  - cbn [andb]. rewrite orb_false_r. rewrite HK.
    destruct (N.eqb (chr ">") c); eauto.
Qed.

Lemma is_space_not_lt c : Py.is_space c = true -> N.eqb (chr "<") c = false.
Proof.
  intros H. destruct (N.eqb (chr "<") c) eqn:E; [|reflexivity].
  apply N.eqb_eq in E. subst c. discriminate H.
Qed.

(** The marker pattern tried at one position. *)
Theorem m_marker_pattern keyword s i :
  match m (Group 0 (marker_pattern is_decimal keyword)) s i [] accept with
  | Some gs =>
      exists whole d,
        gs = [(0, whole); (1, d)]
        /\ marker_here is_decimal keyword s = Some d
  | None => marker_here is_decimal keyword s = None
  end.
Proof.
  unfold marker_pattern, marker_here.
  change (cat (?a :: ?b :: ?c :: ?d :: ?r))
    with (Seq a (Seq b (Seq c (Seq d (cat r))))).
  rewrite m_Group, m_Seq, m_Word.
  destruct (Py.startswith s keyword); [|reflexivity].
  rewrite m_Seq. unfold Space. rewrite m_Star_Cls, star_cls_longest.
  2:{ intros c t j g' Hc. rewrite m_Seq. unfold Lit. rewrite m_Cls.
      rewrite (is_space_not_lt _ Hc). reflexivity. }
  rewrite m_Seq. unfold Lit at 1. rewrite m_Cls.
  destruct (drop_while Py.is_space (skipn (length keyword) s)) as [|c r].
  { reflexivity. }
  destruct (N.eqb (chr "<") c); [|reflexivity]. cbn [andb].
  rewrite m_Seq, m_Group, m_date.
  destruct (is_date is_decimal (firstn 10 r)); [|reflexivity]. cbn [andb].
  unfold accept.
  match goal with
  | |- context [m ?p ?tl ?j ?g ?k] =>
      pose proof (m_close tl j g
                    (fun s' i' g' => (0, firstn (i' - i) s) :: g')) as Hc
  end.
  cbv beta in Hc.
  match type of Hc with
  | match ?x with _ => _ end =>
      match goal with
      | |- match ?y with _ => _ end => change y with x
      end; destruct x as [gs|]
  end.
  - destruct Hc as (Hcl & s' & i' & ->). rewrite Hcl.
    match goal with
    | |- context [firstn (?a + 10 - ?a) r] =>
        replace (a + 10 - a) with 10 by (unfold text; lia)
    end.
    eauto.
  - rewrite Hc. reflexivity.
Qed.

Lemma search_from_marker keyword s : forall i,
  match search_from (marker_pattern is_decimal keyword) s i with
  | Some gs => first_marker is_decimal keyword s = Some (grp gs 1)
  | None => first_marker is_decimal keyword s = None
  end.
Proof.
  induction s as [|c t IH]; intros i.
  - cbn [search_from first_marker].
    pose proof (m_marker_pattern keyword [] i) as H.
    destruct (m (Group 0 (marker_pattern is_decimal keyword)) [] i []
                accept) as [gs|].
    + destruct H as (whole & d & -> & ->). reflexivity.
    + rewrite H. reflexivity.
  - cbn [search_from first_marker].
    pose proof (m_marker_pattern keyword (c :: t) i) as H.
    destruct (m (Group 0 (marker_pattern is_decimal keyword)) (c :: t) i []
                accept) as [gs|].
    + destruct H as (whole & d & -> & ->). reflexivity.
    + rewrite H. apply IH.
Qed.

(** [pattern.search] returns the date of the first marker as
    group 1. *)
Theorem search_marker keyword s :
  match search (marker_pattern is_decimal keyword) s with
  | Some gs => first_marker is_decimal keyword s = Some (grp gs 1)
  | None => first_marker is_decimal keyword s = None
  end.
Proof. apply search_from_marker. Qed.

Lemma is_date_length d : is_date is_decimal d = true -> length d = 10.
Proof.
  do 10 (destruct d as [|?c d]; [discriminate|]).
  destruct d; [reflexivity | discriminate].
Qed.

(** A marker starts the text exactly when the text is the keyword, a
    run of whitespace, an opening bracket, a date and a closing tail. *)
Theorem marker_here_iff keyword s d :
  marker_here is_decimal keyword s = Some d <->
  exists ws tl,
    s = keyword ++ ws ++ chr "<" :: d ++ tl
    /\ forallb Py.is_space ws = true
    /\ is_date is_decimal d = true
    /\ closes tl = true.
Proof.
  unfold marker_here. split.
  - destruct (Py.startswith s keyword) eqn:Es; [|discriminate].
    apply startswith_iff in Es as [t ->].
    rewrite skipn_app, skipn_all, Nat.sub_diag, skipn_O. cbn [app].
    destruct (drop_while Py.is_space t) as [|c r] eqn:Ed; [discriminate|].
    destruct (N.eqb (chr "<") c) eqn:Ec; [|cbn [andb]; discriminate].
    destruct (is_date is_decimal (firstn 10 r)) eqn:Edate; [|cbn [andb]; discriminate].
    destruct (closes (skipn 10 r)) eqn:Ecl; [|cbn [andb]; discriminate].
    cbn [andb]. intros H.
    assert (Hd' : d = firstn 10 r) by congruence. rewrite Hd'. clear H Hd'.
    exists (take_while Py.is_space t), (skipn 10 r).
    apply N.eqb_eq in Ec. subst c.
    rewrite firstn_skipn, <- Ed, take_drop_while.
    repeat split; auto. apply take_while_forallb.
  - intros (ws & tl & -> & Hws & Hd & Hcl).
    rewrite startswith_app, skipn_app, skipn_all, Nat.sub_diag, skipn_O.
    cbn [app]. rewrite drop_while_app by exact Hws.
    cbn [drop_while].
    replace (Py.is_space (chr "<")) with false by reflexivity.
    rewrite N.eqb_refl. cbn [andb].
    pose proof (is_date_length d Hd) as Hlen.
    rewrite firstn_app, skipn_app, Hlen, <- Hlen, firstn_all, skipn_all,
      Nat.sub_diag.
    cbn [firstn skipn app]. rewrite app_nil_r, Hd, Hcl. reflexivity.
Qed.

(** [first_marker] finds a marker at the leftmost position that has
    one. *)
Theorem first_marker_some keyword s d :
  first_marker is_decimal keyword s = Some d <->
  exists pre rest,
    s = pre ++ rest
    /\ marker_here is_decimal keyword rest = Some d
    /\ forall pre' rest',
         s = pre' ++ rest' -> length pre' < length pre ->
         marker_here is_decimal keyword rest' = None.
Proof.
  split.
  - induction s as [|c t IH]; cbn [first_marker].
    + destruct (marker_here is_decimal keyword []) eqn:E; [|discriminate].
      intros H. injection H as ->. exists [], []. repeat split; auto.
      intros pre' rest' _ Hl. simpl in Hl. lia.
    + destruct (marker_here is_decimal keyword (c :: t)) eqn:E.
      * intros H. injection H as ->. exists [], (c :: t).
        repeat split; auto. intros pre' rest' _ Hl. simpl in Hl. lia.
      * intros H. apply IH in H as (pre & rest & -> & Hm & Hfirst).
        exists (c :: pre), rest. repeat split; auto.
        intros [|c' pre'] rest' Hs Hl.
        -- simpl in Hs. subst rest'. exact E.
        -- injection Hs as -> Hs. apply (Hfirst pre' rest' Hs).
           simpl in Hl. lia.
  - intros (pre & rest & -> & Hm & Hfirst).
    induction pre as [|c pre IH].
    + destruct rest; cbn [app first_marker]; rewrite Hm; reflexivity.
    + cbn [app first_marker].
      rewrite (Hfirst [] (c :: pre ++ rest) eq_refl) by (simpl; lia).
      apply IH. intros pre' rest' Hs Hl.
      apply (Hfirst (c :: pre') rest'); [simpl; f_equal; exact Hs|].
      simpl. lia.
Qed.

Theorem first_marker_none keyword s :
  first_marker is_decimal keyword s = None <->
  forall pre rest,
    s = pre ++ rest -> marker_here is_decimal keyword rest = None.
Proof.
  split.
  - induction s as [|c t IH]; cbn [first_marker].
    + destruct (marker_here is_decimal keyword []) eqn:E; [discriminate|].
      intros _ pre rest Hs. symmetry in Hs.
      apply app_eq_nil in Hs as [_ ->]. exact E.
    + destruct (marker_here is_decimal keyword (c :: t)) eqn:E;
        [discriminate|].
      intros H [|c' pre] rest Hs.
      * simpl in Hs. subst rest. exact E.
      * injection Hs as -> Hs. exact (IH H pre rest Hs).
  - intros H. induction s as [|c t IH]; cbn [first_marker].
    + rewrite (H [] [] eq_refl). reflexivity.
    + rewrite (H [] (c :: t) eq_refl). apply IH.
      intros pre rest Hs. apply (H (c :: pre) rest).
      rewrite Hs. reflexivity.
Qed.

Lemma fold_items (hs : list heading) : forall acc,
  fold_left (fun acc h => acc ++ items_of_heading is_decimal h) hs acc =
  acc ++ flat_map (items_of_heading is_decimal) hs.
Proof.
  induction hs as [|h hs IH]; intros acc.
  - simpl. symmetry. apply app_nil_r.
  - cbn [fold_left flat_map]. rewrite IH, <- app_assoc. reflexivity.
Qed.

End WithDigits.

End MarkerFacts.

(** C5.  The items come heading by heading, in the order of the
    headings.  A heading whose content holds neither a SCHEDULED nor a
    DEADLINE marker gives no item; a heading whose content holds both
    gives exactly two, the scheduled item first and the deadline item
    second; in every case the date of an item is the date group of the
    first marker of its kind in the content of the heading. *)
Theorem scheduled_items_by_heading is_decimal hs :
  items_of_headings is_decimal hs
  = flat_map (items_of_heading is_decimal) hs
  /\ forall h,
       let s := first_marker is_decimal (str "SCHEDULED:") (content h) in
       let d := first_marker is_decimal (str "DEADLINE:") (content h) in
       (s = None -> d = None -> items_of_heading is_decimal h = [])
       /\ (forall ds dd,
             s = Some ds -> d = Some dd ->
             items_of_heading is_decimal h
             = [item_of scheduled ds h; item_of deadline dd h])
       /\ items_of_heading is_decimal h
          = match s with
            | Some ds => [item_of scheduled ds h]
            | None => []
            end
            ++ match d with
               | Some dd => [item_of deadline dd h]
               | None => []
               end.
Proof.
  split.
  - unfold items_of_headings. apply MarkerFacts.fold_items.
  - intros h s d.
    assert (H : items_of_heading is_decimal h
                = match s with
                  | Some ds => [item_of scheduled ds h]
                  | None => []
                  end
                  ++ match d with
                     | Some dd => [item_of deadline dd h]
                     | None => []
                     end).
    { unfold items_of_heading, scheduled_pattern, deadline_pattern.
      pose proof (MarkerFacts.search_marker is_decimal (str "SCHEDULED:")
                    (content h)) as Hs.
      pose proof (MarkerFacts.search_marker is_decimal (str "DEADLINE:")
                    (content h)) as Hd.
      fold s in Hs. fold d in Hd.
      destruct (search (marker_pattern is_decimal (str "SCHEDULED:"))
                  (content h));
        destruct (search (marker_pattern is_decimal (str "DEADLINE:"))
                    (content h));
        rewrite Hs, Hd; reflexivity. }
    split; [|split].
    + intros Hs Hd. rewrite H, Hs, Hd. reflexivity.
    + intros ds dd Hs Hd. rewrite H, Hs, Hd. reflexivity.
    + exact H.
Qed.

(** C5 on a heading with both markers, the deadline written first, and
    on a heading whose SCHEDULED keyword has no bracketed date. *)
Lemma scheduled_items_by_heading_witness :
  let both :=
    {| level := 1; title := str "Report"; raw := str "* TODO Report";
       todo_state := Some (str "TODO");
       content := str "DEADLINE: <2024-01-15 Mon>" ++ NL
                  ++ str "SCHEDULED: <2024-01-10>" |} in
  let neither :=
    {| level := 2; title := str "Notes"; raw := str "** Notes";
       todo_state := None; content := str "SCHEDULED: 2024-01-10" |} in
  first_marker ascii_decimal (str "SCHEDULED:") (content neither) = None
  /\ first_marker ascii_decimal (str "DEADLINE:") (content neither) = None
  /\ items_of_heading ascii_decimal neither = []
  /\ items_of_heading ascii_decimal both
     = [item_of scheduled (str "2024-01-10") both;
        item_of deadline (str "2024-01-15") both]
  /\ items_of_headings ascii_decimal [neither; both]
     = [item_of scheduled (str "2024-01-10") both;
        item_of deadline (str "2024-01-15") both].
Proof.
  intros both neither.
  destruct (scheduled_items_by_heading ascii_decimal [neither; both])
    as [Hall Hper].
  split; [reflexivity|]. split; [reflexivity|]. split; [|split].
  - destruct (Hper neither) as (Hnone & _ & _). apply Hnone; reflexivity.
  - destruct (Hper both) as (_ & Hboth & _). apply Hboth; reflexivity.
  - rewrite Hall. reflexivity.
Defined.

(** ** The concrete scenario *)

Lemma scenario_parse :
  extract_headings scenario
  = [{| level := 1; title := str "Buy milk"; raw := str "* TODO Buy milk";
        todo_state := Some (str "TODO");
        content := str "SCHEDULED: <2024-01-10>" |};
     {| level := 2; title := str "Sub task"; raw := str "** DONE Sub task";
        todo_state := Some (str "DONE"); content := str "notes" |};
     {| level := 1; title := str "Write report";
        raw := str "* Write report"; todo_state := None;
        content := str "DEADLINE: <2024-01-15>" |}].
Proof. vm_compute. reflexivity. Qed.

Lemma scenario_items :
  extract_scheduled_items ascii_decimal scenario
  = [{| i_type := scheduled; i_date := str "2024-01-10";
        i_title := str "Buy milk"; i_todo_state := Some (str "TODO");
        i_level := 1 |};
     {| i_type := deadline; i_date := str "2024-01-15";
        i_title := str "Write report"; i_todo_state := None;
        i_level := 1 |}].
Proof. vm_compute. reflexivity. Qed.

(** Mutating "Buy milk" with a new state and new content: what the
    file holds afterwards. *)
Lemma scenario_modify :
  open_read
    (snd (modify_heading (world_with scenario) (str "notes.org")
            (str "Buy milk") None (Some (str "done"))
            (Some (str "DONE"))))
    (str "/home/user/org/notes.org")
  = ReadOk (Py.join NL
              [str "* DONE Buy milk"; str "done";
               str "** DONE Sub task"; str "notes";
               str "* Write report"; str "DEADLINE: <2024-01-15>"]).
Proof. vm_compute. reflexivity. Qed.

(** The locator guard of the mutator answers not-found for a title that
    a heading line carries as its whole free text, when the parser has
    taken a todo token off that text. *)
Lemma locator_guard_not_found :
  spec_line_selected (str "* TODO x") (str "TODO x") = true
  /\ modify_lines (str "* TODO x") (str "TODO x") None None None
     = inl HeadingNotFound.
Proof. split; vm_compute; reflexivity. Qed.

(** * The rest of the tools *)

(** ** More on lines *)

Module MoreLineFacts.
Import LineFacts.

(** A text without line breaks is one line, and one terminated line
    when a newline follows it. *)
Lemma split_ends_line_lf l :
  forallb not_linebreak l = true ->
  Py.split_ends (l ++ [10%N]) = [(l, [10%N])].
Proof.
  induction l as [|c l IH]; [reflexivity|].
  cbn [forallb]. intros H. apply andb_true_iff in H as [Hc Hl].
  unfold not_linebreak in Hc. apply negb_true_iff in Hc.
  cbn [app Py.split_ends]. rewrite Hc, (IH Hl). reflexivity.
Qed.

Lemma split_ends_line c l :
  forallb not_linebreak (c :: l) = true ->
  Py.split_ends (c :: l) = [(c :: l, [])].
Proof.
  revert c. induction l as [|c' l IH]; intros c H.
  - cbn [forallb] in H. apply andb_true_iff in H as [Hc _].
    unfold not_linebreak in Hc. apply negb_true_iff in Hc.
    cbn [Py.split_ends]. rewrite Hc. reflexivity.
  - cbn [forallb] in H. apply andb_true_iff in H as [Hc Hl].
    unfold not_linebreak in Hc. apply negb_true_iff in Hc.
    cbn [Py.split_ends]. rewrite Hc.
    change (if Py.is_linebreak c' then _ else _)
      with (Py.split_ends (c' :: l)).
    rewrite (IH c' Hl). reflexivity.
Qed.

(** Nothing after a newline joins the lines before it. *)
Lemma split_ends_app_lf a : forall b,
  Py.split_ends (a ++ [10%N] ++ b)
  = Py.split_ends (a ++ [10%N]) ++ Py.split_ends b.
Proof.
  induction a as [a IH] using (induction_ltof1 _ (@length char)).
  unfold ltof in IH. intros b.
  destruct a as [|c t].
  - cbn [app Py.split_ends].
    replace (Py.is_linebreak 10%N) with true by reflexivity.
    destruct b as [|c' t']; [reflexivity|].
    replace (N.eqb 10 13)%N with false by reflexivity. reflexivity.
  - assert (IH' : forall y, length y <= length t ->
                   Py.split_ends (y ++ 10%N :: b)
                   = Py.split_ends (y ++ [10%N]) ++ Py.split_ends b).
    { intros y Hy. apply (IH y). simpl. unfold text, char in *. lia. }
    cbn [app]. cbn [Py.split_ends].
    destruct (Py.is_linebreak c) eqn:Ec.
    + destruct t as [|c1 t1].
      * cbn [app]. destruct (N.eqb c 13 && N.eqb 10%N 10%N) eqn:E.
        -- reflexivity.
        -- pose proof (IH' [] (le_n _)) as H0.
           cbn [app] in H0. rewrite H0. reflexivity.
      * cbn [app]. destruct (N.eqb c 13 && N.eqb c1 10).
        -- rewrite (IH' t1 (le_S _ _ (le_n _))). reflexivity.
        -- pose proof (IH' (c1 :: t1) (le_n _)) as H0.
           cbn [app] in H0. rewrite H0. reflexivity.
    + rewrite (IH' t (le_n _)).
      destruct (Py.split_ends (t ++ [10%N])) as [|[l e] r] eqn:E.
      * apply SeparatorFacts.split_ends_nil in E.
        destruct t; discriminate.
      * unfold char in *. rewrite ?E. reflexivity.
Qed.

Lemma splitlines_app_lf a b :
  Py.splitlines (a ++ NL ++ b)
  = Py.splitlines (a ++ NL) ++ Py.splitlines b.
Proof.
  unfold Py.splitlines, NL. rewrite split_ends_app_lf. apply map_app.
Qed.

(** A newline added to a text ends its last line, or makes one empty
    line more when the text is empty or ends with a line break that
    the newline does not complete. *)
Lemma splitlines_lf a :
  exists extra,
    (extra = [] \/ extra = [[]])
    /\ Py.splitlines (a ++ NL) = Py.splitlines a ++ extra.
Proof.
  unfold Py.splitlines, NL.
  induction a as [a IH] using (induction_ltof1 _ (@length char)).
  unfold ltof in IH.
  destruct a as [|c t].
  - exists [[]]. split; [right; reflexivity | reflexivity].
  - cbn [app Py.split_ends]. destruct (Py.is_linebreak c) eqn:Ec.
    + destruct t as [|c1 t1].
      * cbn [app]. destruct (N.eqb c 13 && N.eqb 10%N 10%N).
        -- exists []. split; [left; reflexivity | reflexivity].
        -- exists [[]]. split; [right; reflexivity | reflexivity].
      * cbn [app]. destruct (N.eqb c 13 && N.eqb c1 10).
        -- destruct (IH t1) as (extra & He & Hs);
             [simpl; unfold text, char in *; lia|].
           exists extra. split; [exact He|]. cbn [map fst].
           rewrite Hs. reflexivity.
        -- destruct (IH (c1 :: t1)) as (extra & He & Hs);
             [simpl; unfold text, char in *; lia|].
           exists extra. split; [exact He|].
           cbn [map fst]. cbn [app] in Hs. rewrite Hs. reflexivity.
    + destruct t as [|c1 t1].
      * exists []. split; [left; reflexivity | reflexivity].
      * destruct (IH (c1 :: t1)) as (extra & He & Hs);
             [simpl; unfold text, char in *; lia|].
        exists extra. split; [exact He|].
        destruct (Py.split_ends ((c1 :: t1) ++ [10%N])) as [|[l e] r] eqn:E1.
        { apply SeparatorFacts.split_ends_nil in E1. discriminate. }
        destruct (Py.split_ends (c1 :: t1)) as [|[l' e'] r'] eqn:E2.
        { apply SeparatorFacts.split_ends_nil in E2. discriminate. }
        cbn [map fst app] in Hs |- *. injection Hs as -> Hr.
        rewrite Hr. reflexivity.
Qed.

Lemma blocks_heads lines :
  map fst (snd (blocks lines)) = filter is_heading_line lines.
Proof.
  induction lines as [|l rest IH]; [reflexivity|].
  cbn [blocks filter]. destruct (blocks rest) as [pre bs].
  cbn [snd] in IH. destruct (is_heading_line l); cbn [snd map fst];
    rewrite IH; reflexivity.
Qed.

Lemma parse_lines_raw lines :
  map raw (parse_lines lines) = filter is_heading_line lines.
Proof.
  rewrite ParserFacts.parse_lines_blocks.
  rewrite map_map, <- blocks_heads.
  apply map_ext. intros [l body].
  unfold heading_of_block, entry_of_line. cbn [fst snd set_content raw].
  apply EntryFacts.entry_raw.
Qed.

End MoreLineFacts.

(** X1.  The parser returns one heading for each heading line of the
    document, in document order, and the [raw] field of each is that
    line. *)
Theorem headings_raw_lines content :
  map raw (extract_headings content)
  = filter is_heading_line (Py.splitlines content)
  /\ length (extract_headings content)
     = length (filter is_heading_line (Py.splitlines content)).
Proof.
  assert (H : map raw (extract_headings content)
              = filter is_heading_line (Py.splitlines content))
    by apply MoreLineFacts.parse_lines_raw.
  split; [exact H|]. rewrite <- H. symmetry. apply length_map.
Qed.

(** ** The shape of a parsed heading line *)

Module ShapeFacts.
Import HeadingFacts TodoFacts.

Lemma stars_repeat s :
  forallb is_star s = true -> s = repeat (chr "*") (length s).
Proof.
  induction s as [|c s IH]; [reflexivity|].
  cbn [forallb]. intros H. apply andb_true_iff in H as [Hc Hs].
  apply is_star_eq in Hc. subst c. cbn [length repeat].
  rewrite <- IH by exact Hs. reflexivity.
Qed.

Lemma one_line_app a b :
  one_line (a ++ b) = true -> one_line a = true /\ one_line b = true.
Proof.
  unfold one_line. rewrite forallb_app. apply andb_true_iff.
Qed.

Lemma todo_try_shape free tok x :
  one_line free = true ->
  todo_try free tok = Some x ->
  exists ws,
    ws <> [] /\ forallb Py.is_space ws = true
    /\ free = fst x ++ ws ++ snd x
    /\ fst x = tok
    /\ match snd x with c :: _ => Py.is_space c = false | [] => True end.
Proof.
  unfold todo_try. intros Hone.
  destruct (Py.startswith free tok) eqn:Es; [|discriminate].
  apply startswith_iff in Es as [r ->].
  rewrite skipn_app, skipn_all, Nat.sub_diag, skipn_O. cbn [app].
  destruct (take_while Py.is_space r) as [|w ws] eqn:Ew; [discriminate|].
  intros H. injection H as <-. cbn [fst snd].
  apply one_line_app in Hone as [_ Hr].
  assert (Hd : one_line (drop_while Py.is_space r) = true)
    by (apply one_line_drop_while; exact Hr).
  unfold one_line in Hd. rewrite (take_while_all _ _ Hd).
  exists (w :: ws). split; [discriminate|].
  split; [rewrite <- Ew; apply take_while_forallb|].
  split; [rewrite <- Ew, take_drop_while; reflexivity|].
  split; [reflexivity | apply GrammarFacts.drop_while_head].
Qed.

Lemma todo_split_shape free tok ttl :
  one_line free = true ->
  todo_split free = Some (tok, ttl) ->
  exists ws,
    ws <> [] /\ forallb Py.is_space ws = true
    /\ free = tok ++ ws ++ ttl
    /\ match ttl with c :: _ => Py.is_space c = false | [] => True end.
Proof.
  unfold todo_split. intros Hone H.
  assert (Hx : exists t0, todo_try free t0 = Some (tok, ttl)).
  { destruct (todo_try free (str "TODO")) eqn:E1;
      [injection H as ->; eauto|].
    destruct (todo_try free (str "DONE")) eqn:E2;
      [injection H as ->; eauto|].
    eauto. }
  destruct Hx as [t0 Ht].
  destruct (todo_try_shape _ _ Hone Ht) as (ws & H1 & H2 & H3 & _ & H5).
  exists ws. auto.
Qed.

End ShapeFacts.

(** X2.  The raw line of every parsed heading is: as many stars as the
    level, a run of whitespace, then - when the heading has a todo
    state - the state and another run of whitespace, then the title.
    Both runs are not empty, and the title does not start with
    whitespace. *)
Theorem raw_line_shape content :
  Forall
    (fun h =>
       exists ws1 ws2,
         raw h = repeat (chr "*") (level h) ++ ws1
                 ++ match todo_state h with
                    | Some s => s ++ ws2
                    | None => []
                    end
                 ++ title h
         /\ ws1 <> [] /\ forallb Py.is_space ws1 = true
         /\ (todo_state h <> None ->
             ws2 <> [] /\ forallb Py.is_space ws2 = true)
         /\ match title h with
            | c :: _ => Py.is_space c = false
            | [] => True
            end)
    (extract_headings content).
Proof.
  unfold extract_headings.
  pose proof (LineFacts.splitlines_one_line content) as Hone.
  rewrite ParserFacts.parse_lines_blocks.
  apply Forall_map. eapply Forall_impl; [|apply BlockFacts.blocks_spec].
  intros [l body] (Hl & Hin & _). cbn [fst snd] in *.
  assert (Hol : one_line l = true)
    by (eapply Forall_forall in Hone; eauto).
  rewrite EntryFacts.is_heading_line_split in Hl by exact Hol.
  destruct (heading_split l) as [[stars free]|] eqn:Es; [|discriminate].
  unfold heading_of_block. cbn [fst snd].
  rewrite (EntryFacts.entry_of_line_split _ Hol Es).
  cbn [set_content level raw todo_state title o_level o_raw o_title
       o_todo_state].
  apply GrammarFacts.heading_split_iff in Es
    as (ws1 & -> & Hs & Hstars & Hw & Hws & Hfree).
  rewrite <- (ShapeFacts.stars_repeat _ Hstars).
  assert (Hof : one_line free = true).
  { apply ShapeFacts.one_line_app in Hol as [_ Hol].
    apply ShapeFacts.one_line_app in Hol as [_ Hol]. exact Hol. }
  destruct (todo_split free) as [[tok ttl]|] eqn:Et.
  - destruct (ShapeFacts.todo_split_shape _ Hof Et)
      as (ws2 & H1 & H2 & H3 & H4).
    exists ws1, ws2. rewrite H3 at 1. rewrite <- !app_assoc.
    repeat split; auto.
  - exists ws1, []. cbn [app]. repeat split; auto; congruence.
Qed.

(** ** Reading a file, again *)

Module ReadFacts.
Import ReFacts HeadingFacts.

(** A line that does not start with a star is not a heading line. *)
Lemma rmatch_heading_no_star line :
  match line with c :: _ => is_star c = false | [] => True end ->
  rmatch heading_pattern line = None.
Proof.
  intros H. unfold rmatch, heading_pattern.
  change (cat (Bol :: ?a :: ?r)) with (Seq Bol (Seq a (cat r))).
  rewrite m_Group, m_Seq, m_Bol. cbv beta.
  rewrite m_Seq, m_Group.
  change (Lit (chr "*")) with (Cls is_star).
  rewrite m_Plus_Cls. destruct line as [|c t]; [reflexivity|].
  rewrite H. reflexivity.
Qed.

Lemma is_heading_line_no_star line :
  match line with c :: _ => is_star c = false | [] => True end ->
  is_heading_line line = false.
Proof.
  intros H. unfold is_heading_line.
  rewrite (rmatch_heading_no_star _ H). reflexivity.
Qed.

Lemma parse_lines_no_heading lines :
  Forall (fun l => is_heading_line l = false) lines ->
  parse_lines lines = [].
Proof.
  intros H. rewrite ParserFacts.parse_lines_blocks.
  rewrite (BlockFacts.blocks_no_heading H). reflexivity.
Qed.

End ReadFacts.

(** X3.  When reading the file raises and the message of the exception
    is a single line, [read_heading] answers that the heading was not
    found: the caller is not told that the file could not be read. *)
Theorem read_heading_hides_read_error w file_path heading_title e :
  open_read w (path_join (org_dir w) file_path) = ReadRaises e ->
  forallb not_linebreak e = true ->
  read_heading w file_path heading_title
  = Error (str "Heading '" ++ heading_title ++ str "' not found in "
           ++ file_path).
Proof.
  intros Hr He. unfold read_heading, read_file_headings, read_org_file.
  rewrite Hr.
  replace (Py.startswith (str "Error reading file: " ++ e) (str "Error:"))
    with false by reflexivity.
  unfold extract_headings, Py.splitlines.
  change (str "Error reading file: " ++ e)
    with (chr "E" :: (str "rror reading file: " ++ e)).
  rewrite MoreLineFacts.split_ends_line.
  2:{ change (chr "E" :: str "rror reading file: " ++ e)
        with (str "Error reading file: " ++ e).
      rewrite forallb_app, He. reflexivity. }
  cbn [map fst].
  rewrite ReadFacts.parse_lines_no_heading; [reflexivity|].
  constructor; [|constructor].
  apply ReadFacts.is_heading_line_no_star. reflexivity.
Qed.

(** The read error of a missing file is hidden behind a not-found
    answer. *)
Lemma read_heading_hides_read_error_witness :
  open_read empty_world (path_join (org_dir empty_world) (str "gone.org"))
  = ReadRaises (str "[Errno 2] No such file or directory")
  /\ read_heading empty_world (str "gone.org") (str "Inbox")
     = Error (str "Heading 'Inbox' not found in gone.org").
Proof.
  split; [reflexivity|].
  apply (@read_heading_hides_read_error empty_world (str "gone.org")
           (str "Inbox") (str "[Errno 2] No such file or directory"));
    reflexivity.
Defined.

(** X4.  A file that can be read but whose text starts with "Error:" is
    taken for a failed read: [read_file_headings] returns the error
    record holding the whole text, and [read_heading] returns that text
    as the error for every title, also for a title the file has. *)
Theorem error_prefix_is_taken_for_failure w file_path content :
  open_read w (path_join (org_dir w) file_path) = ReadOk content ->
  Py.startswith content (str "Error:") = true ->
  read_file_headings w file_path = ErrorRecord content
  /\ forall heading_title,
       read_heading w file_path heading_title = Error content.
Proof.
  intros Hr Hs.
  assert (H : read_file_headings w file_path = ErrorRecord content).
  { unfold read_file_headings, read_org_file. rewrite Hr, Hs. reflexivity. }
  split; [exact H|]. intros t. unfold read_heading. rewrite H. reflexivity.
Qed.

(** A file with a heading "Log" that starts with the words "Error:". *)
Lemma error_prefix_is_taken_for_failure_witness :
  locate (extract_headings (str "Error: see below" ++ NL ++ str "* Log"))
    (str "Log")
  = Some {| level := 1; title := str "Log"; raw := str "* Log";
            todo_state := None; content := [] |}
  /\ read_heading
       (world_with (str "Error: see below" ++ NL ++ str "* Log"))
       (str "notes.org") (str "Log")
     = Error (str "Error: see below" ++ NL ++ str "* Log").
Proof.
  split; [reflexivity|].
  apply (@error_prefix_is_taken_for_failure
           (world_with (str "Error: see below" ++ NL ++ str "* Log"))
           (str "notes.org")
           (str "Error: see below" ++ NL ++ str "* Log"));
    reflexivity.
Defined.

(** ** What the writing tools leave alone *)

Module FrameFacts.



End FrameFacts.



(** ** The fields of a parsed heading *)

Module FieldFacts.
Import HeadingFacts TodoFacts.

(** Every heading the parser returns comes from a heading line of the
    document, and its fields are read off the two splits of that
    line. *)
Lemma heading_fields lines :
  Forall (fun l => one_line l = true) lines ->
  Forall
    (fun h =>
       In (raw h) lines
       /\ one_line (raw h) = true
       /\ exists stars free,
            heading_split (raw h) = Some (stars, free)
            /\ level h = length stars
            /\ title h = match todo_split free with
                         | Some (_, ttl) => ttl
                         | None => free
                         end
            /\ todo_state h = match todo_split free with
                              | Some (tok, _) => Some tok
                              | None => None
                              end)
    (parse_lines lines).
Proof.
  intros Hone. rewrite ParserFacts.parse_lines_blocks.
  apply Forall_map. eapply Forall_impl; [|apply BlockFacts.blocks_spec].
  intros [l body] (Hl & Hin & _). cbn [fst snd] in *.
  assert (Hol : one_line l = true)
    by (eapply Forall_forall in Hone; eauto).
  rewrite EntryFacts.is_heading_line_split in Hl by exact Hol.
  destruct (heading_split l) as [[stars free]|] eqn:Es; [|discriminate].
  unfold heading_of_block. cbn [fst snd].
  rewrite (EntryFacts.entry_of_line_split _ Hol Es).
  cbn [set_content level raw todo_state title o_level o_raw o_title
       o_todo_state].
  split; [exact Hin|]. split; [exact Hol|].
  exists stars, free. auto.
Qed.

Lemma first_index_none_intro test lines : forall i,
  Forall (fun l => test l = false) lines ->
  first_index test lines i = None.
Proof.
  induction lines as [|l rest IH]; intros i H; [reflexivity|].
  inversion H as [|? ? Hl Hrest]; subst.
  cbn [first_index]. rewrite Hl. apply IH. exact Hrest.
Qed.

(** The test of the mutator on a heading line, from its split. *)
Lemma line_selected_split l stars free heading_title :
  one_line l = true ->
  heading_split l = Some (stars, free) ->
  line_selected l heading_title
  = Py.endswith free heading_title
    && (Py.eqb free heading_title
        || Py.startswith free (str "TODO ")
        || Py.startswith free (str "DONE ")).
Proof.
  intros Hol Hs. unfold line_selected.
  rewrite rmatch_heading_pattern by exact Hol. rewrite Hs. reflexivity.
Qed.

Lemma line_selected_not_heading l heading_title :
  is_heading_line l = false -> line_selected l heading_title = false.
Proof.
  unfold is_heading_line, line_selected.
  destruct (rmatch heading_pattern l); [discriminate | reflexivity].
Qed.

Lemma eqb_longer (a b : text) : a <> [] -> Py.eqb (a ++ b) b = false.
Proof.
  intros Ha. apply eqb_neq. intros E.
  apply (f_equal (@length char)) in E. rewrite length_app in E.
  destruct a; [contradiction|]. simpl in E. lia.
Qed.

End FieldFacts.

(** X7.  A heading in the state IN-PROGRESS cannot be modified by its
    title.  When every heading whose line ends with the requested title
    is an IN-PROGRESS heading with that title, the locator finds the
    heading but the scan for its line finds none, and the mutator gives
    up with the heading-line-not-found error, whatever the overrides. *)
Theorem in_progress_heading_not_modified content heading_title nt nc ns :
  locate (extract_headings content) heading_title <> None ->
  Forall (fun h =>
            Py.endswith (raw h) heading_title = true ->
            todo_state h = Some (str "IN-PROGRESS")
            /\ title h = heading_title)
         (extract_headings content) ->
  modify_lines content heading_title nt nc ns = inl HeadingLineNotFound.
Proof.
  intros Hloc Hall. unfold modify_lines.
  destruct (locate (extract_headings content) heading_title) as [target|];
    [|contradiction].
  unfold find_line_number.
  rewrite FieldFacts.first_index_none_intro; [reflexivity|].
  pose proof (LineFacts.splitlines_one_line content) as Hone.
  pose proof (FieldFacts.heading_fields Hone) as Hfields.
  fold (extract_headings content) in Hfields.
  pose proof (MoreLineFacts.parse_lines_raw (Py.splitlines content)) as Hraw.
  fold (extract_headings content) in Hraw.
  apply Forall_forall. intros l Hl.
  destruct (is_heading_line l) eqn:Eh.
  2:{ apply FieldFacts.line_selected_not_heading. exact Eh. }
  assert (Hin : In l (map raw (extract_headings content))).
  { rewrite Hraw. apply filter_In. auto. }
  apply in_map_iff in Hin as (h & Hrawh & Hh).
  eapply Forall_forall in Hfields; [|exact Hh].
  eapply Forall_forall in Hall; [|exact Hh].
  destruct Hfields as (_ & Hol & stars & free & Hs & _ & Ht & Hst).
  rewrite Hrawh in *.
  rewrite (FieldFacts.line_selected_split l heading_title Hol Hs).
  destruct (Py.endswith free heading_title) eqn:Ee; [|reflexivity].
  cbn [andb].
  assert (Hend : Py.endswith l heading_title = true).
  { apply GrammarFacts.heading_split_iff in Hs as (ws & -> & _).
    apply endswith_iff in Ee as [x ->]. apply endswith_iff.
    exists (stars ++ ws ++ x). rewrite <- !app_assoc. reflexivity. }
  destruct (Hall Hend) as [Hstate Htitle].
  rewrite Hstate in Hst.
  destruct (todo_split free) as [[tok ttl]|] eqn:Et; [|discriminate].
  injection Hst as <-. rewrite Htitle in Ht. subst ttl.
  assert (Hof : one_line free = true).
  { apply GrammarFacts.heading_split_iff in Hs as (ws & Hl' & _).
    rewrite Hl' in Hol.
    apply ShapeFacts.one_line_app in Hol as [_ Hol].
    apply ShapeFacts.one_line_app in Hol as [_ Hol]. exact Hol. }
  destruct (ShapeFacts.todo_split_shape _ Hof Et) as (ws & Hw & _ & -> & _).
  rewrite app_assoc, FieldFacts.eqb_longer.
  - reflexivity.
  - destruct ws; [contradiction | discriminate].
Qed.

(** The second heading of this document is in progress; asking for it
    fails although [read_heading] finds it. *)
Lemma in_progress_heading_not_modified_witness :
  locate
    (extract_headings
       (Py.join NL [str "* TODO Plan"; str "** IN-PROGRESS Draft";
                    str "text"; str "* DONE Review"]))
    (str "Draft")
  = Some {| level := 2; title := str "Draft";
            raw := str "** IN-PROGRESS Draft";
            todo_state := Some (str "IN-PROGRESS");
            content := str "text" |}
  /\ modify_lines
       (Py.join NL [str "* TODO Plan"; str "** IN-PROGRESS Draft";
                    str "text"; str "* DONE Review"])
       (str "Draft") None (Some (str "new text")) (Some (str "DONE"))
     = inl HeadingLineNotFound.
Proof.
  split; [reflexivity|].
  apply in_progress_heading_not_modified.
  - vm_compute. discriminate.
  - vm_compute. repeat constructor; discriminate.
Defined.

(** ** The mutator, list by list *)

Module SplitFacts.
Import LineFacts MoreLineFacts.

Lemma first_index_split test lines : forall i k,
  first_index test lines i = Some k ->
  exists a x b,
    lines = a ++ x :: b
    /\ k = i + length a
    /\ Forall (fun l => test l = false) a
    /\ test x = true.
Proof.
  induction lines as [|y rest IH]; intros i k H; [discriminate|].
  cbn [first_index] in H. destruct (test y) eqn:Ey.
  - injection H as <-. exists [], y, rest. simpl.
    repeat split; auto.
  - apply IH in H as (a & x & b & -> & -> & Ha & Hx).
    exists (y :: a), x, b. simpl. repeat split; auto; lia.
Qed.

Lemma first_index_all_false test lines : forall i,
  first_index test lines i = None ->
  Forall (fun l => test l = false) lines.
Proof.
  induction lines as [|y rest IH]; intros i H; [constructor|].
  cbn [first_index] in H. destruct (test y) eqn:Ey; [discriminate|].
  constructor; eauto.
Qed.

(** A successful run of the mutator, with the document cut in four:
    the lines before the block, the block-start line, the other lines
    of the block, and the lines from the block end on. *)
Lemma modify_lines_split content heading_title nt nc ns new_lines :
  modify_lines content heading_title nt nc ns = inr new_lines ->
  exists target before l body after,
    locate (extract_headings content) heading_title = Some target
    /\ Py.splitlines content = before ++ l :: body ++ after
    /\ line_selected l heading_title = true
    /\ Forall (fun x => line_selected x heading_title = false) before
    /\ Forall (fun x => is_heading_line x = false) body
    /\ match after with
       | a :: _ => is_heading_line a = true
       | [] => True
       end
    /\ new_lines =
       before ++ heading_line_of target nt ns
       :: Py.splitlines (content_text_of target nc) ++ after.
Proof.
  intros H.
  apply MutatorFacts.modify_lines_inr in H
    as (target & n & Hloc & Hfind & ->).
  unfold find_line_number in Hfind.
  apply first_index_split in Hfind as (before & l & rest & Hl & -> & Hb & Hx).
  cbn [Nat.add]. unfold find_end_line. rewrite Hl.
  assert (Hskip : skipn (S (length before)) (before ++ l :: rest) = rest).
  { change (before ++ l :: rest) with (before ++ [l] ++ rest).
    rewrite app_assoc.
    replace (S (length before)) with (length (before ++ [l]))
      by (rewrite length_app; simpl; lia).
    rewrite skipn_app, skipn_all, Nat.sub_diag. reflexivity. }
  assert (Hfirst : firstn (length before) (before ++ l :: rest) = before).
  { rewrite firstn_app, firstn_all, Nat.sub_diag. simpl.
    apply app_nil_r. }
  rewrite Hskip, Hfirst.
  destruct (first_index is_heading_line rest (S (length before)))
    as [e|] eqn:E.
  - apply first_index_split in E as (body & a & after & -> & -> & Hbody & Ha).
    exists target, before, l, body, (a :: after).
    assert (Hs : skipn (S (length before) + length body)
                   (before ++ l :: body ++ a :: after) = a :: after).
    { change (before ++ l :: body ++ a :: after)
        with (before ++ [l] ++ body ++ a :: after).
      rewrite !app_assoc.
      replace (S (length before) + length body)
        with (length ((before ++ [l]) ++ body))
        by (rewrite !length_app; simpl; lia).
      rewrite skipn_app, skipn_all, Nat.sub_diag. reflexivity. }
    rewrite Hs. repeat split; auto.
  - apply first_index_all_false in E.
    exists target, before, l, rest, [].
    rewrite skipn_all, !app_nil_r. repeat split; auto.
Qed.

Lemma blocks_app_preamble_fst pre rest :
  Forall (fun l => is_heading_line l = false) pre ->
  fst (blocks (pre ++ rest)) = pre ++ fst (blocks rest).
Proof.
  induction 1 as [|x pre Hx _ IH]; [reflexivity|].
  cbn [app blocks]. destruct (blocks (pre ++ rest)) as [p bs].
  rewrite Hx. cbn [fst] in *. rewrite IH. reflexivity.
Qed.

Lemma blocks_fst_heading_first after :
  match after with a :: _ => is_heading_line a = true | [] => True end ->
  fst (blocks after) = [].
Proof.
  destruct after as [|a r]; [reflexivity|]. intros H.
  apply RoundTripFacts.blocks_heading_first. exact H.
Qed.

(** The headings of a document cut at a block. *)
Lemma parse_lines_block before l body after :
  is_heading_line l = true ->
  Forall (fun x => is_heading_line x = false) body ->
  match after with a :: _ => is_heading_line a = true | [] => True end ->
  parse_lines (before ++ l :: body ++ after)
  = parse_lines before
    ++ set_content (entry_of_line l) (Py.join NL body)
    :: parse_lines after.
Proof.
  intros Hl Hbody Hafter.
  rewrite (parse_lines_app_heading before l (body ++ after) Hl).
  rewrite (blocks_app_preamble_fst _ Hbody).
  rewrite (blocks_fst_heading_first _ Hafter), app_nil_r.
  rewrite !ParserFacts.parse_lines_blocks.
  rewrite (BlockFacts.blocks_app_preamble _ Hbody). reflexivity.
Qed.

(** The lines of a joined text are the lines joined, but for an empty
    last one. *)
Lemma splitlines_join ls :
  Forall (fun l => forallb not_linebreak l = true) ls ->
  exists tail,
    (tail = [] \/ tail = [[]])
    /\ ls = Py.splitlines (Py.join NL ls) ++ tail.
Proof.
  induction 1 as [|x rest Hx Hrest IH].
  - exists []. auto.
  - destruct rest as [|y rest].
    + cbn [Py.join]. destruct x as [|c x].
      * exists [[]]. auto.
      * exists []. unfold Py.splitlines.
        rewrite (split_ends_line _ _ Hx). auto.
    + rewrite join_cons, splitlines_app_lf.
      destruct IH as (tail & Ht & IH). exists tail. split; [exact Ht|].
      unfold Py.splitlines at 1. unfold NL.
      rewrite (split_ends_line_lf _ Hx). cbn [map fst app].
      rewrite IH at 1. reflexivity.
Qed.

Lemma blocks_body_incl lines :
  incl (fst (blocks lines)) lines
  /\ Forall (fun b => incl (snd b) lines) (snd (blocks lines)).
Proof.
  induction lines as [|x rest [IHp IHb]].
  - split; [apply incl_refl | constructor].
  - cbn [blocks]. destruct (blocks rest) as [pre bs]. cbn [fst snd] in *.
    assert (Hb : Forall (fun b => incl (snd b) (x :: rest)) bs).
    { eapply Forall_impl; [|exact IHb]. intros b Hb.
      apply incl_tl. exact Hb. }
    destruct (is_heading_line x); cbn [fst snd]; split.
    + apply incl_nil_l.
    + constructor; [apply incl_tl; exact IHp | exact Hb].
    + apply incl_cons; [left; reflexivity | apply incl_tl; exact IHp].
    + exact Hb.
Qed.


End SplitFacts.

Module MutationFacts.
Import HeadingFacts TodoFacts LineFacts MoreLineFacts SplitFacts.

(** The parts of a parsed heading are one-line texts, its level is at
    least one, and its content joins lines of the document that are not
    heading lines. *)
Lemma heading_parts lines :
  Forall (fun l => one_line l = true) lines ->
  Forall
    (fun h =>
       one_line (title h) = true
       /\ (forall s, todo_state h = Some s -> one_line s = true)
       /\ 1 <= level h
       /\ exists body,
            content h = Py.join NL body
            /\ Forall (fun l => is_heading_line l = false) body
            /\ incl body lines)
    (parse_lines lines).
Proof.
  intros Hone. rewrite ParserFacts.parse_lines_blocks.
  apply Forall_map. apply Forall_forall. intros [l body] Hb.
  destruct (BlockFacts.blocks_spec lines) as [_ Hspec].
  destruct (blocks_body_incl lines) as [_ Hincl].
  rewrite Forall_forall in Hspec, Hincl.
  destruct (Hspec _ Hb) as (Hl & Hin & Hbody).
  specialize (Hincl _ Hb). cbn [fst snd] in *.
  assert (Hol : one_line l = true)
    by (eapply Forall_forall in Hone; eauto).
  rewrite EntryFacts.is_heading_line_split in Hl by exact Hol.
  destruct (heading_split l) as [[stars free]|] eqn:Es; [|discriminate].
  unfold heading_of_block. cbn [fst snd].
  rewrite (EntryFacts.entry_of_line_split _ Hol Es).
  cbn [set_content level raw todo_state title o_level o_raw o_title
       o_todo_state content].
  destruct (EntryFacts.heading_split_stars _ Es) as [_ Hlen].
  apply GrammarFacts.heading_split_iff in Es
    as (ws1 & -> & _ & _ & _ & _ & _).
  assert (Hof : one_line free = true).
  { apply ShapeFacts.one_line_app in Hol as [_ Hol].
    apply ShapeFacts.one_line_app in Hol as [_ Hol]. exact Hol. }
  assert (Hparts :
    one_line match todo_split free with
             | Some (_, ttl) => ttl
             | None => free
             end = true
    /\ forall s, match todo_split free with
                 | Some (tok, _) => Some tok
                 | None => None
                 end = Some s -> one_line s = true).
  { destruct (todo_split free) as [[tok ttl]|] eqn:Et.
    - destruct (ShapeFacts.todo_split_shape _ Hof Et)
        as (ws2 & _ & _ & H3 & _).
      rewrite H3 in Hof.
      apply ShapeFacts.one_line_app in Hof as [Htok Hof].
      apply ShapeFacts.one_line_app in Hof as [_ Httl].
      split; [exact Httl|]. intros s Hs. injection Hs as <-. exact Htok.
    - split; [exact Hof | discriminate]. }
  destruct Hparts as [Ht Hs].
  split; [exact Ht|]. split; [exact Hs|]. split; [exact Hlen|].
  exists body. auto.
Qed.

Lemma forallb_is_star n : forallb is_star (stars_of n) = true.
Proof. induction n as [|n IH]; [reflexivity | exact IH]. Qed.

Lemma one_line_stars n : one_line (stars_of n) = true.
Proof. induction n as [|n IH]; [reflexivity | exact IH]. Qed.

Lemma one_line_join a b :
  one_line a = true -> one_line b = true -> one_line (a ++ b) = true.
Proof.
  unfold one_line. intros Ha Hb. rewrite forallb_app, Ha, Hb. reflexivity.
Qed.

(** A line made of [k] stars, a space and any text. *)
Lemma starred_line_split k x :
  1 <= k ->
  heading_split (stars_of k ++ str " " ++ x)
  = Some (stars_of k, drop_while Py.is_space x).
Proof.
  intros Hk. apply GrammarFacts.heading_split_iff.
  exists (str " " ++ take_while Py.is_space x).
  split; [rewrite <- app_assoc, take_drop_while; reflexivity|].
  split; [destruct k; [lia | discriminate]|].
  split; [apply forallb_is_star|].
  split; [discriminate|].
  split; [apply (take_while_forallb Py.is_space x)|].
  apply GrammarFacts.drop_while_head.
Qed.

(** The replacement heading line is the stars of the level, a space and
    a rest. *)
Lemma heading_line_of_rest target nt ns :
  one_line (title target) = true ->
  (forall s, todo_state target = Some s -> one_line s = true) ->
  match nt with Some t => one_line t = true | None => True end ->
  match ns with Some s => one_line s = true | None => True end ->
  exists x,
    heading_line_of target nt ns
    = stars_of (level target) ++ str " " ++ x
    /\ one_line x = true.
Proof.
  intros Ht Hs Hnt Hns. unfold heading_line_of.
  set (ttl := match nt with Some t => t | None => title target end).
  set (st := match ns with Some s => Some s | None => todo_state target end).
  assert (Httl : one_line ttl = true)
    by (subst ttl; destruct nt; auto).
  assert (Hst : forall s, st = Some s -> one_line s = true).
  { subst st. destruct ns as [s0|]; [|exact Hs].
    intros s E. injection E as <-. exact Hns. }
  cbv zeta. fold st. fold ttl.
  destruct st as [[|c s]|] eqn:E.
  - exists ttl. rewrite <- app_assoc. auto.
  - exists ((c :: s) ++ str " " ++ ttl). split.
    + rewrite <- !app_assoc. reflexivity.
    + apply one_line_join; [apply Hst; reflexivity|].
      apply one_line_join; [reflexivity | exact Httl].
  - exists ttl. rewrite <- app_assoc. auto.
Qed.

End MutationFacts.

(** X8.  A successful mutation changes one heading and no other.  When
    the overrides of the title and of the todo state hold no newline
    and no line of the override of the content is a heading line, the
    headings of the lines written are those of the text read, except
    for the first heading whose line passes the scan: in its place
    stands a heading of the level of the located heading, whose raw
    line is the replacement heading line and whose content is the
    replacement content.  Every heading before and after it keeps all
    its fields, content included. *)
Theorem modify_lines_changes_one_heading
    file_content heading_title nt nc ns new_lines :
  modify_lines file_content heading_title nt nc ns = inr new_lines ->
  match nt with Some t => one_line t = true | None => True end ->
  match ns with Some s => one_line s = true | None => True end ->
  match nc with
  | Some c => Forall (fun l => is_heading_line l = false) (Py.splitlines c)
  | None => True
  end ->
  exists target hs1 h_old hs2 h_new,
    locate (extract_headings file_content) heading_title = Some target
    /\ extract_headings file_content = hs1 ++ h_old :: hs2
    /\ parse_lines new_lines = hs1 ++ h_new :: hs2
    /\ line_selected (raw h_old) heading_title = true
    /\ Forall (fun h => line_selected (raw h) heading_title = false) hs1
    /\ raw h_new = heading_line_of target nt ns
    /\ level h_new = level target
    /\ content h_new
       = Py.join NL (Py.splitlines (content_text_of target nc)).
Proof.
  intros H Hnt Hns Hnc.
  apply SplitFacts.modify_lines_split in H
    as (target & before & l & body & after
        & Hloc & Hlines & Hsel & Hbefore & Hbody & Hafter & ->).
  pose proof (LineFacts.splitlines_one_line file_content) as Hone.
  pose proof (MutationFacts.heading_parts Hone) as Hparts.
  fold (extract_headings file_content) in Hparts.
  destruct (LocatorFacts.locate_some _ _ Hloc) as (hb & ha & Hhs & _ & _).
  assert (Htarget : In target (extract_headings file_content))
    by (rewrite Hhs; apply in_or_app; right; left; reflexivity).
  rewrite Forall_forall in Hparts.
  destruct (Hparts _ Htarget)
    as (Ht & Hs & Hlevel & tbody & Hcontent & Htbody & Hincl).
  destruct (MutationFacts.heading_line_of_rest target nt ns Ht Hs Hnt Hns)
    as (x & Hhl & Hx).
  assert (Hsplit := MutationFacts.starred_line_split x Hlevel).
  rewrite <- Hhl in Hsplit.
  assert (Hhl1 : one_line (heading_line_of target nt ns) = true).
  { rewrite Hhl. apply MutationFacts.one_line_join;
      [apply MutationFacts.one_line_stars|].
    apply MutationFacts.one_line_join; [reflexivity | exact Hx]. }
  assert (Hhead : is_heading_line (heading_line_of target nt ns) = true).
  { rewrite EntryFacts.is_heading_line_split by exact Hhl1.
    rewrite Hsplit. reflexivity. }
  assert (Hl : is_heading_line l = true).
  { destruct (is_heading_line l) eqn:E; [reflexivity|].
    rewrite (FieldFacts.line_selected_not_heading _ heading_title E) in Hsel.
    discriminate. }
  assert (Hcl : Forall (fun l => is_heading_line l = false)
                  (Py.splitlines (content_text_of target nc))).
  { unfold content_text_of. destruct nc as [c|]; [exact Hnc|].
    rewrite Hcontent.
    assert (Hlb : Forall (fun l => forallb not_linebreak l = true) tbody).
    { apply Forall_forall. intros y Hy. apply Hincl in Hy.
      unfold Py.splitlines in Hy. apply in_map_iff in Hy as (le & <- & Hle).
      pose proof (LineFacts.split_ends_lines file_content) as Hall.
      rewrite Forall_forall in Hall. apply Hall. exact Hle. }
    destruct (SplitFacts.splitlines_join Hlb) as (tail & _ & Heq).
    rewrite Heq in Htbody. apply Forall_app in Htbody as [Hok _].
    exact Hok. }
  exists target, (parse_lines before),
    (set_content (entry_of_line l) (Py.join NL body)),
    (parse_lines after),
    (set_content (entry_of_line (heading_line_of target nt ns))
       (Py.join NL (Py.splitlines (content_text_of target nc)))).
  split; [exact Hloc|].
  split; [unfold extract_headings; rewrite Hlines;
          apply SplitFacts.parse_lines_block; assumption|].
  split; [apply SplitFacts.parse_lines_block; assumption|].
  split; [unfold set_content, entry_of_line; cbn [raw];
          rewrite EntryFacts.entry_raw; exact Hsel|].
  split.
  { apply Forall_forall. intros h Hh.
    assert (Hraw : In (raw h) (map raw (parse_lines before)))
      by (apply in_map; exact Hh).
    rewrite MoreLineFacts.parse_lines_raw in Hraw.
    apply filter_In in Hraw as [Hin _].
    rewrite Forall_forall in Hbefore. apply Hbefore. exact Hin. }
  rewrite (EntryFacts.entry_of_line_split _ Hhl1 Hsplit).
  cbn [set_content raw level content o_raw o_level].
  split; [reflexivity|]. split; [|reflexivity].
  unfold stars_of. apply repeat_length.
Qed.

(** The mutation of "Buy milk" in the scenario: the two other headings
    are parsed from the lines written as from the text read. *)
Lemma modify_lines_changes_one_heading_witness :
  modify_lines scenario (str "Buy milk")
    None (Some (str "done")) (Some (str "DONE"))
  = inr [str "* DONE Buy milk"; str "done";
          str "** DONE Sub task"; str "notes";
          str "* Write report"; str "DEADLINE: <2024-01-15>"]
  /\ exists target hs1 h_old hs2 h_new,
       locate (extract_headings scenario) (str "Buy milk") = Some target
       /\ extract_headings scenario = hs1 ++ h_old :: hs2
       /\ parse_lines
            [str "* DONE Buy milk"; str "done";
          str "** DONE Sub task"; str "notes";
          str "* Write report"; str "DEADLINE: <2024-01-15>"]
          = hs1 ++ h_new :: hs2
       /\ line_selected (raw h_old) (str "Buy milk") = true
       /\ Forall (fun h => line_selected (raw h) (str "Buy milk") = false)
            hs1
       /\ raw h_new = heading_line_of target None (Some (str "DONE"))
       /\ level h_new = level target
       /\ content h_new
          = Py.join NL
              (Py.splitlines (content_text_of target (Some (str "done")))).
Proof.
  assert (H : modify_lines scenario (str "Buy milk")
                None (Some (str "done")) (Some (str "DONE"))
              = inr [str "* DONE Buy milk"; str "done";
          str "** DONE Sub task"; str "notes";
          str "* Write report"; str "DEADLINE: <2024-01-15>"])
    by (vm_compute; reflexivity).
  split; [exact H|].
  apply (modify_lines_changes_one_heading _ _ _ _ _ H).
  - exact I.
  - reflexivity.
  - vm_compute. repeat constructor.
Defined.

(** ** Adding a heading *)

Module AddFacts.
Import HeadingFacts LineFacts MoreLineFacts SplitFacts MutationFacts.

Lemma linebreak_free_one_line s :
  forallb not_linebreak s = true -> one_line s = true.
Proof.
  unfold one_line. intros H. apply forallb_forall. intros c Hc.
  apply not_linebreak_not_newline.
  rewrite forallb_forall in H. apply H. exact Hc.
Qed.

Lemma linebreak_free_app a b :
  forallb not_linebreak a = true -> forallb not_linebreak b = true ->
  forallb not_linebreak (a ++ b) = true.
Proof. intros Ha Hb. rewrite forallb_app, Ha, Hb. reflexivity. Qed.

Lemma linebreak_free_stars n : forallb not_linebreak (stars_of n) = true.
Proof. induction n as [|n IH]; [reflexivity | exact IH]. Qed.

Lemma heading_text_of_rest title level todo_state :
  heading_text_of title level todo_state
  = stars_of (Z.to_nat level) ++ str " " ++ rest_of title todo_state.
Proof.
  unfold heading_text_of, rest_of. cbv zeta.
  destruct todo_state as [[|c s]|]; rewrite <- !app_assoc; reflexivity.
Qed.

Lemma rest_linebreak_free title todo_state :
  forallb not_linebreak title = true ->
  match todo_state with
  | Some s => forallb not_linebreak s = true
  | None => True
  end ->
  forallb not_linebreak (rest_of title todo_state) = true.
Proof.
  intros Ht Hs. unfold rest_of. destruct todo_state as [[|c s]|]; auto.
  apply linebreak_free_app; [exact Hs|].
  apply linebreak_free_app; [reflexivity | exact Ht].
Qed.

Lemma heading_text_linebreak_free title level todo_state :
  forallb not_linebreak title = true ->
  match todo_state with
  | Some s => forallb not_linebreak s = true
  | None => True
  end ->
  forallb not_linebreak (heading_text_of title level todo_state) = true.
Proof.
  intros Ht Hs. rewrite heading_text_of_rest.
  apply linebreak_free_app; [apply linebreak_free_stars|].
  apply linebreak_free_app; [reflexivity|].
  apply rest_linebreak_free; assumption.
Qed.

(** The lines of the text written by [add_heading]: the lines of the
    existing content, one or two empty lines, the heading line and the
    lines of the content. *)
Lemma added_lines existing heading_text content :
  forallb not_linebreak heading_text = true ->
  exists blanks,
    (blanks = [[]] \/ blanks = [[]; []])
    /\ Py.splitlines
         (existing ++ NL ++ NL ++ heading_text ++ NL ++ content)
       = Py.splitlines existing ++ blanks
         ++ heading_text :: Py.splitlines content.
Proof.
  intros Hh. rewrite splitlines_app_lf.
  change (NL ++ heading_text ++ NL ++ content)
    with ([] ++ NL ++ heading_text ++ NL ++ content).
  rewrite (splitlines_app_lf [] (heading_text ++ NL ++ content)).
  rewrite (splitlines_app_lf heading_text content).
  assert (H1 : Py.splitlines (heading_text ++ NL) = [heading_text]).
  { unfold Py.splitlines, NL. rewrite (split_ends_line_lf _ Hh).
    reflexivity. }
  rewrite H1.
  destruct (splitlines_lf existing) as (extra & He & ->).
  exists (extra ++ [[]]). split.
  - destruct He as [-> | ->]; auto.
  - rewrite <- !app_assoc. reflexivity.
Qed.

(** A list of lines has no heading line, or a last one. *)
Lemma last_heading_split lines :
  Forall (fun l => is_heading_line l = false) lines
  \/ exists before l body,
       lines = before ++ l :: body
       /\ is_heading_line l = true
       /\ Forall (fun x => is_heading_line x = false) body.
Proof.
  induction lines as [|x rest IH]; [left; constructor|].
  destruct IH as [Hall | (before & l & body & -> & Hl & Hbody)].
  - destruct (is_heading_line x) eqn:Ex.
    + right. exists [], x, rest. auto.
    + left. constructor; assumption.
  - right. exists (x :: before), l, body. auto.
Qed.

(** Lines that are not heading lines, put after a document, change no
    heading but the content of the last one. *)
Lemma parse_lines_app_tail lines tail :
  Forall (fun l => is_heading_line l = false) tail ->
  map fields_of (parse_lines (lines ++ tail))
  = map fields_of (parse_lines lines)
  /\ removelast (parse_lines (lines ++ tail))
     = removelast (parse_lines lines).
Proof.
  intros Htail.
  destruct (last_heading_split lines)
    as [Hall | (before & l & body & -> & Hl & Hbody)].
  - rewrite (ReadFacts.parse_lines_no_heading Hall).
    rewrite ReadFacts.parse_lines_no_heading
      by (apply Forall_app; split; assumption).
    split; reflexivity.
  - rewrite <- app_assoc. cbn [app].
    pose proof (@parse_lines_block before l (body ++ tail) [] Hl
                  (proj2 (Forall_app _ _ _) (conj Hbody Htail)) I) as H1.
    pose proof (@parse_lines_block before l body [] Hl Hbody I) as H2.
    rewrite !app_nil_r in H1, H2. rewrite H1, H2.
    change (parse_lines []) with (@nil heading).
    split.
    + rewrite !map_app. reflexivity.
    + rewrite !removelast_last. reflexivity.
Qed.


End AddFacts.

Module AddParseFacts.
Import HeadingFacts LineFacts MoreLineFacts SplitFacts MutationFacts AddFacts.

(** The headings of the text written by [add_heading] with a level of
    at least one. *)
Lemma added_parse existing title level content_text todo_state :
  (1 <= level)%Z ->
  forallb not_linebreak title = true ->
  match todo_state with
  | Some s => forallb not_linebreak s = true
  | None => True
  end ->
  exists blanks,
    Forall (fun l => is_heading_line l = false) blanks
    /\ one_line (heading_text_of title level todo_state) = true
    /\ heading_split (heading_text_of title level todo_state)
       = Some (stars_of (Z.to_nat level),
               drop_while Py.is_space (rest_of title todo_state))
    /\ extract_headings
         (added_content existing title level content_text todo_state)
       = parse_lines (Py.splitlines existing ++ blanks)
         ++ set_content
              (entry_of_line (heading_text_of title level todo_state))
              (Py.join NL (fst (blocks (Py.splitlines content_text))))
         :: extract_headings content_text.
Proof.
  intros Hlevel Ht Hs.
  pose proof (heading_text_linebreak_free title level todo_state Ht Hs)
    as Hfree.
  pose proof (linebreak_free_one_line _ Hfree) as Hone.
  assert (Hsplit :
    heading_split (heading_text_of title level todo_state)
    = Some (stars_of (Z.to_nat level),
            drop_while Py.is_space (rest_of title todo_state))).
  { rewrite heading_text_of_rest. apply starred_line_split. lia. }
  assert (Hhead :
    is_heading_line (heading_text_of title level todo_state) = true).
  { rewrite EntryFacts.is_heading_line_split by exact Hone.
    rewrite Hsplit. reflexivity. }
  destruct (@added_lines existing _ content_text Hfree)
    as (blanks & Hb & Hlines).
  exists blanks.
  split; [destruct Hb as [-> | ->]; repeat constructor|].
  split; [exact Hone|]. split; [exact Hsplit|].
  unfold extract_headings, added_content. rewrite Hlines.
  rewrite app_assoc.
  apply (parse_lines_app_heading _ _ _ Hhead).
Qed.





End AddParseFacts.

(** X9.  [add_heading] with a level of at least one, and a title and a
    state without line breaks, appends one heading.  The headings of
    the text written are the headings of the existing content, then the
    new heading, then the headings found in the content given.  The old
    headings keep their level, title, raw line and todo state, and all
    but the last keep their content (the blank lines written before the
    new heading go to the last one).  The new heading has the level
    given, the line built as its raw line, and as content the lines of
    the content given up to its first heading line. *)
Theorem added_text_headings
    existing title new_level content_text todo_state :
  (1 <= new_level)%Z ->
  forallb not_linebreak title = true ->
  match todo_state with
  | Some s => forallb not_linebreak s = true
  | None => True
  end ->
  exists old_headings new_heading,
    extract_headings
      (added_content existing title new_level content_text todo_state)
    = old_headings ++ new_heading :: extract_headings content_text
    /\ map fields_of old_headings
       = map fields_of (extract_headings existing)
    /\ removelast old_headings = removelast (extract_headings existing)
    /\ raw new_heading = heading_text_of title new_level todo_state
    /\ level new_heading = Z.to_nat new_level
    /\ content new_heading
       = Py.join NL (fst (blocks (Py.splitlines content_text))).
Proof.
  intros Hlevel Ht Hs.
  destruct (@AddParseFacts.added_parse existing _ _ content_text _
              Hlevel Ht Hs)
    as (blanks & Hblanks & Hone & Hsplit & Hparse).
  destruct (@AddFacts.parse_lines_app_tail (Py.splitlines existing) _
              Hblanks)
    as [Hfields Hlast].
  eexists. eexists. split; [exact Hparse|].
  split; [exact Hfields|]. split; [exact Hlast|].
  rewrite (EntryFacts.entry_of_line_split _ Hone Hsplit).
  cbn [set_content raw level content].
  split; [reflexivity|]. split; [|reflexivity].
  unfold stars_of. apply repeat_length.
Qed.

(** On the scenario: a second-level heading with a state. *)
Lemma added_text_headings_witness :
  exists old_headings new_heading,
    extract_headings
      (added_content scenario (str "Call Bob") 2 (str "tomorrow")
         (Some (str "TODO")))
    = old_headings ++ new_heading :: extract_headings (str "tomorrow")
    /\ map fields_of old_headings
       = map fields_of (extract_headings scenario)
    /\ removelast old_headings = removelast (extract_headings scenario)
    /\ raw new_heading
       = heading_text_of (str "Call Bob") 2 (Some (str "TODO"))
    /\ level new_heading = Z.to_nat 2
    /\ content new_heading
       = Py.join NL (fst (blocks (Py.splitlines (str "tomorrow")))).
Proof.
  apply added_text_headings.
  - lia.
  - reflexivity.
  - reflexivity.
Defined.

(** X10.  [add_heading] with a level of zero or less adds no heading:
    the line it writes starts with a space, so the heading lines of the
    text written are those of the existing content followed by those of
    the content given, and none for the title. *)
Theorem add_heading_without_stars
    existing title level content_text todo_state :
  (level <= 0)%Z ->
  forallb not_linebreak title = true ->
  match todo_state with
  | Some s => forallb not_linebreak s = true
  | None => True
  end ->
  map raw
    (extract_headings
       (added_content existing title level content_text todo_state))
  = map raw (extract_headings existing)
    ++ map raw (extract_headings content_text).
Proof.
  intros Hlevel Ht Hs.
  pose proof (AddFacts.heading_text_linebreak_free title level todo_state
                Ht Hs) as Hfree.
  destruct (@AddFacts.added_lines existing _ content_text Hfree)
    as (blanks & Hb & Hlines).
  unfold extract_headings, added_content. rewrite Hlines.
  rewrite !MoreLineFacts.parse_lines_raw, !filter_app.
  cbn [filter].
  assert (Hhead :
    is_heading_line (heading_text_of title level todo_state) = false).
  { apply ReadFacts.is_heading_line_no_star.
    rewrite AddFacts.heading_text_of_rest.
    replace (Z.to_nat level) with 0 by lia. reflexivity. }
  rewrite Hhead. destruct Hb as [-> | ->]; reflexivity.
Qed.

(** A heading asked for at level zero. *)
Lemma add_heading_without_stars_witness :
  map raw
    (extract_headings
       (added_content scenario (str "Call Bob") 0 (str "tomorrow") None))
  = map raw (extract_headings scenario)
    ++ map raw (extract_headings (str "tomorrow")).
Proof.
  apply add_heading_without_stars.
  - lia.
  - reflexivity.
  - exact I.
Defined.



(** ** The order of strings and the stable sort *)

Module SortFacts.
Import PySort.

Lemma ltb_irrefl a : ltb a a = false.
Proof.
  induction a as [|x a IH]; [reflexivity|].
  cbn [ltb]. rewrite N.ltb_irrefl, N.eqb_refl, IH. reflexivity.
Qed.

Lemma ltb_cons x a y b :
  ltb (x :: a) (y :: b) = true
  <-> (x < y)%N \/ (x = y /\ ltb a b = true).
Proof.
  cbn [ltb]. rewrite orb_true_iff, andb_true_iff, N.ltb_lt, N.eqb_eq.
  reflexivity.
Qed.

Lemma ltb_trans a : forall b c,
  ltb a b = true -> ltb b c = true -> ltb a c = true.
Proof.
  induction a as [|x a IH]; intros [|y b] [|z c] Hab Hbc;
    try discriminate; try reflexivity.
  apply ltb_cons in Hab. apply ltb_cons in Hbc. apply ltb_cons.
  destruct Hab as [Hxy | [-> Hab]], Hbc as [Hyz | [-> Hbc]].
  - left. lia.
  - left. exact Hxy.
  - left. exact Hyz.
  - right. split; [reflexivity | eapply IH; eassumption].
Qed.

Lemma ltb_total a : forall b,
  ltb a b = false -> ltb b a = false -> a = b.
Proof.
  induction a as [|x a IH]; intros [|y b] Hab Hba;
    try discriminate; try reflexivity.
  cbn [ltb] in Hab, Hba.
  apply orb_false_iff in Hab as [Hxy Hab].
  apply orb_false_iff in Hba as [Hyx Hba].
  apply N.ltb_ge in Hxy, Hyx.
  assert (E : x = y) by lia. subst y.
  rewrite N.eqb_refl in Hab, Hba. cbn [andb] in Hab, Hba.
  f_equal. apply IH; assumption.
Qed.

Lemma ltb_asym a b : ltb a b = true -> ltb b a = false.
Proof.
  intros H. destruct (ltb b a) eqn:E; [|reflexivity].
  rewrite <- (ltb_irrefl a). symmetry. eapply ltb_trans; eassumption.
Qed.

(** [a] is not greater than [b]. *)
Lemma not_gt_trans a b c :
  ltb b a = false -> ltb c b = false -> ltb c a = false.
Proof.
  intros Hab Hbc. destruct (ltb c a) eqn:Hca; [|reflexivity].
  destruct (ltb b c) eqn:Hcb.
  - rewrite <- Hab. symmetry. eapply ltb_trans; eassumption.
  - assert (E : b = c) by (apply ltb_total; assumption).
    subst c. rewrite <- Hab. symmetry. exact Hca.
Qed.

Section ByKey.

Variable A : Type.
Variable key : A -> text.

Lemma insert_perm x l : Permutation (x :: l) (insert key x l).
Proof.
  induction l as [|y l IH]; [apply Permutation_refl|].
  cbn [insert]. destruct (ltb (key y) (key x)).
  - eapply perm_trans; [apply perm_swap|].
    apply perm_skip. exact IH.
  - apply Permutation_refl.
Qed.

Lemma sort_perm l : Permutation l (sort key l).
Proof.
  induction l as [|x l IH]; [apply perm_nil|].
  cbn [sort]. eapply perm_trans; [|apply insert_perm].
  apply perm_skip. exact IH.
Qed.

Lemma insert_sorted x l :
  StronglySorted (key_le key) l -> StronglySorted (key_le key) (insert key x l).
Proof.
  induction 1 as [|y l Hl IH Hy].
  - constructor; constructor.
  - cbn [insert]. destruct (ltb (key y) (key x)) eqn:E.
    + constructor; [exact IH|].
      eapply Permutation_Forall; [apply insert_perm|].
      constructor; [|exact Hy].
      unfold key_le. apply ltb_asym. exact E.
    + constructor; [constructor; assumption|].
      constructor; [exact E|].
      eapply Forall_impl; [|exact Hy].
      intros z Hz. unfold key_le in *.
      eapply not_gt_trans; eassumption.
Qed.

Lemma sort_sorted l : StronglySorted (key_le key) (sort key l).
Proof.
  induction l as [|x l IH]; [constructor|].
  cbn [sort]. apply insert_sorted. exact IH.
Qed.

Lemma insert_filter x l d :
  filter (fun y => Py.eqb (key y) d) (insert key x l)
  = filter (fun y => Py.eqb (key y) d) (x :: l).
Proof.
  induction l as [|y l IH]; [reflexivity|].
  cbn [insert]. destruct (ltb (key y) (key x)) eqn:E; [|reflexivity].
  cbn [filter] in IH |- *. rewrite IH.
  destruct (Py.eqb (key x) d) eqn:Ex; [|reflexivity].
  destruct (Py.eqb (key y) d) eqn:Ey; [|reflexivity].
  apply eqb_eq in Ex, Ey. rewrite Ex, Ey, ltb_irrefl in E. discriminate.
Qed.

Lemma sort_filter l d :
  filter (fun y => Py.eqb (key y) d) (sort key l)
  = filter (fun y => Py.eqb (key y) d) l.
Proof.
  induction l as [|x l IH]; [reflexivity|].
  cbn [sort]. rewrite insert_filter. cbn [filter]. rewrite IH.
  reflexivity.
Qed.

End ByKey.

End SortFacts.

(** ** The agenda tools *)

Module AgendaFacts.

(** What one heading adds to the list of todos. *)
Lemma todos_of_headings_flat rel_path hs : forall todos,
  todos_of_headings rel_path hs todos
  = todos
    ++ flat_map
         (fun h =>
            match todo_state h with
            | Some s =>
                if is_open_state (Some s)
                then [{| t_file := rel_path; t_heading := title h;
                         t_state := s |}]
                else []
            | None => []
            end) hs.
Proof.
  unfold todos_of_headings.
  induction hs as [|h hs IH]; intros todos.
  - symmetry. apply app_nil_r.
  - cbn [fold_left flat_map]. rewrite IH.
    destruct (todo_state h) as [s|]; [|reflexivity].
    destruct (is_open_state (Some s)); [|reflexivity].
    rewrite <- app_assoc. reflexivity.
Qed.

Lemma manual_todos_flat org_files :
  manual_todos org_files = flat_map todos_of_file org_files.
Proof.
  unfold manual_todos.
  enough (H : forall acc,
    fold_left
      (fun todos file =>
         match snd file with
         | ReadOk file_content =>
             todos_of_headings (fst file) (extract_headings file_content)
               todos
         | ReadRaises _ => todos
         end) org_files acc
    = acc ++ flat_map todos_of_file org_files) by apply (H []).
  induction org_files as [|[p r] fs IH]; intros acc.
  - symmetry. apply app_nil_r.
  - cbn [fold_left flat_map]. rewrite IH. unfold todos_of_file at 2.
    cbn [fst snd]. destruct r as [c|e]; [|reflexivity].
    rewrite (todos_of_headings_flat p (extract_headings c) acc).
    rewrite (todos_of_headings_flat p (extract_headings c) []).
    rewrite <- app_assoc. reflexivity.
Qed.

Lemma open_state_cases s :
  is_open_state (Some s) = true
  <-> s = str "TODO" \/ s = str "IN-PROGRESS".
Proof.
  unfold is_open_state. rewrite orb_true_iff, !eqb_eq. reflexivity.
Qed.

Section WithDigits.

Variable is_decimal : char -> bool.

Lemma items_of_file_map rel_path file_content acc :
  items_of_file is_decimal rel_path file_content acc
  = acc
    ++ map (fun item => {| f_item := item; f_file := rel_path |})
         (extract_scheduled_items is_decimal file_content).
Proof.
  unfold items_of_file.
  generalize (extract_scheduled_items is_decimal file_content) as items.
  intros items. revert acc.
  induction items as [|it items IH]; intros acc.
  - symmetry. apply app_nil_r.
  - cbn [fold_left map]. rewrite IH, <- app_assoc. reflexivity.
Qed.

Lemma manual_scheduled_flat org_files :
  manual_scheduled is_decimal org_files
  = flat_map (items_of_read is_decimal) org_files.
Proof.
  unfold manual_scheduled.
  enough (H : forall acc,
    fold_left
      (fun acc file =>
         match snd file with
         | ReadOk file_content =>
             items_of_file is_decimal (fst file) file_content acc
         | ReadRaises _ => acc
         end) org_files acc
    = acc ++ flat_map (items_of_read is_decimal) org_files) by apply (H []).
  induction org_files as [|[p r] fs IH]; intros acc.
  - symmetry. apply app_nil_r.
  - cbn [fold_left flat_map]. rewrite IH. unfold items_of_read at 2.
    cbn [fst snd]. destruct r as [c|e]; [|reflexivity].
    rewrite items_of_file_map, <- app_assoc. reflexivity.
Qed.

(** The one loop of [get_org_agenda] collects what the loops of the
    two other tools collect. *)
Lemma manual_agenda_pair org_files :
  manual_agenda is_decimal org_files
  = (manual_todos org_files, manual_scheduled is_decimal org_files).
Proof.
  unfold manual_agenda, manual_todos, manual_scheduled.
  generalize (@nil todo_entry) as todos, (@nil filed_item) as items.
  induction org_files as [|[p r] fs IH]; intros todos items;
    [reflexivity|].
  cbn [fold_left fst snd]. destruct r as [c|e]; apply IH.
Qed.

(** The items of one heading. *)
Lemma items_of_heading_cases h :
  items_of_heading is_decimal h
  = match first_marker is_decimal (str "SCHEDULED:") (content h) with
    | Some ds => [item_of scheduled ds h]
    | None => []
    end
    ++ match first_marker is_decimal (str "DEADLINE:") (content h) with
       | Some dd => [item_of deadline dd h]
       | None => []
       end.
Proof.
  unfold items_of_heading, scheduled_pattern, deadline_pattern.
  pose proof (MarkerFacts.search_marker is_decimal (str "SCHEDULED:")
                (content h)) as Hs.
  pose proof (MarkerFacts.search_marker is_decimal (str "DEADLINE:")
                (content h)) as Hd.
  destruct (search (marker_pattern is_decimal (str "SCHEDULED:"))
              (content h));
    destruct (search (marker_pattern is_decimal (str "DEADLINE:"))
                (content h));
    rewrite Hs, Hd; reflexivity.
Qed.

Lemma first_marker_shape keyword s d :
  first_marker is_decimal keyword s = Some d ->
  is_date is_decimal d = true
  /\ exists pre ws tl,
       s = pre ++ keyword ++ ws ++ chr "<" :: d ++ tl
       /\ forallb Py.is_space ws = true
       /\ closes tl = true.
Proof.
  intros H.
  apply MarkerFacts.first_marker_some in H as (pre & rest & -> & Hm & _).
  apply MarkerFacts.marker_here_iff in Hm as (ws & tl & -> & Hws & Hd & Hcl).
  split; [exact Hd|]. exists pre, ws, tl. auto.
Qed.

End WithDigits.

Lemma error_message_starts_with_error e :
  Py.startswith (str "Error running org-agenda: " ++ e) (str "Error") = true.
Proof. reflexivity. Qed.

End AgendaFacts.

(** X12.  Every scheduled item is well formed and comes from a heading
    of the document: its date is four digits, a dash, two digits, a
    dash and two digits; the content of some heading of the document
    holds the keyword of its type, a run of whitespace, an opening
    bracket, that date and a closing tail; and its title, todo state
    and level are those of that heading.  A document gives at most two
    items per heading. *)
Theorem scheduled_items_well_formed is_decimal file_content :
  Forall
    (fun it =>
       is_date is_decimal (i_date it) = true
       /\ exists h pre ws tl,
            In h (extract_headings file_content)
            /\ it = item_of (i_type it) (i_date it) h
            /\ content h
               = pre
                 ++ match i_type it with
                    | scheduled => str "SCHEDULED:"
                    | deadline => str "DEADLINE:"
                    end
                 ++ ws ++ chr "<" :: i_date it ++ tl
            /\ forallb Py.is_space ws = true
            /\ closes tl = true)
    (extract_scheduled_items is_decimal file_content)
  /\ length (extract_scheduled_items is_decimal file_content)
     <= 2 * length (extract_headings file_content).
Proof.
  unfold extract_scheduled_items, items_of_headings.
  rewrite (MarkerFacts.fold_items is_decimal (extract_headings file_content)
             []).
  cbn [app]. generalize (extract_headings file_content) as hs. intros hs.
  split.
  - apply Forall_forall. intros it Hit.
    apply in_flat_map in Hit as (h & Hh & Hit).
    rewrite AgendaFacts.items_of_heading_cases in Hit.
    apply in_app_or in Hit as [Hit | Hit].
    + destruct (first_marker is_decimal (str "SCHEDULED:") (content h))
        as [d|] eqn:E; [|contradiction].
      destruct Hit as [<- | []]. cbn [item_of i_date i_type].
      destruct (AgendaFacts.first_marker_shape _ _ _ E)
        as (Hd & pre & ws & tl & Hc & Hws & Hcl).
      split; [exact Hd|]. exists h, pre, ws, tl. auto.
    + destruct (first_marker is_decimal (str "DEADLINE:") (content h))
        as [d|] eqn:E; [|contradiction].
      destruct Hit as [<- | []]. cbn [item_of i_date i_type].
      destruct (AgendaFacts.first_marker_shape _ _ _ E)
        as (Hd & pre & ws & tl & Hc & Hws & Hcl).
      split; [exact Hd|]. exists h, pre, ws, tl. auto.
  - induction hs as [|h hs IH]; [apply le_n|].
    cbn [flat_map length]. rewrite length_app.
    rewrite AgendaFacts.items_of_heading_cases.
    destruct (first_marker is_decimal (str "SCHEDULED:") (content h));
      destruct (first_marker is_decimal (str "DEADLINE:") (content h));
      cbn [app length]; lia.
Qed.

(** X13.  The output of Emacs is returned exactly when Emacs completed
    and its output does not start with "Error".  A missing Emacs, a
    non-zero exit or an output that happens to start with "Error"
    never reaches the caller as Emacs output; for the agenda both
    commands must pass the test. *)
Theorem emacs_output_used_iff is_decimal emacs org_files :
  (forall out,
     get_org_todos emacs org_files = TodosEmacs out
     <-> emacs (str "(org-todo-list)") = Completed out
         /\ Py.startswith out (str "Error") = false)
  /\ (forall out,
        get_org_schedule is_decimal emacs org_files = ScheduleEmacs out
        <-> emacs (str "(org-agenda-list)") = Completed out
            /\ Py.startswith out (str "Error") = false)
  /\ (forall agenda todos,
        get_org_agenda is_decimal emacs org_files
        = AgendaEmacs agenda todos
        <-> emacs (str "(org-agenda-list)") = Completed agenda
            /\ emacs (str "(org-todo-list)") = Completed todos
            /\ Py.startswith agenda (str "Error") = false
            /\ Py.startswith todos (str "Error") = false).
Proof.
  unfold get_org_todos, get_org_schedule, get_org_agenda,
    run_org_agenda_command.
  split; [|split].
  - intros out. split.
    + destruct (emacs (str "(org-todo-list)")) as [o|e| |e];
        try (rewrite AgendaFacts.error_message_starts_with_error);
        try discriminate.
      destruct (Py.startswith o (str "Error")) eqn:E; [discriminate|].
      intros H. injection H as <-. auto.
    + intros [-> ->]. reflexivity.
  - intros out. split.
    + destruct (emacs (str "(org-agenda-list)")) as [o|e| |e];
        try (rewrite AgendaFacts.error_message_starts_with_error);
        try discriminate.
      destruct (Py.startswith o (str "Error")) eqn:E; [discriminate|].
      intros H. injection H as <-. auto.
    + intros [-> ->]. reflexivity.
  - intros agenda todos. split.
    + destruct (emacs (str "(org-agenda-list)")) as [a|e| |e];
        destruct (emacs (str "(org-todo-list)")) as [t|e'| |e'];
        try (rewrite AgendaFacts.error_message_starts_with_error);
        rewrite ?orb_true_r; cbn [orb];
        try discriminate;
        try (destruct (manual_agenda is_decimal org_files); discriminate).
      destruct (Py.startswith a (str "Error")) eqn:Ea;
        [cbn [orb]; destruct (manual_agenda is_decimal org_files);
         discriminate|].
      destruct (Py.startswith t (str "Error")) eqn:Et;
        [cbn [orb]; destruct (manual_agenda is_decimal org_files);
         discriminate|].
      cbn [orb]. intros H. injection H as <- <-. auto.
    + intros (-> & -> & -> & ->). reflexivity.
Qed.

(** X14.  The agenda is the schedule and the todos.  When
    [get_org_agenda] returns Emacs output, the two texts are what
    [get_org_schedule] and [get_org_todos] return.  When it falls back,
    its todos and its scheduled items are those the two other tools
    compute by hand, and at least one of the two falls back as well;
    the output of a command that did succeed is dropped.  When it
    fails, one of the two fails with the same message. *)
Theorem agenda_combines_todos_and_schedule is_decimal emacs org_files :
  match get_org_agenda is_decimal emacs org_files with
  | AgendaEmacs agenda todos =>
      get_org_schedule is_decimal emacs org_files = ScheduleEmacs agenda
      /\ get_org_todos emacs org_files = TodosEmacs todos
  | AgendaManual todos scheduled_items =>
      todos = manual_todos org_files
      /\ scheduled_items
         = sort_by_date (manual_scheduled is_decimal org_files)
      /\ (get_org_schedule is_decimal emacs org_files
          = ScheduleManual scheduled_items
          \/ get_org_todos emacs org_files = TodosManual todos)
  | AgendaError e =>
      get_org_schedule is_decimal emacs org_files = ScheduleError e
      \/ get_org_todos emacs org_files = TodosError e
  end.
Proof.
  unfold get_org_agenda, get_org_schedule, get_org_todos.
  rewrite AgendaFacts.manual_agenda_pair.
  destruct (run_org_agenda_command emacs (str "(org-agenda-list)"))
    as [a|e]; [|left; reflexivity].
  destruct (run_org_agenda_command emacs (str "(org-todo-list)"))
    as [t|e]; [|right; reflexivity].
  destruct (Py.startswith a (str "Error")),
    (Py.startswith t (str "Error")); cbn [orb]; auto.
Qed.

(** X15.  The todos computed by hand are exactly the headings with a
    todo state other than DONE, in the files that could be read: each
    entry gives the file, the title and the state of such a heading,
    and every such heading has its entry.  A file that cannot be read
    contributes nothing. *)
Theorem manual_todos_lists_open_headings org_files entry :
  In entry (manual_todos org_files)
  <-> exists file_content h,
        In (t_file entry, ReadOk file_content) org_files
        /\ In h (extract_headings file_content)
        /\ title h = t_heading entry
        /\ todo_state h = Some (t_state entry)
        /\ t_state entry <> str "DONE".
Proof.
  rewrite AgendaFacts.manual_todos_flat. rewrite in_flat_map. split.
  - intros ([p r] & Hfile & Hin). unfold todos_of_file in Hin.
    cbn [fst snd] in Hin. destruct r as [c|e]; [|contradiction].
    rewrite AgendaFacts.todos_of_headings_flat in Hin. cbn [app] in Hin.
    apply in_flat_map in Hin as (h & Hh & Hin).
    destruct (todo_state h) as [s|] eqn:Es; [|contradiction].
    destruct (is_open_state (Some s)) eqn:Eo; [|contradiction].
    destruct Hin as [<- | []]. cbn [t_file t_heading t_state].
    exists c, h. repeat split; auto.
    apply AgendaFacts.open_state_cases in Eo as [-> | ->]; discriminate.
  - intros (c & h & Hfile & Hh & Ht & Hs & Hd).
    exists (t_file entry, ReadOk c). split; [exact Hfile|].
    unfold todos_of_file. cbn [fst snd].
    rewrite AgendaFacts.todos_of_headings_flat. cbn [app].
    apply in_flat_map. exists h. split; [exact Hh|].
    rewrite Hs.
    assert (Ho : is_open_state (Some (t_state entry)) = true).
    { pose proof (parse_lines_valid
                    (LineFacts.splitlines_one_line c)) as Hv.
      rewrite Forall_forall in Hv. specialize (Hv h Hh).
      destruct Hv as (_ & _ & _ & [Hn | (tok & Htok & Hin)] & _);
        [congruence|].
      rewrite Hs in Htok. injection Htok as <-.
      cbn [In todo_tokens] in Hin.
      apply AgendaFacts.open_state_cases.
      destruct Hin as [E | [E | [E | []]]]; auto.
      symmetry in E. contradiction. }
    rewrite Ho. left. destruct entry as [f t s]. cbn in *.
    rewrite Ht. reflexivity.
Qed.

(** X16.  The scheduled items are sorted by their date string, and the
    sort is stable: the result is a permutation of the items collected,
    no item stands before one with a smaller date, and the items of
    one date keep the order in which they were collected. *)
Theorem sort_by_date_stable_sorted items :
  Permutation items (sort_by_date items)
  /\ StronglySorted (PySort.key_le (fun x => i_date (f_item x)))
       (sort_by_date items)
  /\ forall date,
       filter (fun x => Py.eqb (i_date (f_item x)) date)
         (sort_by_date items)
       = filter (fun x => Py.eqb (i_date (f_item x)) date) items.
Proof.
  unfold sort_by_date. split; [apply SortFacts.sort_perm|].
  split; [apply SortFacts.sort_sorted|].
  intros date. apply SortFacts.sort_filter.
Qed.

(** ** Dates in order *)

Module DateFacts.

Lemma ascii_decimal_range c :
  ascii_decimal c = true -> (48 <= c <= 57)%N.
Proof.
  unfold ascii_decimal. intros H. apply andb_true_iff in H as [H1 H2].
  apply N.leb_le in H1, H2. lia.
Qed.

Lemma digit_split c :
  (48 <= c)%N -> (c <= 57)%N -> exists v, c = (v + 48)%N /\ (v <= 9)%N.
Proof. intros H1 H2. exists (c - 48)%N. lia. Qed.

Ltac compare_digits x y :=
  let L := fresh "L" in
  let E := fresh "E" in
  let G := fresh "G" in
  destruct (N.lt_trichotomy x y) as [L | [E | G]];
  [ rewrite (proj2 (N.ltb_lt x y) L); cbn [orb];
    split; [intros _; lia | reflexivity]
  | rewrite E, N.ltb_irrefl, N.eqb_refl; cbn [orb andb];
    apply N.add_cancel_r in E
  | rewrite (proj2 (N.ltb_ge x y)) by lia;
    rewrite (proj2 (N.eqb_neq x y)) by lia; cbn [orb andb];
    split; [discriminate | lia] ].

(** On dates written with ASCII digits the order of the strings is the
    order of the days. *)
Lemma ltb_date_number a b :
  is_date ascii_decimal a = true ->
  is_date ascii_decimal b = true ->
  PySort.ltb a b = true <-> (date_number a < date_number b)%N.
Proof.
  intros Ha Hb.
  do 10 (destruct a as [|?a a]; [discriminate|]).
  destruct a; [|discriminate].
  do 10 (destruct b as [|?b b]; [discriminate|]).
  destruct b; [|discriminate].
  cbn [is_date] in Ha, Hb. unfold ascii_decimal in Ha, Hb.
  repeat match goal with
         | H : (_ && _)%bool = true |- _ =>
             apply andb_true_iff in H as [? ?]
         end.
  repeat match goal with
         | H : N.leb _ _ = true |- _ => apply N.leb_le in H
         | H : N.eqb _ _ = true |- _ => apply N.eqb_eq in H
         end.
  change (chr "-") with 45%N in *. subst.
  repeat match goal with
         | H1 : (48 <= ?c)%N, H2 : (?c <= 57)%N |- _ =>
             let v := fresh "v" in
             let Hv := fresh "Hv" in
             destruct (digit_split H1 H2) as (v & -> & Hv);
             clear H1 H2
         end.
  cbn [PySort.ltb date_number]. unfold digit_value.
  rewrite !N.add_sub.
  change (45 <? 45)%N with false. change (45 =? 45)%N with true.
  cbn [orb andb].
  repeat match goal with
         | |- context [N.ltb (?x + 48) (?y + 48)] =>
             compare_digits (x + 48)%N (y + 48)%N
         end.
  split; [discriminate | lia].
Qed.

Lemma sorted_weaken (A : Type) (P : A -> Prop) (R R' : A -> A -> Prop)
    (l : list A) :
  (forall x y, P x -> P y -> R x y -> R' x y) ->
  Forall P l -> StronglySorted R l -> StronglySorted R' l.
Proof.
  intros Himp HP Hs. induction Hs as [|x l Hs IH Hx].
  - constructor.
  - inversion HP as [|? ? Px Pl]; subst.
    constructor; [apply IH; exact Pl|].
    rewrite Forall_forall in Hx, Pl |- *.
    intros y Hy. apply Himp; auto.
Qed.

End DateFacts.

(** X17.  When every date collected is written with the ten ASCII
    digits, the schedule is in the order of the calendar: no item
    stands before one of an earlier day. *)
Theorem sort_by_date_chronological items :
  Forall (fun x => is_date ascii_decimal (date_of x) = true) items ->
  StronglySorted
    (fun x y => (date_number (date_of x) <= date_number (date_of y))%N)
    (sort_by_date items).
Proof.
  intros Hall.
  apply (@DateFacts.sorted_weaken _
           (fun x => is_date ascii_decimal (date_of x) = true)
           (PySort.key_le date_of)).
  - intros x y Hx Hy Hle. unfold PySort.key_le in Hle.
    destruct (N.le_gt_cases (date_number (date_of x))
                (date_number (date_of y))) as [H | H]; [exact H|].
    apply (@DateFacts.ltb_date_number _ _ Hy Hx) in H. congruence.
  - eapply Permutation_Forall; [|exact Hall].
    apply (SortFacts.sort_perm date_of).
  - apply (SortFacts.sort_sorted date_of).
Qed.

(** Three items collected out of order. *)
Lemma sort_by_date_chronological_witness :
  StronglySorted
    (fun x y => (date_number (date_of x) <= date_number (date_of y))%N)
    (sort_by_date
       [{| f_item := {| i_type := deadline; i_date := str "2024-01-15";
                        i_title := str "Write report";
                        i_todo_state := None; i_level := 1 |};
           f_file := str "notes.org" |};
        {| f_item := {| i_type := scheduled; i_date := str "2023-12-31";
                        i_title := str "Buy milk";
                        i_todo_state := Some (str "TODO"); i_level := 1 |};
           f_file := str "notes.org" |};
        {| f_item := {| i_type := scheduled; i_date := str "2024-01-10";
                        i_title := str "Call Bob";
                        i_todo_state := None; i_level := 2 |};
           f_file := str "work/plan.org" |}]).
Proof.
  apply sort_by_date_chronological.
  repeat constructor.
Defined.

(** ** Reading what the mutator wrote *)

Module RereadFacts.
Import HeadingFacts LineFacts MoreLineFacts SplitFacts MutationFacts.
Import AddFacts AddParseFacts.



Lemma splitlines_linebreak_free s :
  Forall (fun l => forallb not_linebreak l = true) (Py.splitlines s).
Proof.
  unfold Py.splitlines. apply Forall_map. apply split_ends_lines.
Qed.






End RereadFacts.



(** ** Paths *)



(** ** Searching *)

Module SearchFacts.

Lemma contains_nil hay : contains hay [] = true.
Proof. destruct hay; reflexivity. Qed.

Section WithLower.

Variable lower : text -> text.

Lemma found_in_headings_filter query hs :
  found_in_headings lower query hs
  = map match_of
      (filter
         (fun h =>
            contains (lower (title h)) (lower query)
            || contains (lower (content h)) (lower query)) hs).
Proof.
  unfold found_in_headings.
  enough (H : forall acc,
    fold_left
      (fun found h =>
         if contains (lower (title h)) (lower query)
            || contains (lower (content h)) (lower query)
         then found ++ [match_of h]
         else found) hs acc
    = acc
      ++ map match_of
           (filter
              (fun h =>
                 contains (lower (title h)) (lower query)
                 || contains (lower (content h)) (lower query)) hs))
    by apply (H []).
  induction hs as [|h hs IH]; intros acc.
  - symmetry. apply app_nil_r.
  - cbn [fold_left filter]. rewrite IH.
    destruct (contains (lower (title h)) (lower query)
              || contains (lower (content h)) (lower query));
      [|reflexivity].
    cbn [map]. rewrite <- app_assoc. reflexivity.
Qed.

Lemma search_org_files_flat query org_files :
  search_org_files lower query org_files
  = flat_map
      (fun file =>
         match snd file with
         | ReadOk file_content =>
             if contains (lower file_content) (lower query)
             then [{| m_file_path := fst file;
                      matches_in_headings :=
                        found_in_headings lower query
                          (extract_headings file_content) |}]
             else []
         | ReadRaises _ => []
         end) org_files.
Proof.
  unfold search_org_files.
  enough (H : forall acc,
    fold_left
      (fun matches file =>
         match snd file with
         | ReadOk file_content =>
             if contains (lower file_content) (lower query)
             then matches
                  ++ [{| m_file_path := fst file;
                         matches_in_headings :=
                           found_in_headings lower query
                             (extract_headings file_content) |}]
             else matches
         | ReadRaises _ => matches
         end) org_files acc
    = acc
      ++ flat_map
           (fun file =>
              match snd file with
              | ReadOk file_content =>
                  if contains (lower file_content) (lower query)
                  then [{| m_file_path := fst file;
                           matches_in_headings :=
                             found_in_headings lower query
                               (extract_headings file_content) |}]
                  else []
              | ReadRaises _ => []
              end) org_files)
    by apply (H []).
  induction org_files as [|[p r] fs IH]; intros acc.
  - symmetry. apply app_nil_r.
  - cbn [fold_left flat_map fst snd]. rewrite IH.
    destruct r as [c|e]; [|reflexivity].
    destruct (contains (lower c) (lower query)); [|reflexivity].
    rewrite <- app_assoc. reflexivity.
Qed.

End WithLower.

End SearchFacts.

(** X20.  The empty query finds everything.  Since the empty string
    occurs in every string, a search for it (its lowercase being empty
    too) returns one record for every file that can be read, in the
    order of the files, each with all the headings of the file; the
    files that cannot be read are left out. *)
Theorem search_empty_query lower org_files :
  lower [] = [] ->
  search_org_files lower [] org_files = flat_map whole_file org_files.
Proof.
  intros Hlower. rewrite SearchFacts.search_org_files_flat.
  induction org_files as [|[p r] fs IH]; [reflexivity|].
  cbn [flat_map]. rewrite IH. f_equal.
  unfold whole_file. cbn [fst snd]. destruct r as [c|e]; [|reflexivity].
  rewrite Hlower, SearchFacts.contains_nil.
  rewrite SearchFacts.found_in_headings_filter. rewrite Hlower.
  f_equal. f_equal. f_equal.
  induction (extract_headings c) as [|h hs IHh]; [reflexivity|].
  cbn [filter]. rewrite SearchFacts.contains_nil. cbn [orb].
  rewrite IHh. reflexivity.
Qed.

(** The scenario file and a file that cannot be read. *)
Lemma search_empty_query_witness :
  search_org_files ascii_lower []
    [(str "notes.org", ReadOk scenario);
     (str "locked.org", ReadRaises (str "[Errno 13] Permission denied"))]
  = [{| m_file_path := str "notes.org";
        matches_in_headings :=
          [{| m_title := str "Buy milk"; m_level := 1;
              m_todo_state := Some (str "TODO") |};
           {| m_title := str "Sub task"; m_level := 2;
              m_todo_state := Some (str "DONE") |};
           {| m_title := str "Write report"; m_level := 1;
              m_todo_state := None |}] |}].
Proof.
  apply (@search_empty_query ascii_lower
           [(str "notes.org", ReadOk scenario);
            (str "locked.org",
             ReadRaises (str "[Errno 13] Permission denied"))]).
  reflexivity.
Defined.

(** ** Keeping the content *)

Module KeepFacts.
Import LineFacts MoreLineFacts.

Lemma splitlines_join_drop ls :
  Forall (fun l => forallb not_linebreak l = true) ls ->
  Py.splitlines (Py.join NL ls) = drop_empty_last ls.
Proof.
  induction 1 as [|x rest Hx Hrest IH]; [reflexivity|].
  destruct rest as [|y rest].
  - cbn [Py.join drop_empty_last]. destruct x as [|c x]; [reflexivity|].
    unfold Py.splitlines. rewrite (split_ends_line _ _ Hx). reflexivity.
  - change (drop_empty_last (x :: y :: rest))
      with (x :: drop_empty_last (y :: rest)).
    rewrite <- IH. rewrite join_cons, splitlines_app_lf.
    unfold Py.splitlines at 1. unfold NL.
    rewrite (split_ends_line_lf _ Hx). reflexivity.
Qed.

(** Two cuts of one list at the first element of a kind are the same
    cut. *)
Lemma split_unique (A : Type) (P1 P2 : A -> Prop) (l1 : list A) :
  forall m1 x y l2 m2,
  l1 ++ x :: l2 = m1 ++ y :: m2 ->
  Forall P1 l1 -> ~ P1 y ->
  Forall P2 m1 -> ~ P2 x ->
  l1 = m1 /\ x = y /\ l2 = m2.
Proof.
  induction l1 as [|z l1 IH]; intros [|z' m1] x y l2 m2 E H1 Hy H2 Hx;
    cbn [app] in E; injection E as Ez E.
  - auto.
  - subst z'. inversion H2; subst. contradiction.
  - subst z. inversion H1; subst. contradiction.
  - subst z'. inversion H1; subst. inversion H2; subst.
    destruct (IH _ _ _ _ _ E) as (-> & -> & ->); auto.
Qed.

End KeepFacts.

(** X21.  Keeping the content is not keeping the lines.  When no
    content override is given, the located heading is on a line that
    passes the scan and every heading on such a line has the requested
    title, a successful mutation rewrites the lines of the file as they
    were except for two things: the heading line is replaced by the
    line built from the level, state and title, and the block loses
    its last line when that line is empty - the blank line that
    separated the block from the next heading. *)
Theorem kept_content_loses_empty_last_line
    file_content heading_title nt ns target new_lines :
  locate (extract_headings file_content) heading_title = Some target ->
  modify_lines file_content heading_title nt None ns = inr new_lines ->
  line_selected (raw target) heading_title = true ->
  Forall
    (fun h =>
       line_selected (raw h) heading_title = true ->
       title h = heading_title)
    (extract_headings file_content) ->
  exists before body after,
    Py.splitlines file_content = before ++ raw target :: body ++ after
    /\ content target = Py.join NL body
    /\ new_lines
       = before ++ heading_line_of target nt ns
         :: drop_empty_last body ++ after.
Proof.
  intros Hloc Hmod Hsel Hall.
  apply SplitFacts.modify_lines_split in Hmod
    as (target' & before & l & body & after
        & Hloc' & Hlines & Hl & Hbefore & Hbody & Hafter & ->).
  assert (target' = target) by congruence. subst target'.
  assert (Hhead : is_heading_line l = true).
  { destruct (is_heading_line l) eqn:E; [reflexivity|].
    rewrite (FieldFacts.line_selected_not_heading _ heading_title E) in Hl.
    discriminate. }
  pose proof (@SplitFacts.parse_lines_block before _ _ _ Hhead Hbody Hafter)
    as Hparse.
  rewrite <- Hlines in Hparse. fold (extract_headings file_content) in Hparse.
  destruct (LocatorFacts.locate_some _ _ Hloc)
    as (hb & ha & Hhs & Htitle & Hhb).
  rewrite Hparse in Hhs.
  assert (Hold : raw (set_content (entry_of_line l) (Py.join NL body)) = l).
  { unfold set_content, entry_of_line. cbn [raw].
    apply EntryFacts.entry_raw. }
  assert (Hcut :
    parse_lines before = hb
    /\ set_content (entry_of_line l) (Py.join NL body) = target
    /\ parse_lines after = ha).
  { apply (@KeepFacts.split_unique heading
             (fun h => line_selected (raw h) heading_title = false)
             (fun h => title h <> heading_title)
             _ _ _ _ _ _ Hhs).
    - apply Forall_forall. intros h Hh.
      assert (Hraw : In (raw h) (map raw (parse_lines before)))
        by (apply in_map; exact Hh).
      rewrite MoreLineFacts.parse_lines_raw in Hraw.
      apply filter_In in Hraw as [Hin _].
      rewrite Forall_forall in Hbefore. apply Hbefore. exact Hin.
    - rewrite Hsel. discriminate.
    - exact Hhb.
    - intros Hne. apply Hne.
      rewrite Forall_forall in Hall. apply Hall.
      + rewrite Hparse. apply in_or_app. right. left. reflexivity.
      + rewrite Hold. exact Hl. }
  destruct Hcut as (_ & Htarget & _).
  assert (Hraw : raw target = l) by (rewrite <- Htarget; exact Hold).
  assert (Hcontent : content target = Py.join NL body)
    by (rewrite <- Htarget; reflexivity).
  exists before, body, after.
  split; [rewrite Hraw; exact Hlines|]. split; [exact Hcontent|].
  unfold content_text_of. rewrite Hcontent.
  rewrite KeepFacts.splitlines_join_drop; [reflexivity|].
  pose proof (RereadFacts.splitlines_linebreak_free file_content) as Hfree.
  rewrite Hlines in Hfree.
  apply Forall_app in Hfree as [_ Hfree].
  apply Forall_cons_iff in Hfree as [_ Hfree].
  apply Forall_app in Hfree as [Hfree _]. exact Hfree.
Qed.

(** Marking "Plan" as done removes the blank line before "Review". *)
Lemma kept_content_loses_empty_last_line_witness :
  modify_lines
    (Py.join NL [str "* TODO Plan"; str "text"; []; str "* Review"])
    (str "Plan") None None (Some (str "DONE"))
  = inr [str "* DONE Plan"; str "text"; str "* Review"]
  /\ exists before body after,
       Py.splitlines
         (Py.join NL [str "* TODO Plan"; str "text"; []; str "* Review"])
       = before ++ str "* TODO Plan" :: body ++ after
       /\ str "text" ++ NL = Py.join NL body
       /\ [str "* DONE Plan"; str "text"; str "* Review"]
          = before ++ str "* DONE Plan" :: drop_empty_last body ++ after.
Proof.
  assert (H : modify_lines
                (Py.join NL
                   [str "* TODO Plan"; str "text"; []; str "* Review"])
                (str "Plan") None None (Some (str "DONE"))
              = inr [str "* DONE Plan"; str "text"; str "* Review"])
    by (vm_compute; reflexivity).
  split; [exact H|].
  apply (@kept_content_loses_empty_last_line
           (Py.join NL [str "* TODO Plan"; str "text"; []; str "* Review"])
           (str "Plan") None (Some (str "DONE"))
           {| level := 1; title := str "Plan"; raw := str "* TODO Plan";
              todo_state := Some (str "TODO");
              content := str "text" ++ NL |}
           [str "* DONE Plan"; str "text"; str "* Review"]).
  - vm_compute. reflexivity.
  - exact H.
  - vm_compute. reflexivity.
  - vm_compute.
    repeat constructor; intros H0; first [reflexivity | discriminate].
Defined.
